(** * Device trace offload (xdp/profile/device/device_trace_offload.cpp)

    A shallow embedding of [xdp::DeviceTraceOffload]: the status state
    machine, the clock trainer, the FIFO reader, the stream (TS2MM) reader
    with its window / rollover arithmetic, session initialisation and the
    worker loop.

    Conventions.
    - The object is the record [DeviceTraceOffload]; every member function is
      a function from the object (and the values the device returned during
      the call) to the updated object.  [start_offload], in which the
      process can terminate, returns an [option].
    - Calls on the collaborators ([dev_intf], [deviceTraceLogger],
      [xrt_core::message], [xrt::profile::user_event], [std::thread]) are
      recorded, in program order, in the ghost field [log].
    - [uint64_t] / [uint32_t] arithmetic is on [Z] with the wrap-around
      written out ([u64], [u32]). *)

From Stdlib Require Import ZArith List Bool Lia.
Import ListNotations.
Local Open Scope Z_scope.

(** ** Machine integers *)

Definition u64 (z : Z) : Z := z mod 2 ^ 64.
Definition u32 (z : Z) : Z := z mod 2 ^ 32.

Arguments u64 z : simpl never.
Arguments u32 z : simpl never.

(** ** Types declared by the class header *)

Inductive OffloadThreadStatus := IDLE | RUNNING | STOPPING | STOPPED.
Inductive OffloadThreadType := TRACE | CLOCK_TRAIN.

Definition status_eqb (a b : OffloadThreadStatus) : bool :=
  match a, b with
  | IDLE, IDLE | RUNNING, RUNNING | STOPPING, STOPPING | STOPPED, STOPPED => true
  | _, _ => false
  end.

(** One decoded trace packet ([xclTraceResults]); its payload is opaque here. *)
Definition xclTraceResults := Z.

(** Which member function the constructor bound to [m_read_trace]. *)
Inductive reader := reader_fifo | reader_s2mm.

(** Constants of the trace definitions header.  [TRACE_PACKET_SIZE] is the 8
    printed by [config_s2mm_reader]'s debug line; [TS2MM_MIN_READ_SIZE] is the
    512 B of the comment in [read_trace_s2mm]. *)
Definition TRACE_PACKET_SIZE : Z := 8.
Definition TS2MM_MIN_READ_SIZE : Z := 512.

(** [std::chrono::system_clock] time points are counted in clock ticks
    (nanoseconds with libstdc++); [duration_cast<milliseconds>] truncates
    toward zero. *)
Definition system_clock_ticks_per_ms : Z := 1000000.
Definition duration_cast_milliseconds (d : Z) : Z := Z.quot d system_clock_ticks_per_ms.

(** ** Collaborator calls *)

Inductive event :=
| thread_spawn (type : OffloadThreadType)
| clockTraining (force : bool)
| readTrace
| processTraceData (v : list xclTraceResults)
| endProcessTraceData (v : list xclTraceResults)
| syncTraceBuf (buf offset nBytes : Z)
| parseTraceData (nBytes : Z)
| message_send_warning
| user_event_mark
| allocTraceBuf (sz : Z)
| initTS2MM (sz addr : Z) (circ : bool)
| resetTS2MM
| freeTraceBuf (buf : Z).

(** Static capabilities of the device behind [dev_intf]. *)
Record DeviceIntf := {
  hasFIFO : bool;
  hasTs2mm : bool;
  supportsCircBuf : bool;
  (** [GetDeviceTraceBufferSize(getMonitorProperties(XCL_PERF_MON_FIFO, 0))] *)
  fifo_size : Z
}.

(** ** The object

    The data members of the class.  The integers are [uint64_t], except the
    32-bit [m_rollover_count] and the buffer handle [m_trbuf] (0 when no
    buffer is allocated); the clock reading is in ticks.  [m_read_trace]
    stands for the bound reader, [log] is the ghost record of collaborator
    calls.  Of the member [offload_thread] the object keeps what
    [joinable()] returns: whether a thread has been stored in it. *)

Record DeviceTraceOffload := mkDTO {
  status : OffloadThreadStatus;
  sleep_interval_ms : Z;
  m_trbuf_alloc_sz : Z;
  m_read_trace : reader;
  m_initialized : bool;
  m_force_clk_train : bool;
  m_prev_clk_train_time : Z;
  m_trace_vector : list xclTraceResults;
  m_trbuf : Z;
  m_trbuf_addr : Z;
  m_trbuf_sz : Z;
  m_trbuf_offset : Z;
  m_wordcount_old : Z;
  m_trbuf_full : bool;
  trbuf_offload_done : bool;
  m_use_circ_buf : bool;
  m_rollover_count : Z;
  m_circ_buf_min_rate : Z;
  m_circ_buf_cur_rate : Z;
  log : list event;
  offload_thread_joinable : bool
}.

Definition set_status v o :=
  match o with mkDTO _ b c d e f g h i j k l m n p q r s t u w => mkDTO v b c d e f g h i j k l m n p q r s t u w end.
Definition set_m_initialized v o :=
  match o with mkDTO a b c d _ f g h i j k l m n p q r s t u w => mkDTO a b c d v f g h i j k l m n p q r s t u w end.
Definition set_m_force_clk_train v o :=
  match o with mkDTO a b c d e _ g h i j k l m n p q r s t u w => mkDTO a b c d e v g h i j k l m n p q r s t u w end.
Definition set_m_prev_clk_train_time v o :=
  match o with mkDTO a b c d e f _ h i j k l m n p q r s t u w => mkDTO a b c d e f v h i j k l m n p q r s t u w end.
Definition set_m_trace_vector v o :=
  match o with mkDTO a b c d e f g _ i j k l m n p q r s t u w => mkDTO a b c d e f g v i j k l m n p q r s t u w end.
Definition set_m_trbuf v o :=
  match o with mkDTO a b c d e f g h _ j k l m n p q r s t u w => mkDTO a b c d e f g h v j k l m n p q r s t u w end.
Definition set_m_trbuf_addr v o :=
  match o with mkDTO a b c d e f g h i _ k l m n p q r s t u w => mkDTO a b c d e f g h i v k l m n p q r s t u w end.
Definition set_m_trbuf_sz v o :=
  match o with mkDTO a b c d e f g h i j _ l m n p q r s t u w => mkDTO a b c d e f g h i j v l m n p q r s t u w end.
Definition set_m_trbuf_offset v o :=
  match o with mkDTO a b c d e f g h i j k _ m n p q r s t u w => mkDTO a b c d e f g h i j k v m n p q r s t u w end.
Definition set_m_wordcount_old v o :=
  match o with mkDTO a b c d e f g h i j k l _ n p q r s t u w => mkDTO a b c d e f g h i j k l v n p q r s t u w end.
Definition set_m_trbuf_full v o :=
  match o with mkDTO a b c d e f g h i j k l m _ p q r s t u w => mkDTO a b c d e f g h i j k l m v p q r s t u w end.
Definition set_trbuf_offload_done v o :=
  match o with mkDTO a b c d e f g h i j k l m n _ q r s t u w => mkDTO a b c d e f g h i j k l m n v q r s t u w end.
Definition set_m_use_circ_buf v o :=
  match o with mkDTO a b c d e f g h i j k l m n p _ r s t u w => mkDTO a b c d e f g h i j k l m n p v r s t u w end.
Definition set_m_rollover_count v o :=
  match o with mkDTO a b c d e f g h i j k l m n p q _ s t u w => mkDTO a b c d e f g h i j k l m n p q v s t u w end.
Definition set_m_circ_buf_cur_rate v o :=
  match o with mkDTO a b c d e f g h i j k l m n p q r s _ u w => mkDTO a b c d e f g h i j k l m n p q r s v u w end.

Definition set_offload_thread_joinable v o :=
  match o with mkDTO a b c d e f g h i j k l m n p q r s t u _ => mkDTO a b c d e f g h i j k l m n p q r s t u v end.

(** Record one collaborator call. *)
Definition emit (e : event) o :=
  match o with mkDTO a b c d f g h i j k l m n p q r s t u lg w => mkDTO a b c d f g h i j k l m n p q r s t u (lg ++ [e]) w end.

(** ** Construction *)

(** Modelled from the spec: the default member initialisers, which the
    class header (not among the sources) gives: the status starts at
    [IDLE], the one-shot [m_force_clk_train] starts set, the window, the
    counters and the latches start at zero / false.  The rest is the
    constructor of the source; the minimum circular rate, a header
    constant, is an argument, and [now] is the value of
    [system_clock::now()] the constructor reads.  A default-constructed
    [std::thread] is not joinable. *)
Definition DeviceTraceOffload_ctor (dev : DeviceIntf) (sleep_interval trbuf_sz min_rate now : Z)
  : DeviceTraceOffload :=
  {| status := IDLE;
     sleep_interval_ms := sleep_interval;
     m_trbuf_alloc_sz := trbuf_sz;
     m_read_trace := if hasFIFO dev then reader_fifo else reader_s2mm;
     m_initialized := false;
     m_force_clk_train := true;
     m_prev_clk_train_time := now;
     m_trace_vector := [];
     m_trbuf := 0;
     m_trbuf_addr := 0;
     m_trbuf_sz := 0;
     m_trbuf_offset := 0;
     m_wordcount_old := 0;
     m_trbuf_full := false;
     trbuf_offload_done := false;
     m_use_circ_buf := false;
     m_rollover_count := 0;
     m_circ_buf_min_rate := min_rate;
     m_circ_buf_cur_rate := 0;
     log := [];
     offload_thread_joinable := false |}.

(** ** Status state machine *)

Definition should_continue o : bool := status_eqb (status o) RUNNING.

(** [offload_thread = std::thread(...)]: the new thread is created and then
    move-assigned to [offload_thread].  The assignment calls
    [std::terminate] when [offload_thread] is joinable, which it is from the
    first assignment on: no member function joins or detaches it, only the
    destructor joins.  [None] is the process terminated. *)
Definition assign_offload_thread (type : OffloadThreadType) o : option DeviceTraceOffload :=
  let o := emit (thread_spawn type) o in
  if offload_thread_joinable o then None
  else Some (set_offload_thread_joinable true o).

Definition start_offload (type : OffloadThreadType) o : option DeviceTraceOffload :=
  if status_eqb (status o) RUNNING then Some o
  else
    let o := set_status RUNNING o in
    match type with
    | TRACE => assign_offload_thread TRACE o
    | CLOCK_TRAIN => assign_offload_thread CLOCK_TRAIN o
    end.

Definition stop_offload o : DeviceTraceOffload :=
  if status_eqb (status o) STOPPED then o
  else set_status STOPPING o.

Definition offload_finished o : DeviceTraceOffload :=
  if status_eqb (status o) STOPPED then o
  else set_status STOPPED o.

(** ** Clock training *)

Definition train_clock (now : Z) o : DeviceTraceOffload :=
  let milliseconds := duration_cast_milliseconds (now - m_prev_clk_train_time o) in
  let enough_time_passed := 500 <=? milliseconds in
  let o :=
    if enough_time_passed || m_force_clk_train o
    then set_m_prev_clk_train_time now (emit (clockTraining (m_force_clk_train o)) o)
    else o in
  set_m_force_clk_train false o.

(** ** What the device returns during one read cycle

    [dev_wordcount] is the result of [getWordCountTs2mm()]; [dev_host_buf] is
    the result of [syncTraceBuf] ([None] for a null pointer, otherwise the
    packets [parseTraceData] leaves in [m_trace_vector]); [dev_fifo] lists
    the results of the successive [readTrace] calls, after which the FIFO is
    empty and [readTrace] returns no packet. *)
Record cycle := {
  dev_wordcount : Z;
  dev_host_buf : option (list xclTraceResults);
  dev_fifo : list (list xclTraceResults)
}.

(** ** FIFO reader *)

(** The body of the [do { ... } while (m_trace_vector.size() != 0)] loop;
    [v] is what [readTrace] puts into the cleared [m_trace_vector]. *)
Definition read_trace_fifo_body (v : list xclTraceResults) (num_packets : Z) o
  : Z * DeviceTraceOffload :=
  let o := set_m_trace_vector [] o in
  let o := set_m_trace_vector v (emit readTrace o) in
  let o := emit (processTraceData (m_trace_vector o)) o in
  (u32 (num_packets + u32 (Z.of_nat (length (m_trace_vector o)))), o).

(** The loop; [fifo] is what the device still has to return. *)
Fixpoint read_trace_fifo_loop (fifo : list (list xclTraceResults)) (num_packets : Z) o
  : Z * DeviceTraceOffload :=
  match fifo with
  | [] => read_trace_fifo_body [] num_packets o
  | v :: fifo' =>
      let '(num_packets', o') := read_trace_fifo_body v num_packets o in
      if Z.of_nat (length (m_trace_vector o')) =? 0 then (num_packets', o')
      else read_trace_fifo_loop fifo' num_packets' o'
  end.

(** [win32] selects the [_WIN32] build, where the body runs once. *)
Definition read_trace_fifo (win32 : bool) (dev : DeviceIntf) (c : cycle) o : DeviceTraceOffload :=
  if m_trbuf_full o then o
  else
    let '(num_packets, o) :=
      if win32 then read_trace_fifo_body (hd [] (dev_fifo c)) 0 o
      else read_trace_fifo_loop (dev_fifo c) 0 o in
    if negb (m_trbuf_full o) then
      if fifo_size dev <=? num_packets then set_m_trbuf_full true o else o
    else o.

(** ** Stream reader: window / overrun policy *)

(** "Offload cannot keep up with the DMA":
    [bytes_written > bytes_read + m_trbuf_alloc_sz] on [uint64_t]. *)
Definition offload_cannot_keep_up (bytes_written bytes_read alloc_sz : Z) : bool :=
  u64 (bytes_read + alloc_sz) <? bytes_written.

Definition config_s2mm_reader (wordCount : Z) o : bool * DeviceTraceOffload :=
  if trbuf_offload_done o then (false, o)
  else
    let bytes_written := u64 (wordCount * TRACE_PACKET_SIZE) in
    let bytes_read := u64 (u64 (m_rollover_count o * m_trbuf_alloc_sz o) + m_trbuf_sz o) in
    if offload_cannot_keep_up bytes_written bytes_read (m_trbuf_alloc_sz o) then
      let o := set_m_trbuf_offset (m_trbuf_sz o) o in
      let o := set_trbuf_offload_done true o in
      let o := emit message_send_warning o in
      let o := emit user_event_mark o in
      let o := stop_offload o in
      (false, o)
    else
      let o := set_m_trbuf_offset (m_trbuf_sz o) o in
      let advance o :=
        let o := set_m_trbuf_sz
                   (u64 (bytes_written - u64 (m_rollover_count o * m_trbuf_alloc_sz o))) o in
        let o := if m_trbuf_alloc_sz o <? m_trbuf_sz o
                 then set_m_trbuf_sz (m_trbuf_alloc_sz o) o else o in
        (true, o) in
      if m_trbuf_offset o =? m_trbuf_alloc_sz o then
        if negb (m_use_circ_buf o) then
          let o := set_trbuf_offload_done true o in
          let o := stop_offload o in
          (false, o)
        else
          let o := set_m_rollover_count (u32 (m_rollover_count o + 1)) o in
          let o := set_m_trbuf_offset 0 o in
          advance o
      else advance o.

Definition read_trace_s2mm (force : bool) (c : cycle) o : DeviceTraceOffload :=
  let wordcount := dev_wordcount c in
  let bytes_written := u64 (u64 (wordcount - m_wordcount_old o) * TRACE_PACKET_SIZE) in
  if negb force && (bytes_written <? TS2MM_MIN_READ_SIZE) then o
  else
    let o := set_m_wordcount_old wordcount o in
    let '(ok, o) := config_s2mm_reader wordcount o in
    if negb ok then o
    else
      let nBytes := u64 (m_trbuf_sz o - m_trbuf_offset o) in
      let o := emit (syncTraceBuf (m_trbuf o) (m_trbuf_offset o) nBytes) o in
      match dev_host_buf c with
      | None => o
      | Some packets =>
          let o := emit (parseTraceData nBytes) o in
          let o := set_m_trace_vector packets o in
          let o := emit (processTraceData (m_trace_vector o)) o in
          let o := set_m_trace_vector [] o in
          if (m_trbuf_sz o =? m_trbuf_alloc_sz o) && negb (m_use_circ_buf o)
          then set_m_trbuf_full true o else o
      end.

(** The call through the bound [m_read_trace]. *)
Definition call_m_read_trace (win32 : bool) (dev : DeviceIntf) (force : bool) (c : cycle) o
  : DeviceTraceOffload :=
  match m_read_trace o with
  | reader_fifo => read_trace_fifo win32 dev c o
  | reader_s2mm => read_trace_s2mm force c o
  end.

(** ** Session initialisation and teardown *)

(** What the device returns during [init_s2mm]: the handle from
    [allocTraceBuf] (0 when the allocation fails) and the address from
    [getDeviceAddr]. *)
Record init_response := {
  dev_alloc : Z;
  dev_addr : Z
}.

Definition reset_s2mm o : DeviceTraceOffload :=
  if m_trbuf o =? 0 then o
  else
    let o := if m_use_circ_buf o then emit (initTS2MM 0 (m_trbuf_addr o) false) o else o in
    let o := emit resetTS2MM o in
    let o := emit (freeTraceBuf (m_trbuf o)) o in
    set_m_trbuf 0 o.

Definition init_s2mm (dev : DeviceIntf) (r : init_response) (circ_buf : bool) o
  : bool * DeviceTraceOffload :=
  let o := if negb (m_trbuf o =? 0) then reset_s2mm o else o in
  if m_trbuf_alloc_sz o =? 0 then (false, o)
  else
    let o := set_m_trbuf (dev_alloc r) (emit (allocTraceBuf (m_trbuf_alloc_sz o)) o) in
    if m_trbuf o =? 0 then (false, o)
    else
      let o :=
        if supportsCircBuf dev && circ_buf then
          if negb (sleep_interval_ms o =? 0) then
            let o := set_m_circ_buf_cur_rate
                       (u64 (m_trbuf_alloc_sz o * (1000 / sleep_interval_ms o))) o in
            if m_circ_buf_min_rate o <=? m_circ_buf_cur_rate o
            then set_m_use_circ_buf true o else o
          else set_m_use_circ_buf true o
        else o in
      let o := set_m_trbuf_addr (dev_addr r) o in
      let o := emit (initTS2MM (m_trbuf_alloc_sz o) (m_trbuf_addr o) (m_use_circ_buf o)) o in
      (true, o).

Definition read_trace_init (dev : DeviceIntf) (r : init_response) (circ_buf : bool) o
  : bool * DeviceTraceOffload :=
  let o := set_m_trbuf_full false o in
  let o := set_trbuf_offload_done false o in
  let o :=
    if hasTs2mm dev then
      let '(ok, o) := init_s2mm dev r circ_buf o in set_m_initialized ok o
    else if hasFIFO dev then set_m_initialized true o
    else set_m_initialized false o in
  (m_initialized o, o).

Definition read_trace_end (dev : DeviceIntf) o : DeviceTraceOffload :=
  let o := set_m_trace_vector [] o in
  let o := emit (endProcessTraceData (m_trace_vector o)) o in
  if hasTs2mm dev then set_m_initialized false (reset_s2mm o) else o.

(** ** The worker

    One iteration of the worker loop sees the clock ([tick_now]), the device
    ([tick_cycle]) and, while it sleeps, possibly a [stop_offload] from the
    controller thread ([tick_stop]).  The status is read only at the top of
    the loop, so a stop request arriving earlier in the iteration has the
    same effect. *)
Record tick := {
  tick_now : Z;
  tick_cycle : cycle;
  tick_stop : bool
}.

(** [while (should_continue()) { train_clock(); m_read_trace(false); sleep }].
    The list holds the iterations the environment provides; [None] means the
    worker is still looping when they are used up. *)
Fixpoint offload_loop (win32 : bool) (dev : DeviceIntf) (ticks : list tick) o
  : option DeviceTraceOffload :=
  if should_continue o then
    match ticks with
    | [] => None
    | t :: ticks' =>
        let o := train_clock (tick_now t) o in
        let o := call_m_read_trace win32 dev false (tick_cycle t) o in
        let o := if tick_stop t then stop_offload o else o in
        offload_loop win32 dev ticks' o
    end
  else Some o.

Definition offload_device_continuous (win32 : bool) (dev : DeviceIntf) (r : init_response)
    (ticks : list tick) (final : cycle) o : option DeviceTraceOffload :=
  let '(ok, o) := if m_initialized o then (true, o) else read_trace_init dev r true o in
  if negb ok then Some o
  else
    match offload_loop win32 dev ticks o with
    | None => None
    | Some o =>
        let o := call_m_read_trace win32 dev true final o in
        let o := read_trace_end dev o in
        Some (offload_finished o)
    end.

Fixpoint train_clock_loop (ticks : list tick) o : option DeviceTraceOffload :=
  if should_continue o then
    match ticks with
    | [] => None
    | t :: ticks' =>
        let o := train_clock (tick_now t) o in
        let o := if tick_stop t then stop_offload o else o in
        train_clock_loop ticks' o
    end
  else Some o.

Definition train_clock_continuous (ticks : list tick) o : option DeviceTraceOffload :=
  match train_clock_loop ticks o with
  | None => None
  | Some o => Some (offload_finished o)
  end.

(** ** Runs

    Sequences of calls, used to state properties of whole sessions. *)

Inductive controller_call :=
| call_start (type : OffloadThreadType)
| call_stop.

Definition do_call (c : controller_call) o : option DeviceTraceOffload :=
  match c with
  | call_start type => start_offload type o
  | call_stop => Some (stop_offload o)
  end.

(** The calls in order; [None] when the process terminates in one of them. *)
Fixpoint run_calls (cs : list controller_call) o : option DeviceTraceOffload :=
  match cs with
  | [] => Some o
  | c :: cs' =>
      match do_call c o with
      | Some o' => run_calls cs' o'
      | None => None
      end
  end.


(** Successive [train_clock] calls at the given clock readings. *)
Definition train_clock_run (times : list Z) o : DeviceTraceOffload :=
  fold_left (fun o now => train_clock now o) times o.

(** [train_clock], called at [now] on [o], called [clockTraining]. *)
Definition clock_trained (now : Z) o : Prop :=
  exists force, log (train_clock now o) = log o ++ [clockTraining force].

(** The chunks one FIFO cycle reads from a device that has [fifo] to
    return: up to and including the first empty one ([readTrace] on an
    exhausted device returns no packet). *)
Fixpoint drained_chunks (fifo : list (list xclTraceResults)) : list (list xclTraceResults) :=
  match fifo with
  | [] => [[]]
  | v :: fifo' => if Z.of_nat (length v) =? 0 then [v] else v :: drained_chunks fifo'
  end.

Definition cycle_chunks (win32 : bool) (c : cycle) : list (list xclTraceResults) :=
  if win32 then [hd [] (dev_fifo c)] else drained_chunks (dev_fifo c).

(** Total number of packets in a list of chunks. *)
Definition packet_count (chunks : list (list xclTraceResults)) : Z :=
  fold_right (fun v n => Z.of_nat (length v) + n) 0 chunks.

(** The collaborator calls that read and deliver the given chunks. *)
Definition fifo_events (chunks : list (list xclTraceResults)) : list event :=
  flat_map (fun v => [readTrace; processTraceData v]) chunks.


(** Successive stream read cycles, each with its [force] argument. *)
Definition run_s2mm (cs : list (bool * cycle)) o : DeviceTraceOffload :=
  fold_left (fun o fc => read_trace_s2mm (fst fc) (snd fc) o) cs o.

(** The cycle is not skipped by the minimum read size: it is forced, or at
    least [TS2MM_MIN_READ_SIZE] bytes were written since the last cycle that
    was not skipped. *)
Definition cycle_accepted (force : bool) (c : cycle) o : Prop :=
  force = true \/
  TS2MM_MIN_READ_SIZE <= u64 (u64 (dev_wordcount c - m_wordcount_old o) * TRACE_PACKET_SIZE).

(** Bytes written since the session started, as the device reports them in
    this cycle, and bytes read so far, as [config_s2mm_reader] computes
    them. *)
Definition bytes_written_since_start (c : cycle) : Z :=
  u64 (dev_wordcount c * TRACE_PACKET_SIZE).

Definition bytes_read_total o : Z :=
  u64 (u64 (m_rollover_count o * m_trbuf_alloc_sz o) + m_trbuf_sz o).

(** The facts about the stream window that every read cycle keeps: the
    window start is at most the window end, the window end is at most the
    allocation size, and the bytes read so far are at most the bytes the
    device had written when the window was last moved. *)
Definition s2mm_inv o : Prop :=
  0 <= m_trbuf_offset o <= m_trbuf_sz o /\
  m_trbuf_sz o <= m_trbuf_alloc_sz o /\
  0 <= m_rollover_count o /\
  m_rollover_count o * m_trbuf_alloc_sz o + m_trbuf_sz o
    <= m_wordcount_old o * TRACE_PACKET_SIZE.

(** The byte count of a device word counter fits [uint64_t], and the
    rollover count it implies fits the 32-bit [m_rollover_count]. *)
Definition wordcount_in_range (alloc_sz wordcount : Z) : Prop :=
  wordcount * TRACE_PACKET_SIZE < 2 ^ 64 /\
  wordcount * TRACE_PACKET_SIZE < 2 ^ 32 * alloc_sz.

(** The device word counter never decreases: each cycle reports at least
    what the cycle before reported, starting from [prev]. *)
Fixpoint counter_monotone (prev : Z) (cs : list (bool * cycle)) : Prop :=
  match cs with
  | [] => True
  | fc :: cs' =>
      prev <= dev_wordcount (snd fc) /\ counter_monotone (dev_wordcount (snd fc)) cs'
  end.

(** The cycle reaches the "start offload from previous offset" step with
    the previous window end equal to the allocation size, in circular mode:
    it is not skipped, the done latch is clear, there is no overrun. *)
Definition window_start_wraps (force : bool) (c : cycle) o : bool :=
  (force ||
   (TS2MM_MIN_READ_SIZE <=? u64 (u64 (dev_wordcount c - m_wordcount_old o) * TRACE_PACKET_SIZE)))
  && negb (trbuf_offload_done o)
  && negb (offload_cannot_keep_up (bytes_written_since_start c) (bytes_read_total o)
             (m_trbuf_alloc_sz o))
  && (m_trbuf_sz o =? m_trbuf_alloc_sz o)
  && m_use_circ_buf o.

(** The window end [config_s2mm_reader] computes in a cycle that does not
    wrap: the bytes written, less the buffers already traversed, clipped to
    the allocation size. *)
Definition next_window_end (c : cycle) o : Z :=
  let e := u64 (bytes_written_since_start c - u64 (m_rollover_count o * m_trbuf_alloc_sz o)) in
  if m_trbuf_alloc_sz o <? e then m_trbuf_alloc_sz o else e.

(** The bytes [off, off + n) of the trace buffer are covered by a
    [syncTraceBuf] call of the log [l]. *)
Definition synced (off n : Z) (l : list event) : Prop :=
  exists buf off' n', In (syncTraceBuf buf off' n') l /\ off' <= off /\ off + n <= off' + n'.


(** ** Sample sessions

    A stream-only device, and an object constructed at time 0, started in
    trace mode and initialised as the worker does it. *)

Definition demo_dev : DeviceIntf :=
  {| hasFIFO := false; hasTs2mm := true; supportsCircBuf := true; fifo_size := 8192 |}.

Definition demo_init : init_response := {| dev_alloc := 1; dev_addr := 4096 |}.

Definition demo_cycle (wordcount : Z) (buf : option (list xclTraceResults)) : cycle :=
  {| dev_wordcount := wordcount; dev_host_buf := buf; dev_fifo := [] |}.

(** The object after a [start_offload] that returns. *)
Definition started (type : OffloadThreadType) o : DeviceTraceOffload :=
  match start_offload type o with
  | Some o' => o'
  | None => o
  end.

Definition demo_session (sleep_interval trbuf_sz : Z) : DeviceTraceOffload :=
  snd (read_trace_init demo_dev demo_init true
         (started TRACE
            (DeviceTraceOffload_ctor demo_dev sleep_interval trbuf_sz 104857600 0))).

(** ** Sequences of owner calls

    Read cycles through the bound reader, and the calls the owner of the
    object makes around them. *)

Definition run_reads (win32 : bool) (dev : DeviceIntf) (cs : list (bool * cycle)) o
  : DeviceTraceOffload :=
  fold_left (fun o fc => call_m_read_trace win32 dev (fst fc) (snd fc) o) cs o.

Inductive lifecycle_op :=
| op_start (type : OffloadThreadType)
| op_stop
| op_finished
| op_train (now : Z)
| op_init (r : init_response) (circ_buf : bool)
| op_read (force : bool) (c : cycle)
| op_end.

Definition do_op (win32 : bool) (dev : DeviceIntf) (op : lifecycle_op) o
  : option DeviceTraceOffload :=
  match op with
  | op_start type => start_offload type o
  | op_stop => Some (stop_offload o)
  | op_finished => Some (offload_finished o)
  | op_train now => Some (train_clock now o)
  | op_init r circ_buf => Some (snd (read_trace_init dev r circ_buf o))
  | op_read force c => Some (call_m_read_trace win32 dev force c o)
  | op_end => Some (read_trace_end dev o)
  end.

(** The calls in order; [None] when the process terminates in one of them. *)
Fixpoint run_ops (win32 : bool) (dev : DeviceIntf) (ops : list lifecycle_op) o
  : option DeviceTraceOffload :=
  match ops with
  | [] => Some o
  | op :: ops' =>
      match do_op win32 dev op o with
      | Some o' => run_ops win32 dev ops' o'
      | None => None
      end
  end.

(** How many threads the log has spawned. *)
Definition spawned (l : list event) : nat :=
  length (filter (fun e => match e with thread_spawn _ => true | _ => false end) l).

(** The buffer handles passed to [freeTraceBuf], in order. *)
Fixpoint freed (l : list event) : list Z :=
  match l with
  | [] => []
  | freeTraceBuf buf :: l' => buf :: freed l'
  | _ :: l' => freed l'
  end.

(** The buffer the object holds, if any. *)
Definition outstanding o : list Z :=
  if m_trbuf o =? 0 then [] else [m_trbuf o].

(** The handles the device hands out to the [read_trace_init] calls of
    [ops], in order: a stream device allocates when the allocation size is
    not zero, and the allocation succeeds when the handle is not null. *)
Fixpoint allocated (dev : DeviceIntf) (alloc_sz : Z) (ops : list lifecycle_op) : list Z :=
  match ops with
  | [] => []
  | op_init r _ :: ops' =>
      (if hasTs2mm dev && negb (alloc_sz =? 0) && negb (dev_alloc r =? 0)
       then [dev_alloc r] else []) ++ allocated dev alloc_sz ops'
  | _ :: ops' => allocated dev alloc_sz ops'
  end.

(** The calls a reader may make: [readTrace] belongs to the FIFO reader;
    [syncTraceBuf], [parseTraceData], the overwrite warning and the user
    marker belong to the stream reader. *)
Definition reader_allows (rd : reader) (e : event) : bool :=
  match e, rd with
  | readTrace, reader_s2mm => false
  | (syncTraceBuf _ _ _ | parseTraceData _ | message_send_warning | user_event_mark),
    reader_fifo => false
  | _, _ => true
  end.

(** The calls of the two readers. *)
Definition fifo_reader_event (e : event) : bool :=
  match e with
  | readTrace | processTraceData _ => true
  | _ => false
  end.

Definition s2mm_reader_event (e : event) : bool :=
  match e with
  | syncTraceBuf _ _ _ | parseTraceData _ | processTraceData _
  | message_send_warning | user_event_mark => true
  | _ => false
  end.

(** Total length of the [syncTraceBuf] calls of a log. *)
Fixpoint synced_bytes (l : list event) : Z :=
  match l with
  | [] => 0
  | syncTraceBuf _ _ nBytes :: l' => nBytes + synced_bytes l'
  | _ :: l' => synced_bytes l'
  end.

(** The members no reader assigns. *)
Definition reader_frame o o' : Prop :=
  sleep_interval_ms o' = sleep_interval_ms o /\
  m_trbuf_alloc_sz o' = m_trbuf_alloc_sz o /\
  m_read_trace o' = m_read_trace o /\
  m_initialized o' = m_initialized o /\
  m_force_clk_train o' = m_force_clk_train o /\
  m_prev_clk_train_time o' = m_prev_clk_train_time o /\
  m_trbuf o' = m_trbuf o /\
  m_trbuf_addr o' = m_trbuf_addr o /\
  m_use_circ_buf o' = m_use_circ_buf o /\
  m_circ_buf_min_rate o' = m_circ_buf_min_rate o /\
  m_circ_buf_cur_rate o' = m_circ_buf_cur_rate o /\
  offload_thread_joinable o' = offload_thread_joinable o.

(** The stream window and what goes with it. *)
Definition window_frame o o' : Prop :=
  m_trbuf_sz o' = m_trbuf_sz o /\
  m_trbuf_offset o' = m_trbuf_offset o /\
  m_rollover_count o' = m_rollover_count o /\
  m_wordcount_old o' = m_wordcount_old o /\
  trbuf_offload_done o' = trbuf_offload_done o.

(** One iteration of the trace worker's loop. *)
Definition loop_iteration (win32 : bool) (dev : DeviceIntf) (t : tick) o : DeviceTraceOffload :=
  let o := train_clock (tick_now t) o in
  let o := call_m_read_trace win32 dev false (tick_cycle t) o in
  if tick_stop t then stop_offload o else o.

(** How many times the log finalises the sink. *)
Definition sink_finalised (l : list event) : nat :=
  length (filter (fun e => match e with endProcessTraceData _ => true | _ => false end) l).

(** * The IOPS test driver (tests/xrt/perf_IOPS/xrt_api_iops.cpp)

    [runTest] keeps a ring of [xrt::run] commands busy until [total]
    commands have completed.  The commands are the indices below the
    vector's size; the calls on them are recorded in order.  The clock
    readings and the duration returned are left out. *)

Inductive run_event :=
| run_start (i : Z)
| run_wait (i : Z).

(** [for (auto& cmd : cmds) { cmd.start(); if (++issued == total) break; }]:
    [cmds_left] commands remain, the next one is [i]. *)
Fixpoint runTest_issue (cmds_left : nat) (i issued total : Z) (calls : list run_event)
  : Z * list run_event :=
  match cmds_left with
  | O => (issued, calls)
  | S cmds_left' =>
      let calls := calls ++ [run_start i] in
      let issued := u32 (issued + 1) in
      if issued =? total then (issued, calls)
      else runTest_issue cmds_left' (i + 1) issued total calls
  end.

(** [while (completed < total) { ... }].  [fuel] bounds the iterations;
    [None] is an access outside the vector (or the fuel running out). *)
Fixpoint runTest_wait (fuel : nat) (size i issued completed total : Z) (calls : list run_event)
  : option (list run_event) :=
  if completed <? total then
    match fuel with
    | O => None
    | S fuel' =>
        if (0 <=? i) && (i <? size) then
          let calls := calls ++ [run_wait i] in
          let completed := u32 (completed + 1) in
          let '(issued, calls) :=
            if issued <? total then (u32 (issued + 1), calls ++ [run_start i])
            else (issued, calls) in
          let i := if i + 1 =? size then 0 else i + 1 in
          runTest_wait fuel' size i issued completed total calls
        else None
    end
  else Some calls.

(** [size] is [cmds.size()], [total] the [unsigned int] argument. *)
Definition runTest (size : nat) (total : Z) : option (list run_event) :=
  let '(issued, calls) := runTest_issue size 0 0 total [] in
  runTest_wait (Z.to_nat total) (Z.of_nat size) 0 issued 0 total calls.

(** Replaying the calls on the commands: a command is started only when
    idle and waited for only when started; [busy] tells which commands are
    in flight. *)
Fixpoint replay (calls : list run_event) (busy : Z -> bool) : option (Z -> bool) :=
  match calls with
  | [] => Some busy
  | run_start i :: calls' =>
      if busy i then None
      else replay calls' (fun j => if j =? i then true else busy j)
  | run_wait i :: calls' =>
      if busy i then replay calls' (fun j => if j =? i then false else busy j)
      else None
  end.

Definition run_index (e : run_event) : Z :=
  match e with run_start i | run_wait i => i end.

Definition starts (calls : list run_event) : Z :=
  Z.of_nat (length (filter (fun e => match e with run_start _ => true | _ => false end) calls)).

Definition waits (calls : list run_event) : Z :=
  Z.of_nat (length (filter (fun e => match e with run_wait _ => true | _ => false end) calls)).

(** * Properties *)

(** ** Status state machine *)

Lemma start_offload_running type o :
  status o = RUNNING -> start_offload type o = Some o.
Proof. unfold start_offload. intros ->. reflexivity. Qed.

Lemma start_offload_accepted type o :
  status o <> RUNNING ->
  offload_thread_joinable o = false ->
  start_offload type o =
  Some (set_offload_thread_joinable true (emit (thread_spawn type) (set_status RUNNING o))).
Proof.
  unfold start_offload, assign_offload_thread. intros H J.
  destruct o as [st]; cbn in *; subst.
  destruct st; try congruence; destruct type; reflexivity.
Qed.

Lemma start_offload_terminates type o :
  status o <> RUNNING ->
  offload_thread_joinable o = true ->
  start_offload type o = None.
Proof.
  unfold start_offload, assign_offload_thread. intros H J.
  destruct o as [st]; cbn in *; subst.
  destruct st; try congruence; destruct type; reflexivity.
Qed.

(** What a [start_offload] that returns has done. *)
Lemma start_offload_some type o o' :
  start_offload type o = Some o' ->
  status o = RUNNING /\ o' = o \/
  status o <> RUNNING /\ offload_thread_joinable o = false /\
  o' = set_offload_thread_joinable true (emit (thread_spawn type) (set_status RUNNING o)).
Proof.
  intros H. destruct (status_eqb (status o) RUNNING) eqn:E.
  - assert (R : status o = RUNNING) by (destruct (status o); try discriminate; reflexivity).
    rewrite start_offload_running in H by exact R. injection H as <-. left. auto.
  - assert (R : status o <> RUNNING) by (intros R; rewrite R in E; discriminate).
    destruct (offload_thread_joinable o) eqn:J.
    + rewrite start_offload_terminates in H by assumption. discriminate.
    + rewrite start_offload_accepted in H by assumption. injection H as <-. right. auto.
Qed.


Lemma stop_offload_accepted o :
  status o <> STOPPED -> stop_offload o = set_status STOPPING o.
Proof.
  unfold stop_offload. intros H.
  destruct (status o) eqn:E; try congruence; reflexivity.
Qed.





(** ** Clock training *)

Lemma duration_cast_milliseconds_ge d :
  500 <= duration_cast_milliseconds d <-> 500 * system_clock_ticks_per_ms <= d.
Proof.
  unfold duration_cast_milliseconds, system_clock_ticks_per_ms.
  Z.to_euclidean_division_equations. lia.
Qed.

Lemma train_clock_fires now o :
  500 * system_clock_ticks_per_ms <= now - m_prev_clk_train_time o \/ m_force_clk_train o = true ->
  train_clock now o =
  set_m_force_clk_train false
    (set_m_prev_clk_train_time now (emit (clockTraining (m_force_clk_train o)) o)).
Proof.
  intros H. unfold train_clock.
  destruct (500 <=? _) eqn:E; [reflexivity|].
  apply Z.leb_gt in E. destruct H as [H|H].
  - apply duration_cast_milliseconds_ge in H. lia.
  - rewrite H. reflexivity.
Qed.

Lemma train_clock_idle now o :
  now - m_prev_clk_train_time o < 500 * system_clock_ticks_per_ms ->
  m_force_clk_train o = false ->
  train_clock now o = set_m_force_clk_train false o.
Proof.
  intros H F. unfold train_clock. rewrite F.
  destruct (500 <=? _) eqn:E; [|reflexivity].
  apply Z.leb_le, duration_cast_milliseconds_ge in E. lia.
Qed.

Lemma train_clock_force now o : m_force_clk_train (train_clock now o) = false.
Proof. unfold train_clock. destruct (_ || _); destruct o; reflexivity. Qed.

Lemma train_clock_prev_lower lo now o :
  lo <= m_prev_clk_train_time o -> lo <= now ->
  lo <= m_prev_clk_train_time (train_clock now o).
Proof.
  intros H1 H2. unfold train_clock. destruct (_ || _); destruct o; cbn in *; lia.
Qed.

Lemma train_clock_run_prev_lower lo times :
  forall o, lo <= m_prev_clk_train_time o -> Forall (fun t => lo <= t) times ->
       lo <= m_prev_clk_train_time (train_clock_run times o).
Proof.
  induction times as [|t times IH]; intros o H1 H2; cbn; [assumption|].
  inversion H2; subst. apply IH; [apply train_clock_prev_lower|]; assumption.
Qed.

Lemma train_clock_run_force times :
  forall o, m_force_clk_train o = false -> m_force_clk_train (train_clock_run times o) = false.
Proof.
  induction times as [|t times IH]; intros o H; cbn; [assumption|].
  apply IH, train_clock_force.
Qed.

Lemma clock_trained_inv now o :
  clock_trained now o ->
  500 * system_clock_ticks_per_ms <= now - m_prev_clk_train_time o \/ m_force_clk_train o = true.
Proof.
  intros [f Hf].
  destruct (Z.le_gt_cases (500 * system_clock_ticks_per_ms) (now - m_prev_clk_train_time o))
    as [H|H]; [left; assumption|].
  destruct (m_force_clk_train o) eqn:F; [right; reflexivity|].
  rewrite train_clock_idle in Hf by assumption.
  exfalso. destruct o; cbn in Hf.
  apply (f_equal (@length event)) in Hf. rewrite length_app in Hf. cbn in Hf. lia.
Qed.

(** C6.  [train_clock] calls [clockTraining] if and only if at least 500 ms
    have passed since [m_prev_clk_train_time] or [m_force_clk_train] is set;
    when it does, [m_prev_clk_train_time] becomes the current time, and
    otherwise nothing is called and the time is kept; [m_force_clk_train] is
    false after the call.  So the first call on a constructed object trains
    whatever the time, and when a call trains, a later call (with the clock
    not running backwards past the first in between) trains only 500 ms or
    more after it. *)
Theorem C6_train_clock :
  forall (o : DeviceTraceOffload) (now : Z),
    (clock_trained now o <->
       500 * system_clock_ticks_per_ms <= now - m_prev_clk_train_time o \/
       m_force_clk_train o = true) /\
    (clock_trained now o ->
       log (train_clock now o) = log o ++ [clockTraining (m_force_clk_train o)] /\
       m_prev_clk_train_time (train_clock now o) = now) /\
    (~ clock_trained now o ->
       log (train_clock now o) = log o /\
       m_prev_clk_train_time (train_clock now o) = m_prev_clk_train_time o) /\
    m_force_clk_train (train_clock now o) = false /\
    (forall dev sleep_interval trbuf_sz min_rate now0,
       clock_trained now (DeviceTraceOffload_ctor dev sleep_interval trbuf_sz min_rate now0)) /\
    (forall (times : list Z) (later : Z),
       Forall (fun t => now <= t) times ->
       clock_trained now o ->
       clock_trained later (train_clock_run times (train_clock now o)) ->
       500 * system_clock_ticks_per_ms <= later - now).
Proof.
  intros o now.
  assert (Hfire : 500 * system_clock_ticks_per_ms <= now - m_prev_clk_train_time o \/
                  m_force_clk_train o = true ->
                  log (train_clock now o) = log o ++ [clockTraining (m_force_clk_train o)] /\
                  m_prev_clk_train_time (train_clock now o) = now).
  { intros H. rewrite (train_clock_fires _ _ H). destruct o; cbn. split; reflexivity. }
  repeat split.
  - apply clock_trained_inv.
  - intros H. exists (m_force_clk_train o). apply Hfire, H.
  - apply Hfire, clock_trained_inv, H.
  - apply Hfire, clock_trained_inv, H.
  - assert (Hn : ~ (500 * system_clock_ticks_per_ms <= now - m_prev_clk_train_time o \/
                    m_force_clk_train o = true)).
    { intros C. apply H. exists (m_force_clk_train o). apply Hfire, C. }
    rewrite train_clock_idle.
    + destruct o; reflexivity.
    + lia.
    + destruct (m_force_clk_train o); [exfalso; apply Hn; right; reflexivity | reflexivity].
  - assert (Hn : ~ (500 * system_clock_ticks_per_ms <= now - m_prev_clk_train_time o \/
                    m_force_clk_train o = true)).
    { intros C. apply H. exists (m_force_clk_train o). apply Hfire, C. }
    rewrite train_clock_idle.
    + destruct o; reflexivity.
    + lia.
    + destruct (m_force_clk_train o); [exfalso; apply Hn; right; reflexivity | reflexivity].
  - apply train_clock_force.
  - intros dev sleep_interval trbuf_sz min_rate now0.
    exists true. rewrite train_clock_fires by (right; reflexivity). reflexivity.
  - intros times later Hall H1 H2.
    apply clock_trained_inv in H2.
    rewrite train_clock_run_force in H2 by apply train_clock_force.
    destruct H2 as [H2|H2]; [|discriminate].
    assert (Hp : now <= m_prev_clk_train_time (train_clock_run times (train_clock now o))).
    { apply train_clock_run_prev_lower; [|assumption].
      destruct (Hfire (clock_trained_inv _ _ H1)) as [_ ->]. lia. }
    lia.
Qed.

(** C6 at work: constructed at time 0, the object trains at its first tick
    (40 ms), not at 300 ms nor at 530 ms, and again at 560 ms. *)
Lemma C6_train_clock_witness :
  let dev := {| hasFIFO := false; hasTs2mm := true; supportsCircBuf := true; fifo_size := 8192 |} in
  let o := DeviceTraceOffload_ctor dev 100 1048576 104857600 0 in
  log (train_clock_run [300000000; 530000000; 560000000] (train_clock 40000000 o))
    = [clockTraining true; clockTraining false] /\
  500 * system_clock_ticks_per_ms <= 560000000 - 40000000.
Proof.
  split; [reflexivity|].
  refine (proj2 (proj2 (proj2 (proj2 (proj2
    (C6_train_clock
       (DeviceTraceOffload_ctor
          {| hasFIFO := false; hasTs2mm := true; supportsCircBuf := true; fifo_size := 8192 |}
          100 1048576 104857600 0) 40000000)))))
    [300000000; 530000000] 560000000 _ _ _).
  - repeat constructor; lia.
  - exists true. reflexivity.
  - exists false. reflexivity.
Defined.

(** ** FIFO reader *)

Lemma u32_add_l a b : u32 (u32 a + b) = u32 (a + b).
Proof. unfold u32. apply Zplus_mod_idemp_l. Qed.

Lemma u32_add_r a b : u32 (a + u32 b) = u32 (a + b).
Proof. unfold u32. apply Zplus_mod_idemp_r. Qed.

Lemma read_trace_fifo_body_eq v n o :
  read_trace_fifo_body v n o =
  (u32 (n + Z.of_nat (length v)),
   emit (processTraceData v) (set_m_trace_vector v (emit readTrace (set_m_trace_vector [] o)))).
Proof.
  unfold read_trace_fifo_body. destruct o; cbn. rewrite u32_add_r. reflexivity.
Qed.

Lemma read_trace_fifo_loop_spec fifo :
  forall n o,
    let r := read_trace_fifo_loop fifo n o in
    fst r = u32 (n + packet_count (drained_chunks fifo)) /\
    log (snd r) = log o ++ fifo_events (drained_chunks fifo) /\
    m_trbuf_full (snd r) = m_trbuf_full o.
Proof.
  induction fifo as [|v fifo IH]; intros n o; cbn [read_trace_fifo_loop drained_chunks].
  - cbv zeta. rewrite read_trace_fifo_body_eq. destruct o; cbn.
    rewrite Z.add_0_r, <- app_assoc. repeat split.
  - cbv zeta. rewrite read_trace_fifo_body_eq.
    replace (m_trace_vector (emit (processTraceData v)
               (set_m_trace_vector v (emit readTrace (set_m_trace_vector [] o))))) with v
      by (destruct o; reflexivity).
    destruct (Z.of_nat (length v) =? 0) eqn:E.
    + destruct o; cbn. rewrite Z.add_0_r, <- app_assoc. repeat split.
    + specialize (IH (u32 (n + Z.of_nat (length v)))
                     (emit (processTraceData v)
                        (set_m_trace_vector v (emit readTrace (set_m_trace_vector [] o))))).
      cbv zeta in IH. destruct IH as (IH1 & IH2 & IH3).
      rewrite IH1, IH2, IH3, u32_add_l. destruct o; cbn.
      rewrite Z.add_assoc, <- !app_assoc. repeat split.
Qed.

Lemma read_trace_fifo_full win32 dev c o :
  m_trbuf_full o = true -> read_trace_fifo win32 dev c o = o.
Proof. unfold read_trace_fifo. intros ->. reflexivity. Qed.




(** ** Stream reader *)

Lemma read_trace_s2mm_skip c o :
  u64 (u64 (dev_wordcount c - m_wordcount_old o) * TRACE_PACKET_SIZE) < TS2MM_MIN_READ_SIZE ->
  read_trace_s2mm false c o = o.
Proof.
  intros H. unfold read_trace_s2mm. cbn [negb andb].
  rewrite (proj2 (Z.ltb_lt _ _) H). reflexivity.
Qed.

Lemma read_trace_s2mm_accepted force c o :
  cycle_accepted force c o ->
  read_trace_s2mm force c o =
  let o1 := set_m_wordcount_old (dev_wordcount c) o in
  let '(ok, o2) := config_s2mm_reader (dev_wordcount c) o1 in
  if negb ok then o2
  else
    let nBytes := u64 (m_trbuf_sz o2 - m_trbuf_offset o2) in
    let o3 := emit (syncTraceBuf (m_trbuf o2) (m_trbuf_offset o2) nBytes) o2 in
    match dev_host_buf c with
    | None => o3
    | Some packets =>
        let o4 := set_m_trace_vector []
                    (emit (processTraceData packets)
                       (set_m_trace_vector packets (emit (parseTraceData nBytes) o3))) in
        if (m_trbuf_sz o4 =? m_trbuf_alloc_sz o4) && negb (m_use_circ_buf o4)
        then set_m_trbuf_full true o4 else o4
    end.
Proof.
  intros H. unfold read_trace_s2mm.
  assert (G : negb force && (u64 (u64 (dev_wordcount c - m_wordcount_old o) * TRACE_PACKET_SIZE)
                             <? TS2MM_MIN_READ_SIZE) = false).
  { destruct H as [->|H]; [reflexivity|].
    rewrite (proj2 (Z.ltb_ge _ _) H). apply andb_false_r. }
  rewrite G. cbv zeta.
  destruct (config_s2mm_reader _ _) as [ok o2]. destruct ok; cbn [negb]; [|reflexivity].
  destruct (dev_host_buf c); [|reflexivity].
  destruct o2; reflexivity.
Qed.

Lemma config_s2mm_reader_done wc o :
  trbuf_offload_done o = true -> config_s2mm_reader wc o = (false, o).
Proof. unfold config_s2mm_reader. intros ->. reflexivity. Qed.

Lemma config_s2mm_reader_overrun wc o :
  trbuf_offload_done o = false ->
  offload_cannot_keep_up (u64 (wc * TRACE_PACKET_SIZE)) (bytes_read_total o) (m_trbuf_alloc_sz o)
    = true ->
  config_s2mm_reader wc o =
  (false, stop_offload (emit user_event_mark (emit message_send_warning
            (set_trbuf_offload_done true (set_m_trbuf_offset (m_trbuf_sz o) o))))).
Proof.
  unfold config_s2mm_reader, bytes_read_total. intros -> ->. reflexivity.
Qed.

Lemma read_trace_s2mm_done force c o :
  trbuf_offload_done o = true ->
  trbuf_offload_done (read_trace_s2mm force c o) = true /\
  log (read_trace_s2mm force c o) = log o /\
  status (read_trace_s2mm force c o) = status o.
Proof.
  intros H. unfold read_trace_s2mm.
  destruct (negb force && _); [auto|].
  rewrite config_s2mm_reader_done by (destruct o; exact H).
  cbn [negb]. destruct o; cbn in *. auto.
Qed.

Lemma run_s2mm_cons f c cs o :
  run_s2mm ((f, c) :: cs) o = run_s2mm cs (read_trace_s2mm f c o).
Proof. reflexivity. Qed.

Lemma run_s2mm_done cs :
  forall o, trbuf_offload_done o = true ->
       trbuf_offload_done (run_s2mm cs o) = true /\
       log (run_s2mm cs o) = log o /\
       status (run_s2mm cs o) = status o.
Proof.
  induction cs as [|[f c] cs IH]; intros o H; [cbn; auto|].
  rewrite run_s2mm_cons.
  destruct (read_trace_s2mm_done f c o H) as (H1 & H2 & H3).
  destruct (IH _ H1) as (I1 & I2 & I3). rewrite I2, I3. auto.
Qed.

(** C2 (as the code has it).  In a stream read cycle that is not skipped by
    the minimum read size and that starts with the done latch clear, if the
    bytes written since the session started exceed the bytes read plus the
    allocation size (all on 64 bits), the reader sets the latch, sends one
    warning and one user marker and nothing else (no sync, no sink call),
    calls [stop_offload] (so the status is STOPPING unless it was STOPPED),
    and every later cycle, forced or not, leaves the latch set and calls no
    collaborator.  With [2 * a + 1] bytes written, [a] bytes read and an
    allocation of [a] bytes the overrun test is true. *)
Theorem C2_overrun :
  forall (force : bool) (c : cycle) (o : DeviceTraceOffload),
    cycle_accepted force c o ->
    trbuf_offload_done o = false ->
    offload_cannot_keep_up (bytes_written_since_start c) (bytes_read_total o) (m_trbuf_alloc_sz o)
      = true ->
    let o' := read_trace_s2mm force c o in
    trbuf_offload_done o' = true /\
    log o' = log o ++ [message_send_warning; user_event_mark] /\
    status o' = status (stop_offload o) /\
    (status o <> STOPPED -> status o' = STOPPING) /\
    (forall later : list (bool * cycle),
       trbuf_offload_done (run_s2mm later o') = true /\
       log (run_s2mm later o') = log o ++ [message_send_warning; user_event_mark]) /\
    (forall a : Z, offload_cannot_keep_up (u64 (2 * a + 1)) a a = true).
Proof.
  intros force c o Hacc Hdone Hover o'.
  assert (E : o' = stop_offload (emit user_event_mark (emit message_send_warning
                     (set_trbuf_offload_done true
                        (set_m_trbuf_offset (m_trbuf_sz o)
                           (set_m_wordcount_old (dev_wordcount c) o)))))).
  { subst o'. rewrite read_trace_s2mm_accepted by assumption. cbv zeta.
    rewrite config_s2mm_reader_overrun.
    - cbn [negb]. destruct o; reflexivity.
    - destruct o; exact Hdone.
    - destruct o; exact Hover. }
  assert (H1 : trbuf_offload_done o' = true).
  { rewrite E. destruct o as [st]; destruct st; reflexivity. }
  assert (H2 : log o' = log o ++ [message_send_warning; user_event_mark]).
  { rewrite E. destruct o as [st]; destruct st; cbn; rewrite <- app_assoc; reflexivity. }
  assert (H3 : status o' = status (stop_offload o)).
  { rewrite E. destruct o as [st]; destruct st; reflexivity. }
  repeat split; try assumption.
  - intros Hs. rewrite H3, stop_offload_accepted by assumption. destruct o; reflexivity.
  - apply run_s2mm_done, H1.
  - destruct (run_s2mm_done later o' H1) as (_ & L & _). rewrite L. exact H2.
  - intros a. unfold offload_cannot_keep_up, u64. apply Z.ltb_lt.
    Z.to_euclidean_division_equations. lia.
Qed.

(** C2 at work: 1024-byte buffer, 1016 bytes read, then the device reports
    2400 bytes written. *)
Lemma C2_overrun_witness :
  let o := read_trace_s2mm false (demo_cycle 127 (Some [1])) (demo_session 100 1024) in
  let o' := read_trace_s2mm false (demo_cycle 300 (Some [2])) o in
  trbuf_offload_done o' = true /\
  log o' = log o ++ [message_send_warning; user_event_mark] /\
  status o' = STOPPING.
Proof.
  pose proof (C2_overrun false (demo_cycle 300 (Some [2]))
                (read_trace_s2mm false (demo_cycle 127 (Some [1])) (demo_session 100 1024))) as H.
  cbv zeta in H.
  destruct H as (H1 & H2 & _ & H4 & _).
  - right. vm_compute. discriminate.
  - reflexivity.
  - reflexivity.
  - cbv zeta. split; [exact H1 | split; [exact H2 | apply H4; discriminate]].
Defined.

(** C2, as stated, fails: a circular session on a 1 MiB buffer reads
    1048568 bytes, then the 8 bytes up to the end of the buffer while
    2097144 bytes are written; next the device reports 2097160 bytes
    written, more than the 1048576 read plus the 1048576 allocated.  The
    16 new bytes are below the minimum read size, so the unforced cycle
    returns at once: no latch, no warning, no marker, no stop request. *)
Lemma C2_counterexample :
  let o := run_s2mm [(false, demo_cycle 131071 (Some [1]));
                     (false, demo_cycle 262143 (Some [2]))]
             (demo_session 10 1048576) in
  let c := demo_cycle 262145 (Some [3]) in
  m_use_circ_buf o = true /\
  bytes_written_since_start c = 2097160 /\
  bytes_read_total o = 1048576 /\
  offload_cannot_keep_up (bytes_written_since_start c) (bytes_read_total o) (m_trbuf_alloc_sz o)
    = true /\
  read_trace_s2mm false c o = o /\
  trbuf_offload_done (read_trace_s2mm false c o) = false /\
  status (read_trace_s2mm false c o) = RUNNING /\
  ~ In message_send_warning (log (read_trace_s2mm false c o)).
Proof.
  cbv zeta. repeat split; try reflexivity.
  vm_compute. intros H. repeat (destruct H as [H|H]; [discriminate|]). exact H.
Qed.

(** ** Stream window and rollover counter *)

Lemma u64_small x : 0 <= x < 2 ^ 64 -> u64 x = x.
Proof. apply Z.mod_small. Qed.

Lemma u32_small x : 0 <= x < 2 ^ 32 -> u32 x = x.
Proof. apply Z.mod_small. Qed.

(** One run of the window policy, on an object whose saved word count is
    the count being configured. *)
Lemma config_s2mm_reader_step o :
  s2mm_inv o ->
  wordcount_in_range (m_trbuf_alloc_sz o) (m_wordcount_old o) ->
  let r := config_s2mm_reader (m_wordcount_old o) o in
  s2mm_inv (snd r) /\
  m_trbuf_alloc_sz (snd r) = m_trbuf_alloc_sz o /\
  m_wordcount_old (snd r) = m_wordcount_old o /\
  if negb (trbuf_offload_done o)
     && negb (offload_cannot_keep_up (u64 (m_wordcount_old o * TRACE_PACKET_SIZE))
                (bytes_read_total o) (m_trbuf_alloc_sz o))
     && (m_trbuf_sz o =? m_trbuf_alloc_sz o)
     && m_use_circ_buf o
  then m_rollover_count (snd r) = m_rollover_count o + 1 /\ m_trbuf_offset (snd r) = 0
  else m_rollover_count (snd r) = m_rollover_count o.
Proof.
  unfold s2mm_inv, wordcount_in_range, bytes_read_total, TRACE_PACKET_SIZE.
  intros (Ho & Hs & Hr & Hb) (W1 & W2).
  assert (Ra : 0 <= m_rollover_count o * m_trbuf_alloc_sz o) by nia.
  unfold config_s2mm_reader, TRACE_PACKET_SIZE.
  destruct (trbuf_offload_done o); [cbn; auto 10|].
  rewrite (u64_small (m_wordcount_old o * 8)) by lia.
  rewrite (u64_small (m_rollover_count o * m_trbuf_alloc_sz o)) by lia.
  destruct (offload_cannot_keep_up _ _ _).
  - destruct o as [st]; destruct st; cbn in *; repeat split; lia.
  - cbv zeta. cbn [negb andb].
    replace (m_trbuf_offset (set_m_trbuf_offset (m_trbuf_sz o) o)) with (m_trbuf_sz o)
      by (destruct o; reflexivity).
    replace (m_trbuf_alloc_sz (set_m_trbuf_offset (m_trbuf_sz o) o)) with (m_trbuf_alloc_sz o)
      by (destruct o; reflexivity).
    replace (m_use_circ_buf (set_m_trbuf_offset (m_trbuf_sz o) o)) with (m_use_circ_buf o)
      by (destruct o; reflexivity).
    destruct (m_trbuf_sz o =? m_trbuf_alloc_sz o) eqn:E.
    + apply Z.eqb_eq in E.
      destruct (m_use_circ_buf o) eqn:C; cbn [negb andb].
      * assert (R1 : m_rollover_count o + 1 < 2 ^ 32) by nia.
        destruct o; cbn in *. rewrite (u32_small (_ + 1)) by lia.
        rewrite (u64_small ((_ + 1) * _)) by nia.
        rewrite u64_small by nia.
        destruct (_ <? _) eqn:L; cbn; [apply Z.ltb_lt in L|apply Z.ltb_ge in L];
          repeat split; try nia; auto.
      * destruct o as [st]; destruct st; cbn in *; repeat split; try lia; auto.
    + apply Z.eqb_neq in E. cbn [andb]. destruct o; cbn in *.
      rewrite (u64_small (_ * _)) by lia.
      rewrite u64_small by nia.
      destruct (_ <? _) eqn:L; cbn; [apply Z.ltb_lt in L|apply Z.ltb_ge in L];
        repeat split; try nia; auto.
Qed.

(** One stream read cycle keeps [s2mm_inv] and moves the rollover counter
    only when the window start wraps. *)
Lemma read_trace_s2mm_step force c o :
  s2mm_inv o ->
  m_wordcount_old o <= dev_wordcount c ->
  wordcount_in_range (m_trbuf_alloc_sz o) (dev_wordcount c) ->
  let o' := read_trace_s2mm force c o in
  s2mm_inv o' /\
  m_trbuf_alloc_sz o' = m_trbuf_alloc_sz o /\
  m_wordcount_old o' <= dev_wordcount c /\
  if window_start_wraps force c o
  then m_rollover_count o' = m_rollover_count o + 1 /\ m_trbuf_offset o' = 0
  else m_rollover_count o' = m_rollover_count o.
Proof.
  intros Hinv Hmono Hrange o'. subst o'. unfold window_start_wraps.
  destruct (force || (TS2MM_MIN_READ_SIZE <=?
              u64 (u64 (dev_wordcount c - m_wordcount_old o) * TRACE_PACKET_SIZE))) eqn:G.
  - assert (Hacc : cycle_accepted force c o).
    { apply orb_true_iff in G. destruct G as [G|G]; [left; exact G|right].
      apply Z.leb_le, G. }
    rewrite read_trace_s2mm_accepted by exact Hacc. cbv zeta.
    pose proof (config_s2mm_reader_step (set_m_wordcount_old (dev_wordcount c) o)) as S.
    replace (m_wordcount_old (set_m_wordcount_old (dev_wordcount c) o))
      with (dev_wordcount c) in S by (destruct o; reflexivity).
    replace (m_trbuf_alloc_sz (set_m_wordcount_old (dev_wordcount c) o))
      with (m_trbuf_alloc_sz o) in S by (destruct o; reflexivity).
    replace (trbuf_offload_done (set_m_wordcount_old (dev_wordcount c) o))
      with (trbuf_offload_done o) in S by (destruct o; reflexivity).
    replace (bytes_read_total (set_m_wordcount_old (dev_wordcount c) o))
      with (bytes_read_total o) in S by (destruct o; reflexivity).
    replace (m_trbuf_sz (set_m_wordcount_old (dev_wordcount c) o))
      with (m_trbuf_sz o) in S by (destruct o; reflexivity).
    replace (m_use_circ_buf (set_m_wordcount_old (dev_wordcount c) o))
      with (m_use_circ_buf o) in S by (destruct o; reflexivity).
    replace (m_rollover_count (set_m_wordcount_old (dev_wordcount c) o))
      with (m_rollover_count o) in S by (destruct o; reflexivity).
    cbv zeta in S.
    destruct S as (S1 & S2 & S3 & S4).
    { unfold s2mm_inv, TRACE_PACKET_SIZE in *. destruct o; cbn in *. lia. }
    { exact Hrange. }
    unfold bytes_written_since_start. cbn [andb].
    destruct (config_s2mm_reader (dev_wordcount c) _) as [ok o2]. cbn [snd] in *.
    assert (K : forall o3, m_trbuf_offset o3 = m_trbuf_offset o2 ->
                      m_trbuf_sz o3 = m_trbuf_sz o2 ->
                      m_trbuf_alloc_sz o3 = m_trbuf_alloc_sz o2 ->
                      m_rollover_count o3 = m_rollover_count o2 ->
                      m_wordcount_old o3 = m_wordcount_old o2 ->
                      s2mm_inv o3 /\
                      m_trbuf_alloc_sz o3 = m_trbuf_alloc_sz o /\
                      m_wordcount_old o3 <= dev_wordcount c /\
                      (if negb (trbuf_offload_done o)
                          && negb (offload_cannot_keep_up
                                     (u64 (dev_wordcount c * TRACE_PACKET_SIZE))
                                     (bytes_read_total o) (m_trbuf_alloc_sz o))
                          && (m_trbuf_sz o =? m_trbuf_alloc_sz o) && m_use_circ_buf o
                       then m_rollover_count o3 = m_rollover_count o + 1 /\ m_trbuf_offset o3 = 0
                       else m_rollover_count o3 = m_rollover_count o)).
    { intros o3 E1 E2 E3 E4 E5. unfold s2mm_inv in *.
      rewrite E1, E2, E3, E4, E5. repeat split; try tauto; try lia. }
    destruct ok; cbn [negb].
    + destruct (dev_host_buf c).
      * match goal with
        | |- context [if ?b then set_m_trbuf_full true ?x else ?x] => destruct b
        end; apply K; destruct o2; reflexivity.
      * apply K; destruct o2; reflexivity.
    + apply K; reflexivity.
  - cbn [andb]. apply orb_false_iff in G. destruct G as [-> G].
    rewrite read_trace_s2mm_skip by (apply Z.leb_gt, G).
    repeat split; try apply Hinv; lia.
Qed.

Lemma counter_monotone_weaken cs :
  forall p q, q <= p -> counter_monotone p cs -> counter_monotone q cs.
Proof. destruct cs as [|fc cs]; cbn; intros p q Hq H; [exact I|]. split; [lia|apply H]. Qed.

Lemma run_s2mm_inv pre :
  forall rest o,
    s2mm_inv o ->
    counter_monotone (m_wordcount_old o) (pre ++ rest) ->
    Forall (fun fc => wordcount_in_range (m_trbuf_alloc_sz o) (dev_wordcount (snd fc))) pre ->
    s2mm_inv (run_s2mm pre o) /\
    m_trbuf_alloc_sz (run_s2mm pre o) = m_trbuf_alloc_sz o /\
    counter_monotone (m_wordcount_old (run_s2mm pre o)) rest.
Proof.
  induction pre as [|[f c] pre IH]; intros rest o Hinv Hmono Hrange.
  - cbn. auto.
  - rewrite run_s2mm_cons. cbn in Hmono. destruct Hmono as [Hle Hmono].
    inversion Hrange as [|x l Hc Hrange']; subst. cbn [snd] in Hc.
    pose proof (read_trace_s2mm_step f c o Hinv Hle Hc) as S. cbv zeta in S.
    destruct S as (S1 & S2 & S3 & _).
    destruct (IH rest (read_trace_s2mm f c o)) as (I1 & I2 & I3).
    + exact S1.
    + eapply counter_monotone_weaken; [exact S3|exact Hmono].
    + rewrite S2. exact Hrange'.
    + rewrite I2, S2. auto.
Qed.

(** The first [start_offload] on a constructed object returns. *)
Lemma start_offload_ctor dev type sleep_interval trbuf_sz min_rate now :
  start_offload type (DeviceTraceOffload_ctor dev sleep_interval trbuf_sz min_rate now) =
  Some (started type (DeviceTraceOffload_ctor dev sleep_interval trbuf_sz min_rate now)).
Proof. destruct type; reflexivity. Qed.

(** The window of a freshly constructed, started and initialised object
    is within [s2mm_inv]. *)
Lemma session_start_s2mm_inv dev r circ_buf type sleep_interval trbuf_sz min_rate now :
  0 <= trbuf_sz ->
  s2mm_inv (snd (read_trace_init dev r circ_buf
                   (started type
                      (DeviceTraceOffload_ctor dev sleep_interval trbuf_sz min_rate now)))).
Proof.
  intros H. unfold s2mm_inv, read_trace_init, init_s2mm, TRACE_PACKET_SIZE.
  destruct type; cbn;
    repeat match goal with
           | |- context [if ?b then _ else _] => destruct b; cbn
           end; lia.
Qed.




(** ** Skipped, failed and final cycles *)

(** What the window policy leaves untouched, and where it puts the window
    start, when it lets the cycle proceed. *)
Lemma config_s2mm_reader_proceeds wc o o2 :
  config_s2mm_reader wc o = (true, o2) ->
  trbuf_offload_done o = false /\
  trbuf_offload_done o2 = false /\
  m_trbuf_full o2 = m_trbuf_full o /\
  status o2 = status o /\
  log o2 = log o /\
  m_trbuf o2 = m_trbuf o /\
  m_wordcount_old o2 = m_wordcount_old o /\
  m_trbuf_alloc_sz o2 = m_trbuf_alloc_sz o /\
  m_use_circ_buf o2 = m_use_circ_buf o /\
  ((m_trbuf_sz o <> m_trbuf_alloc_sz o /\ m_trbuf_offset o2 = m_trbuf_sz o /\
    m_rollover_count o2 = m_rollover_count o) \/
   (m_trbuf_sz o = m_trbuf_alloc_sz o /\ m_use_circ_buf o = true /\ m_trbuf_offset o2 = 0 /\
    m_rollover_count o2 = u32 (m_rollover_count o + 1))) /\
  m_trbuf_sz o2 =
    (let e := u64 (u64 (wc * TRACE_PACKET_SIZE)
                   - u64 (m_rollover_count o2 * m_trbuf_alloc_sz o)) in
     if m_trbuf_alloc_sz o <? e then m_trbuf_alloc_sz o else e).
Proof.
  unfold config_s2mm_reader.
  destruct (trbuf_offload_done o) eqn:D; [discriminate|].
  destruct (offload_cannot_keep_up _ _ _); [discriminate|].
  cbv zeta.
  replace (m_trbuf_offset (set_m_trbuf_offset (m_trbuf_sz o) o)) with (m_trbuf_sz o)
    by (destruct o; reflexivity).
  replace (m_trbuf_alloc_sz (set_m_trbuf_offset (m_trbuf_sz o) o)) with (m_trbuf_alloc_sz o)
    by (destruct o; reflexivity).
  replace (m_use_circ_buf (set_m_trbuf_offset (m_trbuf_sz o) o)) with (m_use_circ_buf o)
    by (destruct o; reflexivity).
  destruct (m_trbuf_sz o =? m_trbuf_alloc_sz o) eqn:E.
  - apply Z.eqb_eq in E. destruct (m_use_circ_buf o) eqn:C; cbn [negb]; [|discriminate].
    intros H. injection H as <-.
    destruct o; cbn in *.
    destruct (_ <? _) eqn:L; cbn; rewrite L; repeat split; auto.
  - apply Z.eqb_neq in E. intros H. injection H as <-.
    destruct o; cbn in *.
    destruct (_ <? _) eqn:L; cbn; rewrite L; repeat split; auto.
Qed.

Lemma run_s2mm_skipped (skipped : list cycle) o :
  Forall (fun c' => u64 (u64 (dev_wordcount c' - m_wordcount_old o) * TRACE_PACKET_SIZE)
                    < TS2MM_MIN_READ_SIZE) skipped ->
  run_s2mm (map (pair false) skipped) o = o.
Proof.
  induction skipped as [|c' skipped IH]; intros H; [reflexivity|].
  inversion H; subst. cbn [map]. rewrite run_s2mm_cons, read_trace_s2mm_skip by assumption.
  apply IH. assumption.
Qed.

(** The cycle that wraps the window start in circular mode: one sync and
    one sink call for the window from 0 to the new window end. *)
Lemma read_trace_s2mm_wrap_batch force c packets o :
  cycle_accepted force c o ->
  trbuf_offload_done o = false ->
  offload_cannot_keep_up (bytes_written_since_start c) (bytes_read_total o)
    (m_trbuf_alloc_sz o) = false ->
  m_trbuf_sz o = m_trbuf_alloc_sz o ->
  m_use_circ_buf o = true ->
  dev_host_buf c = Some packets ->
  let e := u64 (bytes_written_since_start c
                - u64 (u32 (m_rollover_count o + 1) * m_trbuf_alloc_sz o)) in
  let nBytes := u64 ((if m_trbuf_alloc_sz o <? e then m_trbuf_alloc_sz o else e) - 0) in
  log (read_trace_s2mm force c o) =
    log o ++ [syncTraceBuf (m_trbuf o) 0 nBytes; parseTraceData nBytes;
              processTraceData packets] /\
  (0 <= m_rollover_count o -> m_rollover_count o + 1 < 2 ^ 32 ->
   0 <= m_trbuf_alloc_sz o ->
   (m_rollover_count o + 1) * m_trbuf_alloc_sz o
     <= dev_wordcount c * TRACE_PACKET_SIZE < 2 ^ 64 ->
   dev_wordcount c * TRACE_PACKET_SIZE - (m_rollover_count o + 1) * m_trbuf_alloc_sz o
     <= m_trbuf_alloc_sz o ->
   nBytes = dev_wordcount c * TRACE_PACKET_SIZE
            - (m_rollover_count o * m_trbuf_alloc_sz o + m_trbuf_sz o)).
Proof.
  intros Hacc Hdone Hover Heq Hcirc Hbuf e nBytes. split.
  - rewrite read_trace_s2mm_accepted by exact Hacc. cbv zeta.
    destruct (config_s2mm_reader (dev_wordcount c) (set_m_wordcount_old (dev_wordcount c) o))
      as [ok o2] eqn:Ec.
    assert (ok = true).
    { revert Ec. unfold config_s2mm_reader, bytes_written_since_start, bytes_read_total in *.
      replace (trbuf_offload_done (set_m_wordcount_old (dev_wordcount c) o)) with false
        by (destruct o; cbn in *; congruence).
      replace (m_rollover_count (set_m_wordcount_old (dev_wordcount c) o))
        with (m_rollover_count o) by (destruct o; reflexivity).
      replace (m_trbuf_alloc_sz (set_m_wordcount_old (dev_wordcount c) o))
        with (m_trbuf_alloc_sz o) by (destruct o; reflexivity).
      replace (m_trbuf_sz (set_m_wordcount_old (dev_wordcount c) o))
        with (m_trbuf_sz o) by (destruct o; reflexivity).
      rewrite Hover. cbv zeta.
      replace (m_trbuf_offset (set_m_trbuf_offset (m_trbuf_sz o)
                 (set_m_wordcount_old (dev_wordcount c) o))) with (m_trbuf_sz o)
        by (destruct o; reflexivity).
      replace (m_trbuf_alloc_sz (set_m_trbuf_offset (m_trbuf_sz o)
                 (set_m_wordcount_old (dev_wordcount c) o))) with (m_trbuf_alloc_sz o)
        by (destruct o; reflexivity).
      replace (m_use_circ_buf (set_m_trbuf_offset (m_trbuf_sz o)
                 (set_m_wordcount_old (dev_wordcount c) o))) with true
        by (destruct o; cbn in *; congruence).
      rewrite (proj2 (Z.eqb_eq _ _) Heq). cbn [negb]. congruence. }
    subst ok.
    destruct (config_s2mm_reader_proceeds _ _ _ Ec)
      as (_ & _ & _ & _ & P5 & P6 & _ & P8 & _ & P10 & P11).
    replace (m_trbuf_sz (set_m_wordcount_old (dev_wordcount c) o)) with (m_trbuf_sz o)
      in P10 by (destruct o; reflexivity).
    replace (m_trbuf_alloc_sz (set_m_wordcount_old (dev_wordcount c) o))
      with (m_trbuf_alloc_sz o) in * by (destruct o; reflexivity).
    replace (log (set_m_wordcount_old (dev_wordcount c) o)) with (log o) in P5
      by (destruct o; reflexivity).
    replace (m_trbuf (set_m_wordcount_old (dev_wordcount c) o)) with (m_trbuf o) in P6
      by (destruct o; reflexivity).
    destruct P10 as [(Pn & _)|(_ & _ & Po & Pr)]; [contradiction|].
    replace (m_rollover_count (set_m_wordcount_old (dev_wordcount c) o))
      with (m_rollover_count o) in Pr by (destruct o; reflexivity).
    cbv zeta in P11. rewrite Pr in P11.
    cbn [negb]. rewrite Hbuf.
    assert (En : u64 (m_trbuf_sz o2 - m_trbuf_offset o2) = nBytes).
    { subst nBytes e. unfold bytes_written_since_start. rewrite <- P11, Po. reflexivity. }
    rewrite En, Po, P6.
    match goal with
    | |- context [if ?b then set_m_trbuf_full true ?x else ?x] => destruct b
    end; destruct o2; cbn in *; subst; repeat rewrite <- app_assoc; reflexivity.
  - intros R0 R1 Ra [R2 R3] R4. subst nBytes e.
    unfold bytes_written_since_start, TRACE_PACKET_SIZE in *.
    rewrite (u32_small (m_rollover_count o + 1)) by lia.
    rewrite (u64_small (dev_wordcount c * 8)) by nia.
    rewrite (u64_small ((m_rollover_count o + 1) * m_trbuf_alloc_sz o)) by nia.
    rewrite (u64_small (_ - _ * _)) by lia.
    rewrite (proj2 (Z.ltb_ge _ _) R4).
    rewrite u64_small by lia. rewrite Heq. lia.
Qed.

(** C8 (as the code has it).  Unforced stream cycles in which fewer than
    [TS2MM_MIN_READ_SIZE] bytes were written since the last cycle that was
    not skipped leave the whole object unchanged, log included: no sync, no
    sink call, the saved word count, the window, the rollover count, the
    latches and the status as they were, however many such cycles follow
    each other.  The first cycle that reaches the minimum then, when the
    policy lets it proceed (done latch clear, no overrun, not at the end of
    a single-pass buffer) and the sync succeeds, makes one sync and one
    sink call: for the window from the old window end to the new one, or,
    when the window start wraps in circular mode, from 0 to the new window
    end.  When the new window end is not clipped to the allocation size,
    that window holds every byte written and not yet read. *)
Theorem C8_below_threshold :
  forall (o : DeviceTraceOffload) (skipped : list cycle),
    Forall (fun c' => u64 (u64 (dev_wordcount c' - m_wordcount_old o) * TRACE_PACKET_SIZE)
                      < TS2MM_MIN_READ_SIZE) skipped ->
    let o1 := run_s2mm (map (pair false) skipped) o in
    o1 = o /\
    (forall c', In c' skipped -> read_trace_s2mm false c' o = o) /\
    (forall (c : cycle) (packets : list xclTraceResults),
       cycle_accepted false c o ->
       trbuf_offload_done o = false ->
       offload_cannot_keep_up (bytes_written_since_start c) (bytes_read_total o)
         (m_trbuf_alloc_sz o) = false ->
       m_trbuf_sz o <> m_trbuf_alloc_sz o ->
       dev_host_buf c = Some packets ->
       let nBytes := u64 (next_window_end c o - m_trbuf_sz o) in
       log (read_trace_s2mm false c o1) =
         log o ++ [syncTraceBuf (m_trbuf o) (m_trbuf_sz o) nBytes;
                   parseTraceData nBytes;
                   processTraceData packets] /\
       (0 <= m_rollover_count o * m_trbuf_alloc_sz o ->
        0 <= m_trbuf_sz o ->
        m_rollover_count o * m_trbuf_alloc_sz o + m_trbuf_sz o
          <= dev_wordcount c * TRACE_PACKET_SIZE < 2 ^ 64 ->
        dev_wordcount c * TRACE_PACKET_SIZE - m_rollover_count o * m_trbuf_alloc_sz o
          <= m_trbuf_alloc_sz o ->
        nBytes = dev_wordcount c * TRACE_PACKET_SIZE
                 - (m_rollover_count o * m_trbuf_alloc_sz o + m_trbuf_sz o))) /\
    (forall (c : cycle) (packets : list xclTraceResults),
       cycle_accepted false c o ->
       trbuf_offload_done o = false ->
       offload_cannot_keep_up (bytes_written_since_start c) (bytes_read_total o)
         (m_trbuf_alloc_sz o) = false ->
       m_trbuf_sz o = m_trbuf_alloc_sz o ->
       m_use_circ_buf o = true ->
       dev_host_buf c = Some packets ->
       let e := u64 (bytes_written_since_start c
                     - u64 (u32 (m_rollover_count o + 1) * m_trbuf_alloc_sz o)) in
       let nBytes := u64 ((if m_trbuf_alloc_sz o <? e then m_trbuf_alloc_sz o else e) - 0) in
       log (read_trace_s2mm false c o1) =
         log o ++ [syncTraceBuf (m_trbuf o) 0 nBytes;
                   parseTraceData nBytes;
                   processTraceData packets] /\
       (0 <= m_rollover_count o -> m_rollover_count o + 1 < 2 ^ 32 ->
        0 <= m_trbuf_alloc_sz o ->
        (m_rollover_count o + 1) * m_trbuf_alloc_sz o
          <= dev_wordcount c * TRACE_PACKET_SIZE < 2 ^ 64 ->
        dev_wordcount c * TRACE_PACKET_SIZE - (m_rollover_count o + 1) * m_trbuf_alloc_sz o
          <= m_trbuf_alloc_sz o ->
        nBytes = dev_wordcount c * TRACE_PACKET_SIZE
                 - (m_rollover_count o * m_trbuf_alloc_sz o + m_trbuf_sz o))).
Proof.
  intros o skipped Hskip o1.
  assert (E1 : run_s2mm (map (pair false) skipped) o = o) by (apply run_s2mm_skipped, Hskip).
  subst o1. split; [exact E1|]. split; [|split].
  - intros c' Hin. apply read_trace_s2mm_skip.
    rewrite Forall_forall in Hskip. apply Hskip, Hin.
  - intros c packets Hacc Hdone Hover Hne Hbuf nBytes. rewrite E1. split.
    + rewrite read_trace_s2mm_accepted by exact Hacc. cbv zeta.
      destruct (config_s2mm_reader (dev_wordcount c) (set_m_wordcount_old (dev_wordcount c) o))
        as [ok o2] eqn:Ec.
      assert (ok = true).
      { revert Ec. unfold config_s2mm_reader, bytes_written_since_start, bytes_read_total in *.
        replace (trbuf_offload_done (set_m_wordcount_old (dev_wordcount c) o)) with false
          by (destruct o; cbn in *; congruence).
        replace (m_rollover_count (set_m_wordcount_old (dev_wordcount c) o))
          with (m_rollover_count o) by (destruct o; reflexivity).
        replace (m_trbuf_alloc_sz (set_m_wordcount_old (dev_wordcount c) o))
          with (m_trbuf_alloc_sz o) by (destruct o; reflexivity).
        replace (m_trbuf_sz (set_m_wordcount_old (dev_wordcount c) o))
          with (m_trbuf_sz o) by (destruct o; reflexivity).
        rewrite Hover. cbv zeta.
        replace (m_trbuf_offset (set_m_trbuf_offset (m_trbuf_sz o)
                   (set_m_wordcount_old (dev_wordcount c) o))) with (m_trbuf_sz o)
          by (destruct o; reflexivity).
        replace (m_trbuf_alloc_sz (set_m_trbuf_offset (m_trbuf_sz o)
                   (set_m_wordcount_old (dev_wordcount c) o))) with (m_trbuf_alloc_sz o)
          by (destruct o; reflexivity).
        rewrite (proj2 (Z.eqb_neq _ _) Hne). congruence. }
      subst ok.
      destruct (config_s2mm_reader_proceeds _ _ _ Ec)
        as (_ & _ & _ & _ & P5 & P6 & _ & P8 & _ & P10 & P11).
      replace (m_trbuf_sz (set_m_wordcount_old (dev_wordcount c) o)) with (m_trbuf_sz o)
        in P10 by (destruct o; reflexivity).
      replace (m_trbuf_alloc_sz (set_m_wordcount_old (dev_wordcount c) o))
        with (m_trbuf_alloc_sz o) in * by (destruct o; reflexivity).
      replace (log (set_m_wordcount_old (dev_wordcount c) o)) with (log o) in P5
        by (destruct o; reflexivity).
      replace (m_trbuf (set_m_wordcount_old (dev_wordcount c) o)) with (m_trbuf o) in P6
        by (destruct o; reflexivity).
      destruct P10 as [(_ & Po & Pr)|(Pe & _)]; [|contradiction].
      replace (m_rollover_count (set_m_wordcount_old (dev_wordcount c) o))
        with (m_rollover_count o) in Pr by (destruct o; reflexivity).
      cbv zeta in P11. rewrite Pr in P11.
      cbn [negb]. rewrite Hbuf.
      assert (En : u64 (m_trbuf_sz o2 - m_trbuf_offset o2) = nBytes).
      { subst nBytes. unfold next_window_end, bytes_written_since_start.
        cbv zeta. rewrite <- P11, Po. reflexivity. }
      rewrite En, Po, P6.
      match goal with
      | |- context [if ?b then set_m_trbuf_full true ?x else ?x] => destruct b
      end; destruct o2; cbn in *; subst; repeat rewrite <- app_assoc; reflexivity.
    + intros R0 S0 [R1 R2] R3. subst nBytes.
      unfold next_window_end, bytes_written_since_start, TRACE_PACKET_SIZE in *.
      rewrite (u64_small (dev_wordcount c * 8)) by lia.
      rewrite (u64_small (m_rollover_count o * m_trbuf_alloc_sz o)) by lia.
      rewrite (u64_small (_ - _ * _)) by lia.
      rewrite (proj2 (Z.ltb_ge _ _) R3).
      rewrite u64_small by lia. lia.
  - intros c packets Hacc Hdone Hover Heq Hcirc Hbuf. rewrite E1.
    exact (read_trace_s2mm_wrap_batch false c packets o Hacc Hdone Hover Heq Hcirc Hbuf).
Qed.

(** C8 at work: 1 MiB buffer; the word counter grows by 80 bytes in each of
    five cycles, which do nothing; at 560 bytes one batch of 560 bytes is
    delivered. *)
Lemma C8_below_threshold_witness :
  let o := demo_session 100 1048576 in
  let skipped := [demo_cycle 10 (Some [1]); demo_cycle 20 (Some [2]); demo_cycle 30 (Some [3]);
                  demo_cycle 40 (Some [4]); demo_cycle 50 (Some [5])] in
  run_s2mm (map (pair false) skipped) o = o /\
  log (read_trace_s2mm false (demo_cycle 70 (Some [6; 7]))
         (run_s2mm (map (pair false) skipped) o))
  = log o ++ [syncTraceBuf 1 0 560; parseTraceData 560; processTraceData [6; 7]].
Proof.
  pose proof (C8_below_threshold (demo_session 100 1048576)
                [demo_cycle 10 (Some [1]); demo_cycle 20 (Some [2]); demo_cycle 30 (Some [3]);
                 demo_cycle 40 (Some [4]); demo_cycle 50 (Some [5])]) as H.
  cbv zeta in H. destruct H as (H1 & _ & H3 & _).
  - repeat constructor.
  - cbv zeta. split; [exact H1|].
    refine (proj1 (H3 (demo_cycle 70 (Some [6; 7])) [6; 7] _ _ _ _ _)).
    + right. vm_compute. discriminate.
    + reflexivity.
    + reflexivity.
    + vm_compute. discriminate.
    + reflexivity.
Defined.

(** C8, as stated, fails: a batch need not hold the accumulated data, and
    there need not be a batch.  On a circular 1 MiB buffer read up to byte
    1048568, five cycles add 80 bytes each and are skipped; the cycle that
    finds 560 bytes syncs and delivers the 8 bytes up to the end of the
    buffer, the window end being clipped to the allocation size, and 552
    bytes stay unread.  In the same cycle a failing sync gives no sink
    call, and a counter further than one buffer ahead gives the overwrite
    warning and no sync; at the end of a single-pass buffer the cycle only
    sets the done latch. *)
Lemma C8_counterexample :
  let o := run_s2mm [(false, demo_cycle 131071 (Some [1]))] (demo_session 10 1048576) in
  let skipped := [demo_cycle 131081 (Some [2]); demo_cycle 131091 (Some [3]);
                  demo_cycle 131101 (Some [4]); demo_cycle 131111 (Some [5]);
                  demo_cycle 131121 (Some [6])] in
  let c := demo_cycle 131141 (Some [7; 8]) in
  let o' := read_trace_s2mm false c (run_s2mm (map (pair false) skipped) o) in
  let sp := run_s2mm [(false, demo_cycle 128 (Some [1]))] (demo_session 100 1024) in
  (run_s2mm (map (pair false) skipped) o = o /\
   u64 (u64 (dev_wordcount c - m_wordcount_old o) * TRACE_PACKET_SIZE) = 560 /\
   log o' = log o ++ [syncTraceBuf 1 1048568 8; parseTraceData 8; processTraceData [7; 8]] /\
   dev_wordcount c * TRACE_PACKET_SIZE
     - (m_rollover_count o' * m_trbuf_alloc_sz o' + m_trbuf_sz o') = 552) /\
  log (read_trace_s2mm false (demo_cycle 131141 None) o) = log o ++ [syncTraceBuf 1 1048568 8] /\
  log (read_trace_s2mm false (demo_cycle 400000 (Some [9])) o)
    = log o ++ [message_send_warning; user_event_mark] /\
  (m_trbuf_sz sp = m_trbuf_alloc_sz sp /\
   u64 (u64 (198 - m_wordcount_old sp) * TRACE_PACKET_SIZE) = 560 /\
   log (read_trace_s2mm false (demo_cycle 198 (Some [2])) sp) = log sp /\
   trbuf_offload_done (read_trace_s2mm false (demo_cycle 198 (Some [2])) sp) = true).
Proof. cbv zeta. repeat split; vm_compute; reflexivity. Qed.

Lemma read_trace_s2mm_proceeds force c o o2 :
  cycle_accepted force c o ->
  config_s2mm_reader (dev_wordcount c) (set_m_wordcount_old (dev_wordcount c) o) = (true, o2) ->
  let o' := read_trace_s2mm force c o in
  m_trbuf_offset o' = m_trbuf_offset o2 /\
  m_trbuf_sz o' = m_trbuf_sz o2 /\
  m_trbuf_alloc_sz o' = m_trbuf_alloc_sz o /\
  m_wordcount_old o' = dev_wordcount c /\
  status o' = status o /\
  trbuf_offload_done o' = false /\
  (dev_host_buf c = None ->
   m_trbuf_full o' = m_trbuf_full o /\
   log o' = log o ++ [syncTraceBuf (m_trbuf o) (m_trbuf_offset o2)
                        (u64 (m_trbuf_sz o2 - m_trbuf_offset o2))]).
Proof.
  intros Hacc Ec o'. subst o'.
  rewrite read_trace_s2mm_accepted by exact Hacc. cbv zeta. rewrite Ec. cbn [negb].
  destruct (config_s2mm_reader_proceeds _ _ _ Ec)
    as (_ & P2 & P3 & P4 & P5 & P6 & P7 & P8 & _).
  replace (m_trbuf_full (set_m_wordcount_old (dev_wordcount c) o)) with (m_trbuf_full o)
    in P3 by (destruct o; reflexivity).
  replace (status (set_m_wordcount_old (dev_wordcount c) o)) with (status o)
    in P4 by (destruct o; reflexivity).
  replace (log (set_m_wordcount_old (dev_wordcount c) o)) with (log o)
    in P5 by (destruct o; reflexivity).
  replace (m_trbuf (set_m_wordcount_old (dev_wordcount c) o)) with (m_trbuf o)
    in P6 by (destruct o; reflexivity).
  replace (m_wordcount_old (set_m_wordcount_old (dev_wordcount c) o)) with (dev_wordcount c)
    in P7 by (destruct o; reflexivity).
  replace (m_trbuf_alloc_sz (set_m_wordcount_old (dev_wordcount c) o)) with (m_trbuf_alloc_sz o)
    in P8 by (destruct o; reflexivity).
  destruct (dev_host_buf c) as [packets|].
  - match goal with
    | |- context [if ?b then set_m_trbuf_full true ?x else ?x] => destruct b
    end; destruct o2; cbn in *; repeat split; auto; discriminate.
  - destruct o2; cbn in *; subst; repeat split; auto.
Qed.

(** C7 (as the code has it).  When [syncTraceBuf] returns a null pointer,
    the cycle calls nothing but that sync (no parse, no sink call), sets no
    latch and leaves the status alone; the saved word count and the window
    have already been moved, and the next cycle that reads starts its
    window at the end of the failed one (or at zero after a wrap): the
    failed window is not read again. *)
Theorem C7_sync_failure :
  forall (force : bool) (c : cycle) (o o2 : DeviceTraceOffload),
    cycle_accepted force c o ->
    config_s2mm_reader (dev_wordcount c) (set_m_wordcount_old (dev_wordcount c) o) = (true, o2) ->
    dev_host_buf c = None ->
    let o' := read_trace_s2mm force c o in
    log o' = log o ++ [syncTraceBuf (m_trbuf o) (m_trbuf_offset o')
                         (u64 (m_trbuf_sz o' - m_trbuf_offset o'))] /\
    m_trbuf_full o' = m_trbuf_full o /\
    trbuf_offload_done o' = trbuf_offload_done o /\
    status o' = status o /\
    m_wordcount_old o' = dev_wordcount c /\
    (forall (force2 : bool) (c2 : cycle) (o3 : DeviceTraceOffload),
       cycle_accepted force2 c2 o' ->
       config_s2mm_reader (dev_wordcount c2) (set_m_wordcount_old (dev_wordcount c2) o')
         = (true, o3) ->
       m_trbuf_offset (read_trace_s2mm force2 c2 o') = m_trbuf_sz o' \/
       (m_trbuf_sz o' = m_trbuf_alloc_sz o' /\
        m_trbuf_offset (read_trace_s2mm force2 c2 o') = 0)).
Proof.
  intros force c o o2 Hacc Ec Hbuf o'.
  destruct (read_trace_s2mm_proceeds force c o o2 Hacc Ec)
    as (Q1 & Q2 & Q3 & Q4 & Q5 & Q6 & Q7).
  fold o' in Q1, Q2, Q3, Q4, Q5, Q6, Q7.
  destruct (Q7 Hbuf) as [Q8 Q9].
  destruct (config_s2mm_reader_proceeds _ _ _ Ec) as (P1 & _).
  replace (trbuf_offload_done (set_m_wordcount_old (dev_wordcount c) o))
    with (trbuf_offload_done o) in P1 by (destruct o; reflexivity).
  repeat split; try assumption.
  - rewrite Q1, Q2. exact Q9.
  - congruence.
  - intros force2 c2 o3 Hacc2 Ec2.
    destruct (read_trace_s2mm_proceeds force2 c2 o' o3 Hacc2 Ec2) as (R1 & _).
    cbv zeta in R1. rewrite R1.
    destruct (config_s2mm_reader_proceeds _ _ _ Ec2)
      as (_ & _ & _ & _ & _ & _ & _ & _ & _ & P10 & _).
    replace (m_trbuf_sz (set_m_wordcount_old (dev_wordcount c2) o')) with (m_trbuf_sz o')
      in P10 by (destruct o'; reflexivity).
    replace (m_trbuf_alloc_sz (set_m_wordcount_old (dev_wordcount c2) o'))
      with (m_trbuf_alloc_sz o') in P10 by (destruct o'; reflexivity).
    destruct P10 as [(_ & Po & _)|(Pe & _ & Po & _)]; [left|right]; auto.
Qed.

(** C7 at work: the first cycle of a session finds 512 bytes and its sync
    fails. *)
Lemma C7_sync_failure_witness :
  let o := demo_session 100 1048576 in
  let o' := read_trace_s2mm false (demo_cycle 64 None) o in
  log o' = log o ++ [syncTraceBuf (m_trbuf o) (m_trbuf_offset o')
                       (u64 (m_trbuf_sz o' - m_trbuf_offset o'))] /\
  m_trbuf_offset (read_trace_s2mm false (demo_cycle 128 (Some [7])) o') = 512.
Proof.
  cbv zeta. split; [|reflexivity].
  refine (proj1 (C7_sync_failure false (demo_cycle 64 None) (demo_session 100 1048576)
                   (snd (config_s2mm_reader 64
                           (set_m_wordcount_old 64 (demo_session 100 1048576)))) _ _ _)).
  - right. vm_compute. discriminate.
  - reflexivity.
  - reflexivity.
Defined.

(** C7, as stated, fails: the sync of the first window, bytes 0 to 512,
    returns null; the next cycle syncs and delivers bytes 512 to 1024 only,
    and bytes 0 to 512 are not covered by it. *)
Lemma C7_counterexample :
  let o := demo_session 100 1048576 in
  let o1 := read_trace_s2mm false (demo_cycle 64 None) o in
  let o2 := read_trace_s2mm false (demo_cycle 128 (Some [7])) o1 in
  log o1 = log o ++ [syncTraceBuf 1 0 512] /\
  log o2 = log o1 ++ [syncTraceBuf 1 512 512; parseTraceData 512; processTraceData [7]] /\
  ~ synced 0 512 [syncTraceBuf 1 512 512; parseTraceData 512; processTraceData [7]].
Proof.
  cbv zeta. split; [reflexivity|]. split; [reflexivity|].
  intros (buf & off & n & Hin & H1 & H2).
  cbn in Hin. destruct Hin as [Hin|[Hin|[Hin|[]]]]; try discriminate.
  injection Hin as <- <- <-. lia.
Qed.

(** ** The worker *)

Lemma train_clock_frame now o :
  status (train_clock now o) = status o /\
  m_read_trace (train_clock now o) = m_read_trace o /\
  m_initialized (train_clock now o) = m_initialized o /\
  m_trbuf_sz (train_clock now o) = m_trbuf_sz o /\
  m_trbuf_alloc_sz (train_clock now o) = m_trbuf_alloc_sz o /\
  m_wordcount_old (train_clock now o) = m_wordcount_old o /\
  m_rollover_count (train_clock now o) = m_rollover_count o /\
  m_use_circ_buf (train_clock now o) = m_use_circ_buf o /\
  trbuf_offload_done (train_clock now o) = trbuf_offload_done o /\
  (In message_send_warning (log (train_clock now o)) -> In message_send_warning (log o)).
Proof.
  unfold train_clock. destruct (_ || _); destruct o; cbn; repeat split; auto.
  intros H. apply in_app_or in H. destruct H as [H|[H|[]]]; [exact H|discriminate].
Qed.

Lemma read_trace_end_frame dev o :
  status (read_trace_end dev o) = status o /\
  (In message_send_warning (log (read_trace_end dev o)) -> In message_send_warning (log o)).
Proof.
  unfold read_trace_end, reset_s2mm.
  destruct (hasTs2mm dev); destruct o as [st a b rd i f p tv buf]; cbn;
    [destruct (buf =? 0); [|destruct m_use_circ_buf0]|]; cbn; split; try reflexivity;
    intros H; repeat (apply in_app_or in H; destruct H as [H|H];
                      [|destruct H as [H|[]]; discriminate]); exact H.
Qed.

Lemma offload_finished_frame o :
  status (offload_finished o) = STOPPED /\ log (offload_finished o) = log o.
Proof. unfold offload_finished. destruct o as [st]; destruct st; split; reflexivity. Qed.

(** The window start reaches the allocation size in single-pass mode. *)
Lemma config_s2mm_reader_single_pass_done wc o :
  trbuf_offload_done o = false ->
  offload_cannot_keep_up (u64 (wc * TRACE_PACKET_SIZE)) (bytes_read_total o) (m_trbuf_alloc_sz o)
    = false ->
  m_trbuf_sz o = m_trbuf_alloc_sz o ->
  m_use_circ_buf o = false ->
  config_s2mm_reader wc o =
  (false, stop_offload (set_trbuf_offload_done true (set_m_trbuf_offset (m_trbuf_sz o) o))).
Proof.
  unfold config_s2mm_reader, bytes_read_total. intros -> -> E C. cbv zeta.
  replace (m_trbuf_offset (set_m_trbuf_offset (m_trbuf_sz o) o)) with (m_trbuf_sz o)
    by (destruct o; reflexivity).
  replace (m_trbuf_alloc_sz (set_m_trbuf_offset (m_trbuf_sz o) o)) with (m_trbuf_alloc_sz o)
    by (destruct o; reflexivity).
  replace (m_use_circ_buf (set_m_trbuf_offset (m_trbuf_sz o) o)) with (m_use_circ_buf o)
    by (destruct o; reflexivity).
  rewrite (proj2 (Z.eqb_eq _ _) E), C. reflexivity.
Qed.

Lemma stop_offload_stopping o : status o = STOPPING -> stop_offload o = o.
Proof. destruct o as [st]; cbn. intros ->. reflexivity. Qed.

Lemma offload_loop_exit win32 dev ticks o :
  status o <> RUNNING -> offload_loop win32 dev ticks o = Some o.
Proof.
  intros H. destruct ticks; cbn; unfold should_continue;
    destruct (status o); try reflexivity; congruence.
Qed.

(** C9 (as the code has it).  In single-pass mode, when an unforced cycle
    of the running worker advances the window start to exactly the
    allocation size (the device having written no more than one buffer
    beyond what was read, so that there is no overrun),
    the reader latches "offload done" and requests stop without calling the
    device or the sink; the worker leaves its loop at once, whatever
    iterations remain, makes one forced read, which calls nothing, tears
    down and records STOPPED; no warning is sent on the way. *)
Theorem C9_single_pass_done :
  forall (win32 : bool) (dev : DeviceIntf) (r : init_response) (t : tick) (ticks : list tick)
         (final : cycle) (o : DeviceTraceOffload),
    m_initialized o = true ->
    m_read_trace o = reader_s2mm ->
    status o = RUNNING ->
    m_use_circ_buf o = false ->
    trbuf_offload_done o = false ->
    m_trbuf_sz o = m_trbuf_alloc_sz o ->
    cycle_accepted false (tick_cycle t) o ->
    offload_cannot_keep_up (bytes_written_since_start (tick_cycle t)) (bytes_read_total o)
      (m_trbuf_alloc_sz o) = false ->
    let o0 := train_clock (tick_now t) o in
    let o1 := read_trace_s2mm false (tick_cycle t) o0 in
    let o2 := read_trace_s2mm true final o1 in
    let o3 := offload_finished (read_trace_end dev o2) in
    trbuf_offload_done o1 = true /\
    status o1 = STOPPING /\
    log o1 = log o0 /\
    log o2 = log o1 /\
    offload_loop win32 dev (t :: ticks) o = Some o1 /\
    offload_device_continuous win32 dev r (t :: ticks) final o = Some o3 /\
    status o3 = STOPPED /\
    (In message_send_warning (log o3) -> In message_send_warning (log o)).
Proof.
  intros win32 dev r t ticks final o Hinit Hrd Hst Hcirc Hdone Hsz Hacc Hover o0 o1 o2 o3.
  destruct (train_clock_frame (tick_now t) o)
    as (F1 & F2 & F3 & F4 & F5 & F6 & F7 & F8 & F9 & F10).
  fold o0 in F1, F2, F3, F4, F5, F6, F7, F8, F9, F10.
  set (wc := dev_wordcount (tick_cycle t)) in *.
  assert (E1 : o1 = stop_offload (set_trbuf_offload_done true
                        (set_m_trbuf_offset (m_trbuf_sz o0) (set_m_wordcount_old wc o0)))).
  { subst o1. rewrite read_trace_s2mm_accepted.
    - cbv zeta. fold wc. rewrite config_s2mm_reader_single_pass_done.
      + cbn [negb]. destruct o0; reflexivity.
      + destruct o0; cbn in *; congruence.
      + unfold bytes_written_since_start, bytes_read_total in *. fold wc in Hover.
        destruct o0; cbn in *. rewrite F4, F5, F7. exact Hover.
      + destruct o0; cbn in *; congruence.
      + destruct o0; cbn in *; congruence.
    - unfold cycle_accepted in *. rewrite F6. exact Hacc. }
  assert (A1 : trbuf_offload_done o1 = true).
  { rewrite E1. destruct o0 as [st]; destruct st; reflexivity. }
  assert (A2 : status o1 = STOPPING).
  { rewrite E1. destruct o0 as [st]; cbn in F1. rewrite F1, Hst. reflexivity. }
  assert (A3 : log o1 = log o0).
  { rewrite E1. destruct o0 as [st]; destruct st; reflexivity. }
  assert (A4 : m_read_trace o1 = reader_s2mm).
  { rewrite E1. destruct o0 as [st]; destruct st; cbn in *; congruence. }
  destruct (read_trace_s2mm_done true final o1 A1) as (B1 & B2 & B3).
  fold o2 in B1, B2, B3.
  assert (L : offload_loop win32 dev (t :: ticks) o = Some o1).
  { cbn [offload_loop]. unfold should_continue. rewrite Hst. cbn [status_eqb].
    fold o0. unfold call_m_read_trace. rewrite F2, Hrd. fold o1.
    replace (if tick_stop t then stop_offload o1 else o1) with o1
      by (destruct (tick_stop t); [rewrite stop_offload_stopping by exact A2|]; reflexivity).
    apply offload_loop_exit. rewrite A2. discriminate. }
  destruct (read_trace_end_frame dev o2) as (C1 & C2).
  destruct (offload_finished_frame (read_trace_end dev o2)) as (D1 & D2).
  fold o3 in D1, D2.
  repeat split; try assumption.
  - unfold offload_device_continuous. rewrite Hinit. cbn [negb]. rewrite L.
    unfold call_m_read_trace. rewrite A4. reflexivity.
  - rewrite D2. intros H. apply C2 in H. rewrite B2, A3 in H. apply F10, H.
Qed.

(** C9 at work: a single-pass session on a 1024-byte buffer has read the
    whole buffer in its first iteration; 512 more bytes are reported in the
    second, and the worker ends there although a third iteration is on
    offer. *)
Lemma C9_single_pass_done_witness :
  let o := read_trace_s2mm false (demo_cycle 128 (Some [1]))
             (train_clock 1000000 (demo_session 100 1024)) in
  let t2 := {| tick_now := 101000000; tick_cycle := demo_cycle 192 (Some [2]);
               tick_stop := false |} in
  let t3 := {| tick_now := 201000000; tick_cycle := demo_cycle 256 (Some [3]);
               tick_stop := false |} in
  let o1 := read_trace_s2mm false (tick_cycle t2) (train_clock (tick_now t2) o) in
  let o3 := offload_finished
              (read_trace_end demo_dev (read_trace_s2mm true (demo_cycle 256 (Some [3])) o1)) in
  m_trbuf_sz o = 1024 /\
  offload_device_continuous false demo_dev demo_init [t2; t3] (demo_cycle 256 (Some [3])) o
    = Some o3 /\
  status o3 = STOPPED.
Proof.
  cbv zeta. split; [reflexivity|].
  pose proof (C9_single_pass_done false demo_dev demo_init
                {| tick_now := 101000000; tick_cycle := demo_cycle 192 (Some [2]);
                   tick_stop := false |}
                [ {| tick_now := 201000000; tick_cycle := demo_cycle 256 (Some [3]);
                     tick_stop := false |} ]
                (demo_cycle 256 (Some [3]))
                (read_trace_s2mm false (demo_cycle 128 (Some [1]))
                   (train_clock 1000000 (demo_session 100 1024)))) as H.
  cbv zeta in H.
  destruct H as (_ & _ & _ & _ & _ & H6 & H7 & _); try reflexivity.
  - right. vm_compute. discriminate.
  - split; [exact H6|exact H7].
Defined.

(** C9, as stated, fails in two ways.  A single-pass session on a
    1024-byte buffer has read the whole buffer.  When the device then
    reports 2400 bytes, more than one buffer beyond what was read, the
    overrun test, which comes first, sends the overwrite warning.  And when
    the controller requests the stop in the iteration that fills the
    buffer, the done latch is taken by the final forced read itself, after
    which the worker only tears down: no read follows the latch. *)
Lemma C9_counterexample :
  let o := read_trace_s2mm false (demo_cycle 128 (Some [1]))
             (train_clock 1000000 (demo_session 100 1024)) in
  let t2 := {| tick_now := 101000000; tick_cycle := demo_cycle 300 (Some [2]);
               tick_stop := false |} in
  let t1 := {| tick_now := 1000000; tick_cycle := demo_cycle 128 (Some [1]);
               tick_stop := true |} in
  let final := demo_cycle 192 (Some [2]) in
  (m_use_circ_buf o = false /\ m_trbuf_sz o = m_trbuf_alloc_sz o /\
   status o = RUNNING /\ trbuf_offload_done o = false /\
   ~ In message_send_warning (log o) /\
   exists o3,
     offload_device_continuous false demo_dev demo_init [t2] (demo_cycle 300 (Some [2])) o
       = Some o3 /\
     In message_send_warning (log o3)) /\
  exists o1,
    offload_loop false demo_dev [t1] (demo_session 100 1024) = Some o1 /\
    m_use_circ_buf o1 = false /\
    m_trbuf_sz o1 = m_trbuf_alloc_sz o1 /\
    trbuf_offload_done o1 = false /\
    trbuf_offload_done (read_trace_s2mm true final o1) = true /\
    log (read_trace_s2mm true final o1) = log o1 /\
    offload_device_continuous false demo_dev demo_init [t1] final (demo_session 100 1024)
      = Some (offload_finished (read_trace_end demo_dev (read_trace_s2mm true final o1))).
Proof.
  cbv zeta. split.
  - split; [reflexivity|]. split; [reflexivity|]. split; [reflexivity|].
    split; [reflexivity|]. split.
    + vm_compute. intros H.
      repeat (destruct H as [H|H]; [discriminate H|]). exact H.
    + eexists. split; [vm_compute; reflexivity|].
      vm_compute. repeat first [left; reflexivity | right].
  - eexists. split; [vm_compute; reflexivity|].
    repeat split; vm_compute; reflexivity.
Qed.

(** ** Session initialisation *)

Lemma reset_s2mm_frame o :
  m_use_circ_buf (reset_s2mm o) = m_use_circ_buf o /\
  m_trbuf_alloc_sz (reset_s2mm o) = m_trbuf_alloc_sz o /\
  sleep_interval_ms (reset_s2mm o) = sleep_interval_ms o /\
  m_circ_buf_min_rate (reset_s2mm o) = m_circ_buf_min_rate o /\
  status (reset_s2mm o) = status o.
Proof.
  unfold reset_s2mm. destruct (m_trbuf o =? 0); [auto|].
  destruct (m_use_circ_buf o) eqn:E; destruct o; cbn in *; auto.
Qed.

(** What [init_s2mm] returns and how it leaves the circular flag. *)
Lemma init_s2mm_spec dev r circ_buf o :
  let res := init_s2mm dev r circ_buf o in
  (fst res = true <-> m_trbuf_alloc_sz o <> 0 /\ dev_alloc r <> 0) /\
  status (snd res) = status o /\
  (m_use_circ_buf o = false ->
   (m_use_circ_buf (snd res) = true <->
    fst res = true /\ supportsCircBuf dev = true /\ circ_buf = true /\
    (sleep_interval_ms o = 0 \/
     m_circ_buf_min_rate o <= u64 (m_trbuf_alloc_sz o * (1000 / sleep_interval_ms o))))).
Proof.
  cbv zeta. unfold init_s2mm.
  set (o1 := if negb (m_trbuf o =? 0) then reset_s2mm o else o).
  assert (F : m_use_circ_buf o1 = m_use_circ_buf o /\
              m_trbuf_alloc_sz o1 = m_trbuf_alloc_sz o /\
              sleep_interval_ms o1 = sleep_interval_ms o /\
              m_circ_buf_min_rate o1 = m_circ_buf_min_rate o /\
              status o1 = status o).
  { subst o1. destruct (negb _); [apply reset_s2mm_frame|auto 6]. }
  destruct F as (F1 & F2 & F3 & F4 & F5).
  rewrite <- F1, <- F2, <- F3, <- F4, <- F5. clearbody o1. clear.
  destruct o1; cbn.
  destruct (m_trbuf_alloc_sz0 =? 0) eqn:Ea; cbn;
    [apply Z.eqb_eq in Ea | apply Z.eqb_neq in Ea].
  { repeat split; intros; subst; try congruence; intuition congruence. }
  destruct (dev_alloc r =? 0) eqn:Ed; cbn;
    [apply Z.eqb_eq in Ed | apply Z.eqb_neq in Ed].
  { repeat split; intros; subst; try congruence; intuition congruence. }
  destruct (supportsCircBuf dev), circ_buf; cbn;
    try (repeat split; intros; subst; try congruence; intuition congruence).
  destruct (sleep_interval_ms0 =? 0) eqn:Es; cbn;
    [apply Z.eqb_eq in Es | apply Z.eqb_neq in Es].
  { repeat split; intros; subst; try congruence; intuition congruence. }
  destruct (m_circ_buf_min_rate0 <=? _) eqn:Er; cbn;
    [apply Z.leb_le in Er | apply Z.leb_gt in Er];
    repeat split; intros; subst; try congruence; try (intuition congruence); intuition lia.
Qed.

(** C10 (as the code has it).  On an object whose circular flag is not
    already set, [init_s2mm] enables circular mode exactly when it
    succeeds, the device supports circular buffering, the caller asked for
    it, and either the poll interval is zero or the rate estimate
    [m_trbuf_alloc_sz * (1000 / sleep_interval_ms)], on 64 bits, reaches
    the minimum rate; so when the device lacks the support, or the poll
    interval is not zero and the estimate is below the minimum, the session
    is single-pass. *)
Theorem C10_circular_mode :
  forall (dev : DeviceIntf) (r : init_response) (circ_buf : bool) (o : DeviceTraceOffload),
    m_use_circ_buf o = false ->
    let res := init_s2mm dev r circ_buf o in
    (m_use_circ_buf (snd res) = true <->
     fst res = true /\ supportsCircBuf dev = true /\ circ_buf = true /\
     (sleep_interval_ms o = 0 \/
      m_circ_buf_min_rate o <= u64 (m_trbuf_alloc_sz o * (1000 / sleep_interval_ms o)))) /\
    (supportsCircBuf dev = false \/
     (sleep_interval_ms o <> 0 /\
      u64 (m_trbuf_alloc_sz o * (1000 / sleep_interval_ms o)) < m_circ_buf_min_rate o) ->
     m_use_circ_buf (snd res) = false).
Proof.
  intros dev r circ_buf o Hc res.
  destruct (init_s2mm_spec dev r circ_buf o) as (_ & _ & S). fold res in S.
  specialize (S Hc). split; [exact S|].
  intros H. apply not_true_is_false. intros E.
  apply (proj1 S) in E. destruct E as (_ & E2 & _ & E4).
  destruct H as [H|[H1 H2]]; [congruence|]. destruct E4 as [E4|E4]; [congruence|lia].
Qed.

(** C10 at work: a 1 MiB buffer polled every 10 ms gives an estimate of
    exactly the minimum rate and the session is circular; polled every
    100 ms it is single-pass. *)
Lemma C10_circular_mode_witness :
  m_use_circ_buf
    (snd (init_s2mm demo_dev demo_init true
            (DeviceTraceOffload_ctor demo_dev 10 1048576 104857600 0))) = true /\
  m_use_circ_buf
    (snd (init_s2mm demo_dev demo_init true
            (DeviceTraceOffload_ctor demo_dev 100 1048576 104857600 0))) = false.
Proof.
  split.
  - apply (proj1 (C10_circular_mode demo_dev demo_init true
                    (DeviceTraceOffload_ctor demo_dev 10 1048576 104857600 0) eq_refl)).
    repeat split. right. vm_compute. discriminate.
  - apply (proj2 (C10_circular_mode demo_dev demo_init true
                    (DeviceTraceOffload_ctor demo_dev 100 1048576 104857600 0) eq_refl)).
    right. split; [discriminate|]. vm_compute. reflexivity.
Defined.

(** C10, as stated, fails for a poll interval of zero: a 1024-byte buffer
    becomes circular although no rate estimate reaches the minimum rate
    (the recorded estimate is still 0, and [1000 / 0] is 0 on [Z]). *)
Lemma C10_counterexample :
  let o := DeviceTraceOffload_ctor demo_dev 0 1024 104857600 0 in
  let o' := snd (init_s2mm demo_dev demo_init true o) in
  sleep_interval_ms o = 0 /\
  m_use_circ_buf o' = true /\
  m_circ_buf_cur_rate o' < m_circ_buf_min_rate o' /\
  m_trbuf_alloc_sz o * (1000 / sleep_interval_ms o) < m_circ_buf_min_rate o.
Proof. cbv zeta. repeat split. Qed.





(** * Further properties of the offload engine *)

(** ** What the readers touch *)

Ltac log_extension :=
  first [ exists []; split; [symmetry; apply app_nil_r | reflexivity]
        | eexists; split; [repeat rewrite <- app_assoc; reflexivity | reflexivity] ].

Lemma reader_frame_refl o : reader_frame o o.
Proof. unfold reader_frame. auto 15. Qed.

Lemma reader_frame_trans o1 o2 o3 :
  reader_frame o1 o2 -> reader_frame o2 o3 -> reader_frame o1 o3.
Proof. unfold reader_frame. intuition congruence. Qed.

Lemma read_trace_s2mm_frame force c o :
  reader_frame o (read_trace_s2mm force c o) /\
  (exists evs, log (read_trace_s2mm force c o) = log o ++ evs /\
               forallb s2mm_reader_event evs = true) /\
  (status (read_trace_s2mm force c o) = status o \/
   status (read_trace_s2mm force c o) = STOPPING /\ status o <> STOPPED).
Proof.
  unfold read_trace_s2mm, config_s2mm_reader, stop_offload, reader_frame.
  destruct o as [st]; destruct st; cbn;
    repeat match goal with
           | |- context [if ?b then _ else _] => destruct b; cbn
           | |- context [match dev_host_buf c with _ => _ end] => destruct (dev_host_buf c); cbn
           end;
    (split; [auto 15|]); (split; [log_extension|]);
    auto; right; split; auto; discriminate.
Qed.

Lemma read_trace_fifo_body_frame v n o :
  let o' := snd (read_trace_fifo_body v n o) in
  reader_frame o o' /\ window_frame o o' /\ status o' = status o /\
  m_trbuf_full o' = m_trbuf_full o /\ m_trace_vector o' = v /\
  log o' = log o ++ [readTrace; processTraceData v].
Proof.
  rewrite read_trace_fifo_body_eq. unfold reader_frame, window_frame.
  destruct o; cbn. rewrite <- app_assoc. auto 20.
Qed.

Lemma read_trace_fifo_loop_frame fifo :
  forall n o,
    let o' := snd (read_trace_fifo_loop fifo n o) in
    reader_frame o o' /\ window_frame o o' /\ status o' = status o /\
    m_trace_vector o' = [].
Proof.
  induction fifo as [|v fifo IH]; intros n o; cbn [read_trace_fifo_loop].
  - destruct (read_trace_fifo_body_frame [] n o) as (F1 & F2 & F3 & _ & F5 & _). auto.
  - destruct (read_trace_fifo_body_frame v n o) as (F1 & F2 & F3 & _ & F5 & _).
    cbv zeta in *.
    destruct (read_trace_fifo_body v n o) as [n' o1]. cbn [snd] in *.
    rewrite F5.
    destruct (Z.of_nat (length v) =? 0) eqn:E.
    + cbn [snd]. repeat split; try apply F1; try apply F2; auto.
      rewrite F5. apply Z.eqb_eq in E. destruct v; [reflexivity|cbn in E; lia].
    + destruct (IH n' o1) as (I1 & I2 & I3 & I4).
      repeat split; try apply (reader_frame_trans o o1 _ F1 I1); auto;
        unfold window_frame in *; intuition congruence.
Qed.

(** One FIFO cycle that starts with the latch clear. *)
Lemma read_trace_fifo_spec win32 dev c o :
  m_trbuf_full o = false ->
  let o' := read_trace_fifo win32 dev c o in
  reader_frame o o' /\ window_frame o o' /\ status o' = status o /\
  log o' = log o ++ fifo_events (cycle_chunks win32 c) /\
  m_trbuf_full o' = (fifo_size dev <=? u32 (packet_count (cycle_chunks win32 c))) /\
  m_trace_vector o' = (if win32 then hd [] (dev_fifo c) else []).
Proof.
  intros Hfull. unfold read_trace_fifo. rewrite Hfull.
  assert (K : forall n o1,
             reader_frame o o1 -> window_frame o o1 -> status o1 = status o ->
             m_trbuf_full o1 = false ->
             let o' := if negb (m_trbuf_full o1)
                       then if fifo_size dev <=? n then set_m_trbuf_full true o1 else o1
                       else o1 in
             reader_frame o o' /\ window_frame o o' /\ status o' = status o /\
             log o' = log o1 /\ m_trbuf_full o' = (fifo_size dev <=? n) /\
             m_trace_vector o' = m_trace_vector o1).
  { intros n o1 F1 F2 F3 F4. rewrite F4. cbn [negb].
    unfold reader_frame, window_frame in *.
    destruct (fifo_size dev <=? n); destruct o1; cbn in *; intuition congruence. }
  unfold cycle_chunks. destruct win32.
  - destruct (read_trace_fifo_body_frame (hd [] (dev_fifo c)) 0 o)
      as (F1 & F2 & F3 & F4 & F5 & F6).
    cbv zeta in *. pose proof (read_trace_fifo_body_eq (hd [] (dev_fifo c)) 0 o) as E.
    destruct (read_trace_fifo_body (hd [] (dev_fifo c)) 0 o) as [n o1].
    cbn [snd] in *. injection E as En _. subst n.
    destruct (K (u32 (Z.of_nat (length (hd [] (dev_fifo c))))) o1 F1 F2 F3)
      as (K1 & K2 & K3 & K4 & K5 & K6); [congruence|].
    cbv zeta in *. rewrite K4, K5, K6, F5, F6.
    unfold packet_count, fifo_events. cbn [fold_right flat_map app].
    rewrite Z.add_0_r.
    split; [exact K1|]. split; [exact K2|]. split; [exact K3|]. repeat split.
  - destruct (read_trace_fifo_loop_frame (dev_fifo c) 0 o) as (F1 & F2 & F3 & F4).
    destruct (read_trace_fifo_loop_spec (dev_fifo c) 0 o) as (S1 & S2 & S3).
    cbv zeta in *.
    destruct (read_trace_fifo_loop (dev_fifo c) 0 o) as [n o1]. cbn [fst snd] in *.
    rewrite Z.add_0_l in S1. subst n.
    destruct (K (u32 (packet_count (drained_chunks (dev_fifo c)))) o1 F1 F2 F3)
      as (K1 & K2 & K3 & K4 & K5 & K6); [congruence|].
    cbv zeta in *. rewrite K4, K5, K6, F4, S2.
    split; [exact K1|]. split; [exact K2|]. split; [exact K3|]. repeat split.
Qed.

Lemma read_trace_fifo_frame win32 dev c o :
  let o' := read_trace_fifo win32 dev c o in
  reader_frame o o' /\ window_frame o o' /\ status o' = status o /\
  exists evs, log o' = log o ++ evs /\ forallb fifo_reader_event evs = true.
Proof.
  destruct (m_trbuf_full o) eqn:Hfull.
  - rewrite read_trace_fifo_full by exact Hfull. cbv zeta.
    split; [apply reader_frame_refl|]. split; [unfold window_frame; auto|].
    split; [reflexivity|]. exists []. split; [symmetry; apply app_nil_r|reflexivity].
  - destruct (read_trace_fifo_spec win32 dev c o Hfull) as (F1 & F2 & F3 & F4 & _).
    cbv zeta. repeat split; try apply F1; try apply F2; try exact F3.
    exists (fifo_events (cycle_chunks win32 c)). split; [exact F4|].
    generalize (cycle_chunks win32 c). intros l. induction l as [|v l IH]; [reflexivity|].
    cbn. exact IH.
Qed.

(** ** The device buffer *)

Lemma freed_app l l' : freed (l ++ l') = freed l ++ freed l'.
Proof.
  induction l as [|e l IH]; [reflexivity|].
  destruct e; cbn; rewrite IH; reflexivity.
Qed.

Lemma freed_of_reader_events rd evs :
  forallb (match rd with reader_fifo => fifo_reader_event | reader_s2mm => s2mm_reader_event end)
          evs = true ->
  freed evs = [].
Proof.
  induction evs as [|e evs IH]; [reflexivity|]. cbn. intros H.
  apply andb_true_iff in H. destruct H as [He H].
  destruct rd, e; try discriminate; cbn; apply IH, H.
Qed.

(** What [reset_s2mm] does to the buffer and to the ledger of frees. *)
Lemma reset_s2mm_ledger o :
  m_trbuf (reset_s2mm o) = 0 /\
  freed (log (reset_s2mm o)) = freed (log o) ++ outstanding o /\
  m_trbuf_alloc_sz (reset_s2mm o) = m_trbuf_alloc_sz o.
Proof.
  unfold reset_s2mm, outstanding.
  destruct (m_trbuf o =? 0) eqn:E.
  - apply Z.eqb_eq in E. rewrite app_nil_r. auto.
  - destruct (m_use_circ_buf o) eqn:C; destruct o; cbn in *;
      rewrite !freed_app; cbn; rewrite ?app_nil_r; auto.
Qed.

Lemma init_s2mm_ledger dev r circ_buf o :
  let o' := snd (init_s2mm dev r circ_buf o) in
  freed (log o') ++ outstanding o' =
    (freed (log o) ++ outstanding o)
    ++ (if negb (m_trbuf_alloc_sz o =? 0) && negb (dev_alloc r =? 0) then [dev_alloc r] else []) /\
  m_trbuf_alloc_sz o' = m_trbuf_alloc_sz o.
Proof.
  cbv zeta. unfold init_s2mm.
  set (o1 := if negb (m_trbuf o =? 0) then reset_s2mm o else o).
  assert (L : freed (log o1) = freed (log o) ++ outstanding o /\ m_trbuf o1 = 0 /\
              m_trbuf_alloc_sz o1 = m_trbuf_alloc_sz o).
  { subst o1. destruct (m_trbuf o =? 0) eqn:E; cbn [negb].
    - unfold outstanding. rewrite E, app_nil_r. apply Z.eqb_eq in E. auto.
    - destruct (reset_s2mm_ledger o) as (R1 & R2 & R3). auto. }
  destruct L as (L1 & L2 & L3). rewrite <- L1, <- L3. clearbody o1. clear L1 L3.
  unfold outstanding. destruct o1; cbn in *. subst.
  destruct (m_trbuf_alloc_sz0 =? 0) eqn:Ea; cbn.
  { rewrite !app_nil_r. auto. }
  destruct (dev_alloc r =? 0) eqn:Ed; cbn.
  { rewrite Ed, freed_app. cbn. rewrite !app_nil_r. auto. }
  repeat match goal with
         | |- context [if ?b then _ else _] =>
             lazymatch b with
             | (dev_alloc r =? 0) => fail
             | _ => destruct b; cbn
             end
         end;
    rewrite ?Ed, !freed_app; cbn; rewrite ?app_nil_r; auto.
Qed.

Lemma call_m_read_trace_frame win32 dev force c o :
  let o' := call_m_read_trace win32 dev force c o in
  reader_frame o o' /\
  (exists evs, log o' = log o ++ evs /\ forallb (reader_allows (m_read_trace o)) evs = true /\
               freed evs = []) /\
  (status o' = status o \/ status o' = STOPPING /\ status o <> STOPPED).
Proof.
  unfold call_m_read_trace. destruct (m_read_trace o) eqn:Rd.
  - destruct (read_trace_fifo_frame win32 dev c o) as (F1 & _ & F3 & evs & F4 & F5).
    cbv zeta in *. split; [exact F1|]. split; [|left; exact F3].
    exists evs. split; [exact F4|]. split.
    + clear F4. induction evs as [|e evs IH]; [reflexivity|]. cbn in *.
      apply andb_true_iff in F5. destruct F5 as [He F5]. rewrite (IH F5).
      destruct e; try discriminate; reflexivity.
    + apply (freed_of_reader_events reader_fifo), F5.
  - destruct (read_trace_s2mm_frame force c o) as (F1 & (evs & F4 & F5) & F3).
    cbv zeta. split; [exact F1|]. split; [|exact F3].
    exists evs. split; [exact F4|]. split.
    + clear F4. induction evs as [|e evs IH]; [reflexivity|]. cbn in *.
      apply andb_true_iff in F5. destruct F5 as [He F5]. rewrite (IH F5).
      destruct e; try discriminate; reflexivity.
    + apply (freed_of_reader_events reader_s2mm), F5.
Qed.

Lemma do_op_ledger win32 dev op o o' :
  do_op win32 dev op o = Some o' ->
  freed (log o') ++ outstanding o' =
    (freed (log o) ++ outstanding o) ++ allocated dev (m_trbuf_alloc_sz o) [op] /\
  m_trbuf_alloc_sz o' = m_trbuf_alloc_sz o.
Proof.
  intros H. destruct op as [type| | |now|r circ_buf|force c|]; cbn [do_op] in H;
    cbn [allocated]; rewrite ?app_nil_r; try (injection H as <-).
  - destruct (start_offload_some type o o' H) as [[_ ->]|(_ & _ & ->)]; [auto|].
    unfold outstanding.
    destruct o; cbn; rewrite ?freed_app; cbn; rewrite ?app_nil_r; auto.
  - unfold stop_offload, outstanding. destruct o as [st]; destruct st; cbn; auto.
  - unfold offload_finished, outstanding. destruct o as [st]; destruct st; cbn; auto.
  - unfold train_clock, outstanding. destruct (_ || _); destruct o; cbn;
      rewrite ?freed_app; cbn; rewrite ?app_nil_r; auto.
  - unfold read_trace_init.
    set (o1 := set_trbuf_offload_done false (set_m_trbuf_full false o)).
    assert (E : freed (log o1) ++ outstanding o1 = freed (log o) ++ outstanding o /\
                m_trbuf_alloc_sz o1 = m_trbuf_alloc_sz o)
      by (subst o1; unfold outstanding; destruct o; cbn; auto).
    destruct E as [E1 E2]. rewrite <- E1, <- E2. clearbody o1.
    destruct (hasTs2mm dev) eqn:T; cbn [andb].
    + destruct (init_s2mm_ledger dev r circ_buf o1) as [L1 L2]. cbv zeta in *.
      destruct (init_s2mm dev r circ_buf o1) as [ok o2]. cbn [snd] in *.
      rewrite <- L1, <- L2. unfold outstanding. destruct o2; cbn. auto.
    + rewrite app_nil_r. unfold outstanding.
      destruct (hasFIFO dev); destruct o1; cbn; auto.
  - destruct (call_m_read_trace_frame win32 dev force c o) as (F1 & (evs & F2 & _ & F3) & _).
    cbv zeta in *. unfold reader_frame in F1.
    destruct F1 as (_ & Fa & _ & _ & _ & _ & Fb & _).
    unfold outstanding. rewrite F2, freed_app, F3, Fb, app_nil_r. auto.
  - unfold read_trace_end.
    set (o1 := emit _ _).
    assert (E : freed (log o1) = freed (log o) /\ outstanding o1 = outstanding o /\
                m_trbuf_alloc_sz o1 = m_trbuf_alloc_sz o).
    { subst o1. unfold outstanding. destruct o; cbn. rewrite freed_app. cbn.
      rewrite app_nil_r. auto. }
    destruct E as (E1 & E2 & E3). rewrite <- E1, <- E2, <- E3. clearbody o1.
    destruct (hasTs2mm dev).
    + destruct (reset_s2mm_ledger o1) as (R1 & R2 & R3).
      replace (outstanding (set_m_initialized false (reset_s2mm o1))) with (@nil Z)
        by (unfold outstanding; destruct (reset_s2mm o1); cbn in *; subst; reflexivity).
      replace (log (set_m_initialized false (reset_s2mm o1))) with (log (reset_s2mm o1))
        by (destruct (reset_s2mm o1); reflexivity).
      replace (m_trbuf_alloc_sz (set_m_initialized false (reset_s2mm o1)))
        with (m_trbuf_alloc_sz (reset_s2mm o1)) by (destruct (reset_s2mm o1); reflexivity).
      rewrite R2, R3, app_nil_r. auto.
    + auto.
Qed.

Lemma run_ops_cons win32 dev op ops o o' :
  run_ops win32 dev (op :: ops) o = Some o' ->
  exists o1, do_op win32 dev op o = Some o1 /\ run_ops win32 dev ops o1 = Some o'.
Proof.
  cbn [run_ops]. destruct (do_op win32 dev op o) as [o1|]; [|discriminate].
  intros H. exists o1. auto.
Qed.

Lemma run_ops_app win32 dev ops ops' o :
  run_ops win32 dev (ops ++ ops') o =
  match run_ops win32 dev ops o with
  | Some o1 => run_ops win32 dev ops' o1
  | None => None
  end.
Proof.
  revert o. induction ops as [|op ops IH]; intros o; [reflexivity|].
  cbn [app run_ops]. destruct (do_op win32 dev op o); [apply IH | reflexivity].
Qed.

Lemma allocated_cons dev alloc_sz op ops :
  allocated dev alloc_sz (op :: ops) = allocated dev alloc_sz [op] ++ allocated dev alloc_sz ops.
Proof. destruct op; cbn; rewrite ?app_nil_r; reflexivity. Qed.

(** X1.  Over any sequence of calls on the object (start, stop, finished,
    clock training, initialisation, read cycle, teardown) that return, the
    handles passed to [freeTraceBuf], followed by the handle the object
    still holds, are the handles freed or held before, followed by the
    handles the device handed out since, in order: every buffer is freed
    exactly once, none twice, and at most one is held.  After
    [read_trace_end] on a stream device none is held. *)
Theorem X1_buffer_ledger :
  forall (win32 : bool) (dev : DeviceIntf) (ops : list lifecycle_op)
         (o o' : DeviceTraceOffload),
    run_ops win32 dev ops o = Some o' ->
    freed (log o') ++ outstanding o' =
      (freed (log o) ++ outstanding o) ++ allocated dev (m_trbuf_alloc_sz o) ops /\
    (hasTs2mm dev = true ->
     outstanding (read_trace_end dev o') = [] /\
     freed (log (read_trace_end dev o')) =
       (freed (log o) ++ outstanding o) ++ allocated dev (m_trbuf_alloc_sz o) ops).
Proof.
  intros win32 dev ops o o' Hrun.
  assert (L : forall ops o o',
             run_ops win32 dev ops o = Some o' ->
             freed (log o') ++ outstanding o' =
               (freed (log o) ++ outstanding o) ++ allocated dev (m_trbuf_alloc_sz o) ops).
  { clear. induction ops as [|op ops IH]; intros o o' H.
    - cbn in H. injection H as <-. cbn. rewrite app_nil_r. reflexivity.
    - destruct (run_ops_cons _ _ _ _ _ _ H) as (o1 & H1 & H2).
      rewrite allocated_cons, (IH _ _ H2).
      destruct (do_op_ledger win32 dev op o o1 H1) as [L1 L2].
      rewrite L1, L2, app_assoc. reflexivity. }
  split; [apply L, Hrun|]. intros T.
  assert (Hend : run_ops win32 dev (ops ++ [op_end]) o = Some (read_trace_end dev o'))
    by (rewrite run_ops_app, Hrun; reflexivity).
  pose proof (L (ops ++ [op_end]) o _ Hend) as E.
  assert (A : allocated dev (m_trbuf_alloc_sz o) (ops ++ [op_end])
              = allocated dev (m_trbuf_alloc_sz o) ops).
  { clear. induction ops as [|op ops IH]; [reflexivity|].
    cbn [app]. rewrite allocated_cons, IH, <- allocated_cons. reflexivity. }
  rewrite A in E.
  assert (O : outstanding (read_trace_end dev o') = []).
  { unfold read_trace_end. rewrite T. unfold outstanding.
    destruct (reset_s2mm_ledger (emit (endProcessTraceData (m_trace_vector (set_m_trace_vector [] o')))
                                   (set_m_trace_vector [] o'))) as (R1 & _).
    destruct (reset_s2mm _); cbn in *. subst. reflexivity. }
  split; [exact O|]. rewrite O, app_nil_r in E. exact E.
Qed.

(** X1 at work: a stream session is initialised twice and torn down; both
    buffers are freed, in order, and none is held. *)
Lemma X1_buffer_ledger_witness :
  let ops := [op_start TRACE; op_init {| dev_alloc := 7; dev_addr := 4096 |} true;
              op_read true (demo_cycle 64 (Some [1]));
              op_init {| dev_alloc := 9; dev_addr := 8192 |} true] in
  let o := DeviceTraceOffload_ctor demo_dev 100 1048576 104857600 0 in
  exists o',
    run_ops false demo_dev ops o = Some o' /\
    outstanding o' = [9] /\
    freed (log (read_trace_end demo_dev o')) = [7; 9].
Proof.
  cbv zeta. eexists. split; [reflexivity|]. split; [reflexivity|].
  refine (proj2 (proj2 (X1_buffer_ledger false demo_dev
                   [op_start TRACE; op_init {| dev_alloc := 7; dev_addr := 4096 |} true;
                    op_read true (demo_cycle 64 (Some [1]));
                    op_init {| dev_alloc := 9; dev_addr := 8192 |} true]
                   (DeviceTraceOffload_ctor demo_dev 100 1048576 104857600 0) _ eq_refl)
                 eq_refl)).
Defined.

(** ** The bound reader *)

Lemma forallb_reader_allows_other rd evs :
  forallb (fun e => match e with
                    | readTrace | syncTraceBuf _ _ _ | parseTraceData _
                    | message_send_warning | user_event_mark => false
                    | _ => true
                    end) evs = true ->
  forallb (reader_allows rd) evs = true.
Proof.
  induction evs as [|e evs IH]; [reflexivity|]. cbn. intros H.
  apply andb_true_iff in H. destruct H as [He H]. rewrite (IH H).
  destruct e, rd; try discriminate; reflexivity.
Qed.

Lemma read_trace_init_frame dev r circ_buf o :
  let o' := snd (read_trace_init dev r circ_buf o) in
  m_read_trace o' = m_read_trace o /\
  status o' = status o /\
  m_trbuf_sz o' = m_trbuf_sz o /\
  m_trbuf_offset o' = m_trbuf_offset o /\
  m_rollover_count o' = m_rollover_count o /\
  m_wordcount_old o' = m_wordcount_old o /\
  m_trbuf_full o' = false /\
  trbuf_offload_done o' = false /\
  exists evs, log o' = log o ++ evs /\
              forallb (fun e => match e with
                                | allocTraceBuf _ | initTS2MM _ _ _ | resetTS2MM
                                | freeTraceBuf _ => true
                                | _ => false
                                end) evs = true.
Proof.
  unfold read_trace_init, init_s2mm, reset_s2mm.
  destruct o; cbn.
  repeat match goal with
         | |- context [if ?b then _ else _] => destruct b; cbn
         end;
    repeat (split; [reflexivity|]); log_extension.
Qed.

Lemma read_trace_end_log dev o :
  m_read_trace (read_trace_end dev o) = m_read_trace o /\
  exists evs, log (read_trace_end dev o) = log o ++ endProcessTraceData [] :: evs /\
              forallb (fun e => match e with
                                | initTS2MM _ _ _ | resetTS2MM | freeTraceBuf _ => true
                                | _ => false
                                end) evs = true.
Proof.
  unfold read_trace_end, reset_s2mm.
  destruct o; cbn.
  repeat match goal with
         | |- context [if ?b then _ else _] => destruct b; cbn
         end;
    (split; [reflexivity|]);
    eexists; (split; [repeat rewrite <- app_assoc; reflexivity | reflexivity]).
Qed.

Lemma do_op_reader win32 dev op o o' :
  do_op win32 dev op o = Some o' ->
  m_read_trace o' = m_read_trace o /\
  exists evs, log o' = log o ++ evs /\ forallb (reader_allows (m_read_trace o)) evs = true.
Proof.
  intros H. destruct op as [type| | |now|r circ_buf|force c|]; cbn [do_op] in H;
    try (injection H as <-).
  - destruct (start_offload_some type o o' H) as [[_ ->]|(_ & _ & ->)].
    + split; [reflexivity|]. exists []. split; [symmetry; apply app_nil_r | reflexivity].
    + destruct o; cbn. split; [reflexivity|].
      eexists; split; [reflexivity | destruct m_read_trace0; reflexivity].
  - unfold stop_offload. destruct o as [st]; destruct st; cbn;
      (split; [reflexivity|]); exists []; (split; [symmetry; apply app_nil_r | reflexivity]).
  - unfold offload_finished. destruct o as [st]; destruct st; cbn;
      (split; [reflexivity|]); exists []; (split; [symmetry; apply app_nil_r | reflexivity]).
  - unfold train_clock. destruct (_ || _); destruct o; cbn; (split; [reflexivity|]).
    + eexists. split; [reflexivity | destruct m_read_trace0; reflexivity].
    + exists []. split; [symmetry; apply app_nil_r | reflexivity].
  - destruct (read_trace_init_frame dev r circ_buf o) as (F1 & _ & _ & _ & _ & _ & _ & _ & evs & F2 & F3).
    cbv zeta in *. split; [exact F1|]. exists evs. split; [exact F2|].
    apply forallb_reader_allows_other. clear F2.
    induction evs as [|e evs IH]; [reflexivity|]. cbn in *.
    apply andb_true_iff in F3. destruct F3 as [He F3]. rewrite (IH F3).
    destruct e; try discriminate; reflexivity.
  - destruct (call_m_read_trace_frame win32 dev force c o) as (F1 & (evs & F2 & F3 & _) & _).
    cbv zeta in *. split; [apply F1|]. exists evs. auto.
  - destruct (read_trace_end_log dev o) as (F1 & evs & F2 & F3).
    split; [exact F1|]. exists (endProcessTraceData [] :: evs). split; [exact F2|].
    apply forallb_reader_allows_other. cbn. clear F2.
    induction evs as [|e evs IH]; [reflexivity|]. cbn in *.
    apply andb_true_iff in F3. destruct F3 as [He F3]. rewrite (IH F3).
    destruct e; try discriminate; reflexivity.
Qed.

Lemma do_op_window_fifo win32 dev op o o' :
  do_op win32 dev op o = Some o' ->
  m_read_trace o = reader_fifo ->
  trbuf_offload_done o = false ->
  window_frame o o'.
Proof.
  intros H Rd Hd. destruct op as [type| | |now|r circ_buf|force c|]; cbn [do_op] in H;
    try (injection H as <-).
  - destruct (start_offload_some type o o' H) as [[_ ->]|(_ & _ & ->)];
      unfold window_frame; destruct o; cbn; auto.
  - unfold stop_offload, window_frame. destruct o as [st]; destruct st; cbn; auto.
  - unfold offload_finished, window_frame. destruct o as [st]; destruct st; cbn; auto.
  - unfold train_clock, window_frame. destruct (_ || _); destruct o; cbn; auto.
  - destruct (read_trace_init_frame dev r circ_buf o)
      as (_ & _ & F3 & F4 & F5 & F6 & _ & F8 & _).
    unfold window_frame. cbv zeta in *. rewrite Hd. auto.
  - unfold call_m_read_trace. rewrite Rd. apply read_trace_fifo_frame.
  - unfold read_trace_end, reset_s2mm, window_frame. destruct o; cbn.
    repeat match goal with
           | |- context [if ?b then _ else _] => destruct b; cbn
           end; auto.
Qed.

(** X2.  The reader is bound once, by the constructor: whatever calls
    follow (and return), an object built on a device with a FIFO only ever
    reads through [readTrace] (no sync, no parse, no overwrite warning or
    marker) and its stream window, rollover count, saved word count and
    done latch never move, even when the device also has a stream transport
    and [read_trace_init] sets its buffer up; an object built on a device
    without a FIFO never calls [readTrace]. *)
Theorem X2_reader_binding :
  forall (win32 : bool) (dev : DeviceIntf) (sleep_interval trbuf_sz min_rate now : Z)
         (ops : list lifecycle_op) (o : DeviceTraceOffload),
    run_ops win32 dev ops
      (DeviceTraceOffload_ctor dev sleep_interval trbuf_sz min_rate now) = Some o ->
    let rd := if hasFIFO dev then reader_fifo else reader_s2mm in
    m_read_trace o = rd /\
    forallb (reader_allows rd) (log o) = true /\
    (hasFIFO dev = true ->
     m_trbuf_sz o = 0 /\ m_trbuf_offset o = 0 /\ m_rollover_count o = 0 /\
     m_wordcount_old o = 0 /\ trbuf_offload_done o = false).
Proof.
  intros win32 dev sleep_interval trbuf_sz min_rate now ops o Hrun rd.
  assert (L : forall ops o0 o1,
             run_ops win32 dev ops o0 = Some o1 ->
             m_read_trace o1 = m_read_trace o0 /\
             (forallb (reader_allows (m_read_trace o0)) (log o0) = true ->
              forallb (reader_allows (m_read_trace o0)) (log o1) = true) /\
             (m_read_trace o0 = reader_fifo -> trbuf_offload_done o0 = false ->
              window_frame o0 o1)).
  { clear. induction ops as [|op ops IH]; intros o0 o1 H.
    - cbn in H. injection H as <-. unfold window_frame. auto 10.
    - destruct (run_ops_cons _ _ _ _ _ _ H) as (o2 & H1 & H2).
      destruct (do_op_reader win32 dev op o0 o2 H1) as (R1 & evs & R2 & R3).
      destruct (IH o2 o1 H2) as (I1 & I2 & I3).
      rewrite R1 in *. split; [exact I1|]. split.
      + intros H0. apply I2. rewrite R2, forallb_app, H0, R3. reflexivity.
      + intros Rd Hd. pose proof (do_op_window_fifo win32 dev op o0 o2 H1 Rd Hd) as W.
        assert (W2 : window_frame o2 o1).
        { apply I3; [exact Rd|]. unfold window_frame in W. intuition congruence. }
        unfold window_frame in *. intuition congruence. }
  destruct (L ops (DeviceTraceOffload_ctor dev sleep_interval trbuf_sz min_rate now) o Hrun)
    as (L1 & L2 & L3).
  cbn [m_read_trace DeviceTraceOffload_ctor log] in L1, L2, L3.
  fold rd in L1, L2, L3.
  split; [exact L1|]. split; [apply L2; reflexivity|].
  intros F. subst rd. rewrite F in L3. specialize (L3 eq_refl eq_refl).
  unfold window_frame in L3. cbn in L3. tauto.
Qed.

(** X2 at work: a device with both transports; the object reads through
    the FIFO although [read_trace_init] sets the stream buffer up. *)
Lemma X2_reader_binding_witness :
  let dev := {| hasFIFO := true; hasTs2mm := true; supportsCircBuf := true; fifo_size := 8192 |} in
  let c := {| dev_wordcount := 64; dev_host_buf := Some [9]; dev_fifo := [[1; 2]] |} in
  exists o,
    run_ops false dev [op_start TRACE; op_init demo_init true; op_read true c]
      (DeviceTraceOffload_ctor dev 100 1048576 104857600 0) = Some o /\
    m_read_trace o = reader_fifo /\
    m_trbuf o = 1 /\
    m_wordcount_old o = 0.
Proof.
  cbv zeta. eexists. split; [reflexivity|].
  destruct (X2_reader_binding false
              {| hasFIFO := true; hasTs2mm := true; supportsCircBuf := true; fifo_size := 8192 |}
              100 1048576 104857600 0
              [op_start TRACE; op_init demo_init true;
               op_read true {| dev_wordcount := 64; dev_host_buf := Some [9];
                               dev_fifo := [[1; 2]] |}]
              _ eq_refl) as (H1 & _ & H3).
  split; [exact H1|]. split; [reflexivity|]. apply (H3 eq_refl).
Defined.

(** ** The worker loops *)

Lemma offload_loop_cons win32 dev t ticks o :
  offload_loop win32 dev (t :: ticks) o =
  if should_continue o then offload_loop win32 dev ticks (loop_iteration win32 dev t o)
  else Some o.
Proof. reflexivity. Qed.

Lemma should_continue_iff o : should_continue o = true <-> status o = RUNNING.
Proof. unfold should_continue. destruct (status o); cbn; split; congruence. Qed.

Lemma stop_offload_not_running o : status (stop_offload o) <> RUNNING.
Proof. unfold stop_offload. destruct o as [st]; destruct st; cbn; discriminate. Qed.

(** The loop ends once a stop has been requested. *)
Lemma offload_loop_terminates win32 dev ticks :
  forall o, Exists (fun t => tick_stop t = true) ticks ->
       exists o', offload_loop win32 dev ticks o = Some o'.
Proof.
  induction ticks as [|t ticks IH]; intros o H; [inversion H|].
  rewrite offload_loop_cons. destruct (should_continue o); [|eauto].
  inversion H as [x l Ht|x l Hl]; subst.
  - exists (loop_iteration win32 dev t o). apply offload_loop_exit.
    unfold loop_iteration. rewrite Ht. apply stop_offload_not_running.
  - apply IH, Hl.
Qed.

(** Whatever each iteration keeps, the loop keeps; and the loop is left
    with a status other than RUNNING. *)
Lemma offload_loop_invariant win32 dev (P : DeviceTraceOffload -> Prop) :
  (forall t o, P o -> P (loop_iteration win32 dev t o)) ->
  forall ticks o o', P o -> offload_loop win32 dev ticks o = Some o' ->
                P o' /\ status o' <> RUNNING.
Proof.
  intros Hstep. induction ticks as [|t ticks IH]; intros o o' HP H.
  - cbn in H. destruct (should_continue o) eqn:E; [discriminate|].
    injection H as <-. split; [exact HP|]. intros C. apply should_continue_iff in C. congruence.
  - rewrite offload_loop_cons in H. destruct (should_continue o) eqn:E.
    + apply (IH _ _ (Hstep t o HP) H).
    + injection H as <-. split; [exact HP|]. intros C. apply should_continue_iff in C.
      congruence.
Qed.

Lemma sink_finalised_app l l' :
  sink_finalised (l ++ l') = (sink_finalised l + sink_finalised l')%nat.
Proof. unfold sink_finalised. rewrite filter_app, length_app. reflexivity. Qed.

Lemma call_m_read_trace_sink win32 dev force c o :
  sink_finalised (log (call_m_read_trace win32 dev force c o)) = sink_finalised (log o).
Proof.
  assert (Z0 : forall evs, forallb (fun e => fifo_reader_event e || s2mm_reader_event e) evs = true ->
                      sink_finalised evs = 0%nat).
  { induction evs as [|e evs IH]; [reflexivity|]. cbn [forallb]. intros H.
    apply andb_true_iff in H. destruct H as [He H].
    change (e :: evs) with ([e] ++ evs). rewrite sink_finalised_app, (IH H).
    destruct e; try discriminate; reflexivity. }
  unfold call_m_read_trace. destruct (m_read_trace o).
  - destruct (read_trace_fifo_frame win32 dev c o) as (_ & _ & _ & evs & F4 & F5).
    cbv zeta in *. rewrite F4, sink_finalised_app, (Z0 evs); [rewrite Nat.add_0_r; reflexivity|].
    clear F4. induction evs as [|e evs IH]; [reflexivity|]. cbn in *.
    apply andb_true_iff in F5. destruct F5 as [He F5]. rewrite He, (IH F5). reflexivity.
  - destruct (read_trace_s2mm_frame force c o) as (_ & (evs & F4 & F5) & _).
    rewrite F4, sink_finalised_app, (Z0 evs); [rewrite Nat.add_0_r; reflexivity|].
    clear F4. induction evs as [|e evs IH]; [reflexivity|]. cbn in *.
    apply andb_true_iff in F5. destruct F5 as [He F5]. rewrite He, (IH F5).
    rewrite orb_true_r. reflexivity.
Qed.

Lemma loop_iteration_sink win32 dev t o :
  sink_finalised (log (loop_iteration win32 dev t o)) = sink_finalised (log o) /\
  m_initialized (loop_iteration win32 dev t o) = m_initialized o.
Proof.
  unfold loop_iteration. cbv zeta.
  set (o1 := train_clock (tick_now t) o).
  set (o2 := call_m_read_trace win32 dev false (tick_cycle t) o1).
  assert (E1 : sink_finalised (log o1) = sink_finalised (log o) /\
               m_initialized o1 = m_initialized o).
  { subst o1. unfold train_clock. destruct (_ || _); destruct o; cbn -[sink_finalised]; auto.
    rewrite sink_finalised_app. cbn. rewrite Nat.add_0_r. auto. }
  assert (E2 : sink_finalised (log o2) = sink_finalised (log o1) /\
               m_initialized o2 = m_initialized o1).
  { subst o2. split; [apply call_m_read_trace_sink|].
    destruct (call_m_read_trace_frame win32 dev false (tick_cycle t) o1) as (F & _).
    apply F. }
  destruct E1 as [A1 A2], E2 as [B1 B2]. rewrite <- A1, <- A2, <- B1, <- B2.
  destruct (tick_stop t); [|auto].
  unfold stop_offload. destruct o2 as [st]; destruct st; cbn -[sink_finalised]; auto.
Qed.

(** X3.  Once the controller has requested a stop in some iteration, the
    trace worker of an initialised session returns: it leaves the loop
    with a status other than RUNNING, makes the final forced read on what
    the device then holds, tears down and records STOPPED.  The calls of
    the final read follow those of the loop in the log and come before the
    finalisation of the sink, which happens exactly once; on a stream
    device the worker has released the buffer and cleared the initialised
    flag (on a FIFO-only device the flag stays set). *)
Theorem X3_worker_stops :
  forall (win32 : bool) (dev : DeviceIntf) (r : init_response) (ticks : list tick)
         (final : cycle) (o : DeviceTraceOffload),
    m_initialized o = true ->
    Exists (fun t => tick_stop t = true) ticks ->
    exists o1 o',
      offload_loop win32 dev ticks o = Some o1 /\
      status o1 <> RUNNING /\
      offload_device_continuous win32 dev r ticks final o = Some o' /\
      o' = offload_finished (read_trace_end dev (call_m_read_trace win32 dev true final o1)) /\
      (exists evs evs',
         log (call_m_read_trace win32 dev true final o1) = log o1 ++ evs /\
         log o' = log o1 ++ evs ++ endProcessTraceData [] :: evs' /\
         sink_finalised evs = 0%nat /\ sink_finalised evs' = 0%nat) /\
      status o' = STOPPED /\
      sink_finalised (log o') = S (sink_finalised (log o)) /\
      (hasTs2mm dev = true -> m_trbuf o' = 0 /\ m_initialized o' = false) /\
      (hasTs2mm dev = false -> m_initialized o' = true).
Proof.
  intros win32 dev r ticks final o Hinit Hstop.
  destruct (offload_loop_terminates win32 dev ticks o Hstop) as [o1 L].
  destruct (offload_loop_invariant win32 dev
              (fun x => sink_finalised (log x) = sink_finalised (log o) /\
                        m_initialized x = true)
              (fun t x H => conj (eq_trans (proj1 (loop_iteration_sink win32 dev t x)) (proj1 H))
                                 (eq_trans (proj2 (loop_iteration_sink win32 dev t x)) (proj2 H)))
              ticks o o1 (conj eq_refl Hinit) L) as [[P1 P2] P3].
  set (o2 := call_m_read_trace win32 dev true final o1).
  assert (Q1 : sink_finalised (log o2) = sink_finalised (log o))
    by (subst o2; rewrite call_m_read_trace_sink; exact P1).
  assert (Q2 : m_initialized o2 = true).
  { subst o2. destruct (call_m_read_trace_frame win32 dev true final o1) as (F & _).
    unfold reader_frame in F. cbv zeta in F. intuition congruence. }
  destruct (call_m_read_trace_frame win32 dev true final o1) as (_ & (evs & Q3 & _) & _).
  fold o2 in Q3.
  exists o1, (offload_finished (read_trace_end dev o2)).
  destruct (offload_finished_frame (read_trace_end dev o2)) as [D1 D2].
  destruct (read_trace_end_log dev o2) as (_ & evs' & E1 & E2).
  assert (Z0 : sink_finalised evs' = 0%nat).
  { clear E1. induction evs' as [|e evs' IH]; [reflexivity|]. cbn in E2.
    apply andb_true_iff in E2. destruct E2 as [He E2].
    change (e :: evs') with ([e] ++ evs'). rewrite sink_finalised_app, (IH E2).
    destruct e; try discriminate; reflexivity. }
  assert (Z1 : sink_finalised evs = 0%nat).
  { rewrite Q3, sink_finalised_app, P1 in Q1. lia. }
  split; [exact L|]. split; [exact P3|].
  split.
  { unfold offload_device_continuous. rewrite Hinit. cbn [negb]. rewrite L. reflexivity. }
  split; [reflexivity|].
  split.
  { exists evs, evs'. split; [exact Q3|]. split; [|split; assumption].
    rewrite D2, E1, Q3, <- app_assoc. reflexivity. }
  split; [exact D1|].
  split.
  { rewrite D2, E1, sink_finalised_app, Q1.
    change (endProcessTraceData [] :: evs') with ([endProcessTraceData []] ++ evs').
    rewrite sink_finalised_app, Z0. cbn. lia. }
  assert (M : m_trbuf (offload_finished (read_trace_end dev o2)) = m_trbuf (read_trace_end dev o2) /\
              m_initialized (offload_finished (read_trace_end dev o2))
              = m_initialized (read_trace_end dev o2)).
  { unfold offload_finished. destruct (read_trace_end dev o2) as [st]; destruct st; cbn; auto. }
  destruct M as [M1 M2]. rewrite M1, M2. unfold read_trace_end.
  split; intros T; rewrite T.
  - destruct (reset_s2mm_ledger
                (emit (endProcessTraceData (m_trace_vector (set_m_trace_vector [] o2)))
                   (set_m_trace_vector [] o2))) as (R1 & _).
    destruct (reset_s2mm _); cbn in *. auto.
  - destruct o2; cbn in *. exact Q2.
Qed.

(** X3 at work: a stream session whose controller asks for a stop during
    the second iteration; the 16 bytes the device reports after that are
    synced by the final forced read, although they are fewer than the
    minimum read size, and delivered before the sink is finalised. *)
Lemma X3_worker_stops_witness :
  exists o',
    offload_device_continuous false demo_dev demo_init
      [ {| tick_now := 1000000; tick_cycle := demo_cycle 64 (Some [1]); tick_stop := false |};
        {| tick_now := 101000000; tick_cycle := demo_cycle 128 (Some [2]); tick_stop := true |};
        {| tick_now := 201000000; tick_cycle := demo_cycle 192 (Some [3]); tick_stop := false |} ]
      (demo_cycle 130 (Some [4])) (demo_session 100 1048576) = Some o' /\
    status o' = STOPPED /\ m_trbuf o' = 0 /\
    exists evs',
      log o' =
        log (demo_session 100 1048576)
        ++ [clockTraining true; syncTraceBuf 1 0 512; parseTraceData 512; processTraceData [1];
            syncTraceBuf 1 512 512; parseTraceData 512; processTraceData [2]]
        ++ [syncTraceBuf 1 1024 16; parseTraceData 16; processTraceData [4]]
        ++ endProcessTraceData [] :: evs'.
Proof.
  destruct (X3_worker_stops false demo_dev demo_init
              [ {| tick_now := 1000000; tick_cycle := demo_cycle 64 (Some [1]);
                   tick_stop := false |};
                {| tick_now := 101000000; tick_cycle := demo_cycle 128 (Some [2]);
                   tick_stop := true |};
                {| tick_now := 201000000; tick_cycle := demo_cycle 192 (Some [3]);
                   tick_stop := false |} ]
              (demo_cycle 130 (Some [4])) (demo_session 100 1048576))
    as (o1 & o' & H0 & _ & H1 & _ & (evs & evs' & H2 & H3 & _) & H4 & _ & H5 & _).
  - reflexivity.
  - apply Exists_cons_tl, Exists_cons_hd. reflexivity.
  - exists o'. split; [exact H1|]. split; [exact H4|]. split; [apply H5; reflexivity|].
    exists evs'. rewrite H3. clear H1 H3 H4 H5.
    vm_compute in H0. injection H0 as <-.
    vm_compute in H2. injection H2 as <-.
    reflexivity.
Defined.

Lemma loop_iteration_fifo win32 dev t o :
  m_read_trace o = reader_fifo ->
  let o' := loop_iteration win32 dev t o in
  m_read_trace o' = reader_fifo /\
  m_initialized o' = m_initialized o /\
  (tick_stop t = false -> status o' = status o) /\
  (m_trbuf_full o = true ->
   m_trbuf_full o' = true /\
   forall e, In e (log o') -> fifo_reader_event e = true -> In e (log o)).
Proof.
  intros Rd. unfold loop_iteration. cbv zeta.
  set (o1 := train_clock (tick_now t) o).
  assert (T : m_read_trace o1 = reader_fifo /\ m_initialized o1 = m_initialized o /\
              status o1 = status o /\ m_trbuf_full o1 = m_trbuf_full o /\
              forall e, In e (log o1) -> fifo_reader_event e = true -> In e (log o)).
  { subst o1. unfold train_clock. destruct (_ || _); destruct o; cbn in *; repeat split; auto.
    intros e H He. apply in_app_or in H. destruct H as [H|[<-|[]]]; [exact H|discriminate]. }
  destruct T as (T1 & T2 & T3 & T4 & T5).
  set (o2 := call_m_read_trace win32 dev false (tick_cycle t) o1).
  assert (R : m_read_trace o2 = reader_fifo /\ m_initialized o2 = m_initialized o1 /\
              status o2 = status o1 /\ (m_trbuf_full o1 = true -> o2 = o1)).
  { subst o2. unfold call_m_read_trace. rewrite T1.
    destruct (read_trace_fifo_frame win32 dev (tick_cycle t) o1) as (F1 & _ & F3 & _).
    cbv zeta in *. unfold reader_frame in F1.
    repeat split; try (intuition congruence).
    intros Hf. apply read_trace_fifo_full, Hf. }
  destruct R as (R1 & R2 & R3 & R4).
  assert (S : forall x, m_read_trace (stop_offload x) = m_read_trace x /\
                   m_initialized (stop_offload x) = m_initialized x /\
                   m_trbuf_full (stop_offload x) = m_trbuf_full x /\
                   log (stop_offload x) = log x).
  { intros x. unfold stop_offload. destruct x as [st]; destruct st; cbn; auto. }
  destruct (S o2) as (S1 & S2 & S3 & S4).
  split; [destruct (tick_stop t); congruence|].
  split; [destruct (tick_stop t); congruence|].
  split; [intros ->; congruence|].
  intros Hf. rewrite <- T4 in Hf. rewrite (R4 Hf) in *.
  split; [destruct (tick_stop t); congruence|].
  intros e H He. apply T5; [|exact He]. destruct (tick_stop t); [rewrite S4 in H|]; exact H.
Qed.

(** X4.  The FIFO reader never asks for a stop: while the controller does
    not request one, the trace worker of a FIFO session is still in its
    loop after any number of iterations, full latch or not. *)
Theorem X4_fifo_worker_needs_stop :
  forall (win32 : bool) (dev : DeviceIntf) (r : init_response) (ticks : list tick)
         (final : cycle) (o : DeviceTraceOffload),
    m_read_trace o = reader_fifo ->
    m_initialized o = true ->
    status o = RUNNING ->
    Forall (fun t => tick_stop t = false) ticks ->
    offload_loop win32 dev ticks o = None /\
    offload_device_continuous win32 dev r ticks final o = None.
Proof.
  intros win32 dev r ticks final o Rd Hinit Hst Hno.
  assert (L : offload_loop win32 dev ticks o = None).
  { clear Hinit. revert o Rd Hst. induction Hno as [|t ticks Ht Hno IH]; intros o Rd Hst.
    - cbn. unfold should_continue. rewrite Hst. reflexivity.
    - rewrite offload_loop_cons. unfold should_continue. rewrite Hst. cbn [status_eqb].
      destruct (loop_iteration_fifo win32 dev t o Rd) as (I1 & _ & I3 & _).
      apply IH; [exact I1|]. cbv zeta in I3. rewrite (I3 Ht). exact Hst. }
  split; [exact L|].
  unfold offload_device_continuous. rewrite Hinit. cbn [negb]. rewrite L. reflexivity.
Qed.

(** X4 at work: a FIFO of capacity 3 overflows in the first iteration; the
    worker is still looping three iterations later. *)
Lemma X4_fifo_worker_needs_stop_witness :
  let dev := {| hasFIFO := true; hasTs2mm := false; supportsCircBuf := false; fifo_size := 3 |} in
  let o := snd (read_trace_init dev demo_init true
                  (started TRACE (DeviceTraceOffload_ctor dev 100 0 104857600 0))) in
  let t := {| tick_now := 1000000;
              tick_cycle := {| dev_wordcount := 0; dev_host_buf := None;
                               dev_fifo := [[1; 2]; [3; 4]] |};
              tick_stop := false |} in
  m_trbuf_full (loop_iteration false dev t o) = true /\
  offload_loop false dev [t; t; t; t] o = None.
Proof.
  cbv zeta. split; [reflexivity|].
  refine (proj1 (X4_fifo_worker_needs_stop false
                   {| hasFIFO := true; hasTs2mm := false; supportsCircBuf := false;
                      fifo_size := 3 |}
                   demo_init _ (demo_cycle 0 None) _ _ _ _ _)).
  - reflexivity.
  - reflexivity.
  - reflexivity.
  - repeat constructor.
Defined.

(** X5.  The FIFO full latch outlives the worker: only [read_trace_init]
    clears it, the worker skips [read_trace_init] on an object that is
    already initialised, and on a device without a stream transport
    [read_trace_end] leaves the object initialised.  So a trace worker that
    finds the object initialised with the latch set reads and delivers
    nothing, whatever the device holds, and returns (once a stop is
    requested) with the latch still set and the object still
    initialised. *)
Theorem X5_fifo_latch_survives_worker :
  forall (win32 : bool) (dev : DeviceIntf) (r : init_response) (ticks : list tick)
         (final : cycle) (o : DeviceTraceOffload),
    hasTs2mm dev = false ->
    m_read_trace o = reader_fifo ->
    m_initialized o = true ->
    m_trbuf_full o = true ->
    Exists (fun t => tick_stop t = true) ticks ->
    exists o',
      offload_device_continuous win32 dev r ticks final o = Some o' /\
      m_read_trace o' = reader_fifo /\
      m_initialized o' = true /\
      m_trbuf_full o' = true /\
      forall e, In e (log o') -> fifo_reader_event e = true -> In e (log o).
Proof.
  intros win32 dev r ticks final o T Rd Hinit Hf Hstop.
  destruct (offload_loop_terminates win32 dev ticks o Hstop) as [o1 L].
  destruct (offload_loop_invariant win32 dev
              (fun x => m_read_trace x = reader_fifo /\ m_initialized x = true /\
                        m_trbuf_full x = true /\
                        forall e, In e (log x) -> fifo_reader_event e = true -> In e (log o)))
    with (ticks := ticks) (o := o) (o' := o1) as [(P1 & P2 & P3 & P4) _].
  - intros t x (A1 & A2 & A3 & A4).
    destruct (loop_iteration_fifo win32 dev t x A1) as (I1 & I2 & _ & I4).
    cbv zeta in *. destruct (I4 A3) as [I5 I6].
    repeat split; try congruence. intros e H He. apply A4; [apply I6|]; assumption.
  - repeat split; auto.
  - exact L.
  - exists (offload_finished (read_trace_end dev (call_m_read_trace win32 dev true final o1))).
    split.
    { unfold offload_device_continuous. rewrite Hinit. cbn [negb]. rewrite L. reflexivity. }
    unfold call_m_read_trace. rewrite P1, read_trace_fifo_full by exact P3.
    unfold read_trace_end. rewrite T. unfold offload_finished.
    destruct o1 as [st]; destruct st; cbn in *; repeat split; auto;
      intros e H He; apply in_app_or in H; destruct H as [H|[<-|[]]];
      try discriminate; apply P4; assumption.
Qed.

(** X5 at work: the owner initialises the object and reads once, which
    overflows a FIFO of capacity 3 and sets the latch; the worker is then
    started, for the first time, and stopped in its first iteration: it
    has read nothing of what the device offered. *)
Lemma X5_fifo_latch_survives_worker_witness :
  let dev := {| hasFIFO := true; hasTs2mm := false; supportsCircBuf := false; fifo_size := 3 |} in
  let c := {| dev_wordcount := 0; dev_host_buf := None; dev_fifo := [[1; 2]; [3; 4]] |} in
  let c' := {| dev_wordcount := 0; dev_host_buf := None; dev_fifo := [[5; 6]] |} in
  let o := started TRACE
             (read_trace_fifo false dev c
                (snd (read_trace_init dev demo_init true
                        (DeviceTraceOffload_ctor dev 100 0 104857600 0)))) in
  status o = RUNNING /\
  exists o',
    offload_device_continuous false dev demo_init
      [ {| tick_now := 1000000; tick_cycle := c'; tick_stop := true |} ] c' o = Some o' /\
    m_trbuf_full o' = true /\
    ~ In (processTraceData [5; 6]) (log o').
Proof.
  cbv zeta. split; [reflexivity|].
  destruct (X5_fifo_latch_survives_worker false
              {| hasFIFO := true; hasTs2mm := false; supportsCircBuf := false; fifo_size := 3 |}
              demo_init
              [ {| tick_now := 1000000;
                   tick_cycle := {| dev_wordcount := 0; dev_host_buf := None;
                                    dev_fifo := [[5; 6]] |};
                   tick_stop := true |} ]
              {| dev_wordcount := 0; dev_host_buf := None; dev_fifo := [[5; 6]] |}
              (started TRACE
                 (read_trace_fifo false
                    {| hasFIFO := true; hasTs2mm := false; supportsCircBuf := false;
                       fifo_size := 3 |}
                    {| dev_wordcount := 0; dev_host_buf := None; dev_fifo := [[1; 2]; [3; 4]] |}
                    (snd (read_trace_init
                            {| hasFIFO := true; hasTs2mm := false; supportsCircBuf := false;
                               fifo_size := 3 |}
                            demo_init true
                            (DeviceTraceOffload_ctor
                               {| hasFIFO := true; hasTs2mm := false; supportsCircBuf := false;
                                  fifo_size := 3 |} 100 0 104857600 0))))))
    as (o' & H1 & _ & _ & H4 & H5).
  - reflexivity.
  - reflexivity.
  - reflexivity.
  - reflexivity.
  - apply Exists_cons_hd. reflexivity.
  - exists o'. split; [exact H1|]. split; [exact H4|].
    intros Hin. specialize (H5 _ Hin eq_refl). cbn in H5.
    repeat (destruct H5 as [H5|H5]; [discriminate H5|]). exact H5.
Defined.

Lemma train_clock_loop_exit ticks o :
  status o <> RUNNING -> train_clock_loop ticks o = Some o.
Proof.
  intros H. destruct ticks; cbn; unfold should_continue;
    destruct (status o); try reflexivity; congruence.
Qed.

Lemma train_clock_status now o : status (train_clock now o) = status o.
Proof. apply train_clock_frame. Qed.

(** X6.  The clock-only worker trains at every iteration up to and
    including the one in which the controller requests the stop, and at
    none after it; then it records STOPPED.  The object it returns is the
    one [train_clock] produces over those clock readings, stopped and
    finished: it calls nothing but [clockTraining].  While no stop is
    requested it is still in its loop. *)
Theorem X6_clock_only_worker :
  forall (pre : list tick) (t : tick) (post : list tick) (o : DeviceTraceOffload),
    status o = RUNNING ->
    Forall (fun t' => tick_stop t' = false) pre ->
    tick_stop t = true ->
    train_clock_continuous (pre ++ t :: post) o =
      Some (offload_finished
              (stop_offload (train_clock_run (map tick_now (pre ++ [t])) o))) /\
    status (offload_finished
              (stop_offload (train_clock_run (map tick_now (pre ++ [t])) o))) = STOPPED /\
    train_clock_continuous pre o = None.
Proof.
  intros pre t post o Hst Hpre Ht.
  assert (L : train_clock_loop (pre ++ t :: post) o =
              Some (stop_offload (train_clock_run (map tick_now (pre ++ [t])) o)) /\
              train_clock_loop pre o = None).
  { revert o Hst. induction Hpre as [|p pre Hp Hpre IH]; intros o Hst.
    - cbn [app train_clock_loop map train_clock_run fold_left].
      unfold should_continue. rewrite Hst, Ht. cbn [status_eqb].
      split; [|reflexivity]. apply train_clock_loop_exit, stop_offload_not_running.
    - cbn [app train_clock_loop map]. unfold should_continue. rewrite Hst, Hp. cbn [status_eqb].
      apply IH. rewrite train_clock_status. exact Hst. }
  destruct L as [L1 L2]. unfold train_clock_continuous. rewrite L1, L2.
  split; [reflexivity|]. split; [apply offload_finished_frame|reflexivity].
Qed.

(** X6 at work: stop requested in the third iteration; trainings at the
    first tick (forced) and 600 ms later. *)
Lemma X6_clock_only_worker_witness :
  let tk now stop := {| tick_now := now; tick_cycle := demo_cycle 0 None; tick_stop := stop |} in
  let o := started CLOCK_TRAIN (DeviceTraceOffload_ctor demo_dev 100 0 104857600 0) in
  exists o',
    train_clock_continuous
      [tk 100000000 false; tk 200000000 false; tk 700000000 true; tk 1300000000 false] o
    = Some o' /\
    log o' = [thread_spawn CLOCK_TRAIN; clockTraining true; clockTraining false].
Proof.
  cbv zeta.
  eexists. split.
  - refine (proj1 (X6_clock_only_worker
                     [ {| tick_now := 100000000; tick_cycle := demo_cycle 0 None;
                          tick_stop := false |};
                       {| tick_now := 200000000; tick_cycle := demo_cycle 0 None;
                          tick_stop := false |} ]
                     {| tick_now := 700000000; tick_cycle := demo_cycle 0 None;
                        tick_stop := true |}
                     [ {| tick_now := 1300000000; tick_cycle := demo_cycle 0 None;
                          tick_stop := false |} ]
                     (started CLOCK_TRAIN
                        (DeviceTraceOffload_ctor demo_dev 100 0 104857600 0)) _ _ _)).
    + reflexivity.
    + repeat constructor.
    + reflexivity.
  - reflexivity.
Defined.

(** ** Bytes synced by the stream reader *)

Lemma synced_bytes_app l l' : synced_bytes (l ++ l') = synced_bytes l + synced_bytes l'.
Proof.
  induction l as [|e l IH]; [reflexivity|].
  destruct e; cbn; rewrite IH; lia.
Qed.

(** A stream cycle either syncs nothing and leaves the window end and the
    rollover count alone, or syncs the new window, which starts at the old
    window end or, after a wrap, at zero. *)
Lemma read_trace_s2mm_synced force c o :
  let o' := read_trace_s2mm force c o in
  (synced_bytes (log o') = synced_bytes (log o) /\
   m_trbuf_sz o' = m_trbuf_sz o /\ m_rollover_count o' = m_rollover_count o) \/
  (synced_bytes (log o') = synced_bytes (log o) + u64 (m_trbuf_sz o' - m_trbuf_offset o') /\
   ((m_trbuf_offset o' = m_trbuf_sz o /\ m_rollover_count o' = m_rollover_count o) \/
    (m_trbuf_sz o = m_trbuf_alloc_sz o /\ m_use_circ_buf o = true /\
     m_trbuf_offset o' = 0 /\ m_rollover_count o' = u32 (m_rollover_count o + 1)))).
Proof.
  cbv zeta.
  destruct (negb force && (u64 (u64 (dev_wordcount c - m_wordcount_old o) * TRACE_PACKET_SIZE)
                           <? TS2MM_MIN_READ_SIZE)) eqn:G.
  { unfold read_trace_s2mm. rewrite G. left. auto. }
  assert (Hacc : cycle_accepted force c o).
  { apply andb_false_iff in G. destruct G as [G|G].
    - left. destruct force; [reflexivity|discriminate].
    - right. apply Z.ltb_ge, G. }
  rewrite read_trace_s2mm_accepted by exact Hacc. cbv zeta.
  destruct (config_s2mm_reader (dev_wordcount c) (set_m_wordcount_old (dev_wordcount c) o))
    as [ok o2] eqn:Ec.
  destruct ok; cbn [negb].
  - destruct (config_s2mm_reader_proceeds _ _ _ Ec)
      as (_ & _ & _ & _ & P5 & _ & _ & _ & _ & P10 & _).
    replace (m_trbuf_sz (set_m_wordcount_old (dev_wordcount c) o)) with (m_trbuf_sz o)
      in P10 by (destruct o; reflexivity).
    replace (m_trbuf_alloc_sz (set_m_wordcount_old (dev_wordcount c) o))
      with (m_trbuf_alloc_sz o) in P10 by (destruct o; reflexivity).
    replace (m_use_circ_buf (set_m_wordcount_old (dev_wordcount c) o))
      with (m_use_circ_buf o) in P10 by (destruct o; reflexivity).
    replace (m_rollover_count (set_m_wordcount_old (dev_wordcount c) o))
      with (m_rollover_count o) in P10 by (destruct o; reflexivity).
    replace (log (set_m_wordcount_old (dev_wordcount c) o)) with (log o)
      in P5 by (destruct o; reflexivity).
    right.
    assert (K : forall o3 evs,
               log o3 = (log o2 ++ [syncTraceBuf (m_trbuf o2) (m_trbuf_offset o2)
                                      (u64 (m_trbuf_sz o2 - m_trbuf_offset o2))]) ++ evs ->
               synced_bytes evs = 0 ->
               m_trbuf_sz o3 = m_trbuf_sz o2 -> m_trbuf_offset o3 = m_trbuf_offset o2 ->
               m_rollover_count o3 = m_rollover_count o2 ->
               synced_bytes (log o3) =
                 synced_bytes (log o) + u64 (m_trbuf_sz o3 - m_trbuf_offset o3) /\
               ((m_trbuf_offset o3 = m_trbuf_sz o /\ m_rollover_count o3 = m_rollover_count o) \/
                (m_trbuf_sz o = m_trbuf_alloc_sz o /\ m_use_circ_buf o = true /\
                 m_trbuf_offset o3 = 0 /\ m_rollover_count o3 = u32 (m_rollover_count o + 1)))).
    { intros o3 evs E1 E2 E3 E4 E5. rewrite E1, E3, E4, E5, !synced_bytes_app, E2, P5.
      cbn [synced_bytes]. split; [lia|]. tauto. }
    destruct (dev_host_buf c) as [packets|].
    + match goal with
      | |- context [if ?b then set_m_trbuf_full true ?x else ?x] => destruct b
      end;
        apply (K _ [parseTraceData (u64 (m_trbuf_sz o2 - m_trbuf_offset o2));
                    processTraceData packets]);
        try reflexivity; destruct o2; cbn; rewrite <- ?app_assoc; reflexivity.
    + apply (K _ []); try reflexivity; destruct o2; cbn; rewrite ?app_nil_r; reflexivity.
  - left. revert Ec. unfold config_s2mm_reader, stop_offload.
    destruct o as [st]; destruct st; cbn;
      repeat match goal with
             | |- context [if ?b then _ else _] => destruct b; cbn
             end;
      intros E; inversion E; subst; cbn; rewrite ?synced_bytes_app; cbn;
      repeat split; lia.
Qed.

Lemma read_trace_s2mm_conserves force c o :
  s2mm_inv o ->
  m_wordcount_old o <= dev_wordcount c ->
  wordcount_in_range (m_trbuf_alloc_sz o) (dev_wordcount c) ->
  let o' := read_trace_s2mm force c o in
  synced_bytes (log o') - synced_bytes (log o) =
    (m_rollover_count o' * m_trbuf_alloc_sz o + m_trbuf_sz o')
    - (m_rollover_count o * m_trbuf_alloc_sz o + m_trbuf_sz o) /\
  m_use_circ_buf o' = m_use_circ_buf o /\
  (m_use_circ_buf o = false -> m_rollover_count o' = m_rollover_count o).
Proof.
  intros Hinv Hmono Hrange o'.
  destruct (read_trace_s2mm_step force c o Hinv Hmono Hrange) as (S1 & S2 & S3 & S4).
  fold o' in S1, S2, S3, S4.
  destruct (read_trace_s2mm_frame force c o) as (F & _). fold o' in F.
  assert (C : m_use_circ_buf o' = m_use_circ_buf o) by apply F.
  pose proof (read_trace_s2mm_synced force c o) as D. cbv zeta in D. fold o' in D.
  unfold s2mm_inv, wordcount_in_range, TRACE_PACKET_SIZE in *.
  destruct Hinv as (A1 & A2 & A3 & A4), S1 as (B1 & B2 & B3 & B4), Hrange as (R1 & R2).
  rewrite S2 in *.
  split; [|split; [exact C|]].
  - destruct D as [(D1 & D2 & D3)|(D1 & D2)].
    + rewrite D1, D2, D3. lia.
    + rewrite D1. rewrite u64_small by nia.
      destruct D2 as [(D2 & D3)|(D2 & D3 & D4 & D5)].
      * rewrite D2, D3. lia.
      * rewrite u32_small in D5 by nia. rewrite D4, D5, D2. lia.
  - intros Hc. destruct D as [(_ & _ & D3)|(_ & [(_ & D3)|(_ & D3 & _)])];
      [exact D3|exact D3|congruence].
Qed.

(** X7.  With a device word counter that never decreases and stays in
    range, over any run of stream read cycles the bytes requested from
    [syncTraceBuf] add up to exactly the growth of the bytes read
    ([m_rollover_count * m_trbuf_alloc_sz + m_trbuf_sz]), and the bytes
    read never exceed the bytes the device had reported when the window
    was last moved; in single-pass mode the rollover count stays put and
    the run syncs at most what is left of the buffer. *)
Theorem X7_synced_bytes :
  forall (o : DeviceTraceOffload) (cs : list (bool * cycle)),
    s2mm_inv o ->
    counter_monotone (m_wordcount_old o) cs ->
    Forall (fun fc => wordcount_in_range (m_trbuf_alloc_sz o) (dev_wordcount (snd fc))) cs ->
    let o' := run_s2mm cs o in
    synced_bytes (log o') - synced_bytes (log o) =
      (m_rollover_count o' * m_trbuf_alloc_sz o + m_trbuf_sz o')
      - (m_rollover_count o * m_trbuf_alloc_sz o + m_trbuf_sz o) /\
    m_rollover_count o' * m_trbuf_alloc_sz o + m_trbuf_sz o'
      <= m_wordcount_old o' * TRACE_PACKET_SIZE /\
    (m_use_circ_buf o = false ->
     m_rollover_count o' = m_rollover_count o /\
     synced_bytes (log o') - synced_bytes (log o) <= m_trbuf_alloc_sz o - m_trbuf_sz o).
Proof.
  intros o cs Hinv Hmono Hrange o'.
  assert (L : forall cs o,
             s2mm_inv o -> counter_monotone (m_wordcount_old o) cs ->
             Forall (fun fc => wordcount_in_range (m_trbuf_alloc_sz o) (dev_wordcount (snd fc))) cs ->
             synced_bytes (log (run_s2mm cs o)) - synced_bytes (log o) =
               (m_rollover_count (run_s2mm cs o) * m_trbuf_alloc_sz o + m_trbuf_sz (run_s2mm cs o))
               - (m_rollover_count o * m_trbuf_alloc_sz o + m_trbuf_sz o) /\
             (m_use_circ_buf o = false ->
              m_rollover_count (run_s2mm cs o) = m_rollover_count o)).
  { clear. induction cs as [|[f c] cs IH]; intros o Hinv Hmono Hrange.
    - cbn. split; [lia|reflexivity].
    - rewrite run_s2mm_cons. cbn in Hmono. destruct Hmono as [Hle Hmono].
      inversion Hrange as [|x l Hc Hrange']; subst. cbn [snd] in Hc.
      destruct (read_trace_s2mm_step f c o Hinv Hle Hc) as (S1 & S2 & S3 & _).
      destruct (read_trace_s2mm_conserves f c o Hinv Hle Hc) as (C1 & C2 & C3).
      cbv zeta in *.
      destruct (IH (read_trace_s2mm f c o)) as (I1 & I2).
      + exact S1.
      + eapply counter_monotone_weaken; [exact S3|exact Hmono].
      + rewrite S2. exact Hrange'.
      + rewrite S2 in I1. split; [lia|].
        intros Hc0. rewrite I2 by congruence. apply C3, Hc0. }
  destruct (L cs o Hinv Hmono Hrange) as (L1 & L2). fold o' in L1, L2.
  assert (M : counter_monotone (m_wordcount_old o) (cs ++ [])) by (rewrite app_nil_r; exact Hmono).
  destruct (run_s2mm_inv cs [] o Hinv M Hrange) as (I1 & I2 & _). fold o' in I1, I2.
  unfold s2mm_inv in I1, Hinv. rewrite I2 in I1.
  split; [exact L1|]. split; [apply I1|].
  intros Hc. specialize (L2 Hc). split; [exact L2|]. rewrite L1, L2. lia.
Qed.

(** X7 at work: a circular session on a 1 MiB buffer reads 1048568 bytes,
    the 8 bytes to the end of the buffer, then wraps and reads 512. *)
Lemma X7_synced_bytes_witness :
  let o' := run_s2mm [(false, demo_cycle 131071 (Some [1]));
                      (false, demo_cycle 131135 (Some [2]));
                      (false, demo_cycle 131136 (Some [3]));
                      (true, demo_cycle 131136 (Some [4]))]
              (demo_session 10 1048576) in
  m_rollover_count o' = 1 /\ m_trbuf_sz o' = 512 /\
  synced_bytes (log o') - synced_bytes (log (demo_session 10 1048576)) = 1049088.
Proof.
  cbv zeta. split; [reflexivity|]. split; [reflexivity|].
  refine (eq_trans (proj1 (X7_synced_bytes (demo_session 10 1048576)
            [(false, demo_cycle 131071 (Some [1]));
             (false, demo_cycle 131135 (Some [2]));
             (false, demo_cycle 131136 (Some [3]));
             (true, demo_cycle 131136 (Some [4]))] _ _ _)) _).
  - unfold s2mm_inv. vm_compute. repeat split; intros H; discriminate H.
  - vm_compute. repeat split; intros H; discriminate H.
  - unfold wordcount_in_range. repeat constructor; vm_compute; reflexivity.
  - reflexivity.
Defined.

(** X8.  The window policy trusts the device word counter: when the
    counter reports fewer bytes than the window end already covers (as it
    can after a re-initialisation, which keeps the window), the next read
    cycle puts the window end before the window start, and asks
    [syncTraceBuf] for [2^64 - (start - end)] bytes, more than the whole
    allocation. *)
Theorem X8_counter_falls_back :
  forall (force : bool) (c : cycle) (o : DeviceTraceOffload),
    cycle_accepted force c o ->
    trbuf_offload_done o = false ->
    m_rollover_count o = 0 ->
    0 <= dev_wordcount c * TRACE_PACKET_SIZE < m_trbuf_sz o ->
    m_trbuf_sz o < m_trbuf_alloc_sz o ->
    m_trbuf_sz o + m_trbuf_alloc_sz o < 2 ^ 64 ->
    let o' := read_trace_s2mm force c o in
    let nBytes := 2 ^ 64 - (m_trbuf_sz o - dev_wordcount c * TRACE_PACKET_SIZE) in
    m_trbuf_offset o' = m_trbuf_sz o /\
    m_trbuf_sz o' = dev_wordcount c * TRACE_PACKET_SIZE /\
    m_trbuf_sz o' < m_trbuf_offset o' /\
    m_trbuf_alloc_sz o < nBytes /\
    exists evs, log o' = log o ++ syncTraceBuf (m_trbuf o) (m_trbuf_sz o) nBytes :: evs.
Proof.
  intros force c o Hacc Hdone Hroll Hwc Hsz Hfit.
  assert (Ec : config_s2mm_reader (dev_wordcount c) (set_m_wordcount_old (dev_wordcount c) o)
               = (true, set_m_trbuf_sz (dev_wordcount c * TRACE_PACKET_SIZE)
                          (set_m_trbuf_offset (m_trbuf_sz o)
                             (set_m_wordcount_old (dev_wordcount c) o)))).
  { unfold config_s2mm_reader, offload_cannot_keep_up, TRACE_PACKET_SIZE in *.
    destruct o; cbn in *. subst. cbn.
    repeat match goal with
           | |- context [u64 ?x] => rewrite (u64_small x) by lia
           end.
    rewrite Z.add_0_l.
    rewrite (proj2 (Z.ltb_ge _ _)) by lia.
    rewrite (proj2 (Z.eqb_neq _ _)) by lia.
    rewrite Z.sub_0_r.
    rewrite (proj2 (Z.ltb_ge _ _)) by lia. reflexivity. }
  intros o' nBytes.
  destruct (read_trace_s2mm_proceeds force c o _ Hacc Ec) as (Q1 & Q2 & _).
  fold o' in Q1, Q2.
  assert (E1 : m_trbuf_offset o' = m_trbuf_sz o) by (rewrite Q1; destruct o; reflexivity).
  assert (E2 : m_trbuf_sz o' = dev_wordcount c * TRACE_PACKET_SIZE)
    by (rewrite Q2; destruct o; reflexivity).
  split; [exact E1|]. split; [exact E2|]. split; [lia|]. split; [subst nBytes; lia|].
  assert (En : u64 (dev_wordcount c * TRACE_PACKET_SIZE - m_trbuf_sz o) = nBytes).
  { subst nBytes. unfold u64, TRACE_PACKET_SIZE in *.
    Z.to_euclidean_division_equations. lia. }
  clearbody nBytes. clear Hwc Hsz Hfit E1 E2.
  subst o'. rewrite read_trace_s2mm_accepted by exact Hacc. cbv zeta. rewrite Ec. cbn [negb].
  destruct (dev_host_buf c) as [packets|].
  - match goal with
    | |- context [if ?b then set_m_trbuf_full true ?x else ?x] => destruct b
    end; clear Ec Q1 Q2; destruct o; cbn in En |- *; rewrite En; eexists;
      rewrite <- !app_assoc; reflexivity.
  - clear Ec Q1 Q2. destruct o; cbn in En |- *. rewrite En. exists []. reflexivity.
Qed.

(** X8 at work: a session read 1024 bytes of a 1 MiB buffer and was torn
    down and initialised again; the restarted counter reports 512 bytes. *)
Lemma X8_counter_falls_back_witness :
  let o1 := read_trace_s2mm false (demo_cycle 128 (Some [1])) (demo_session 100 1048576) in
  let o2 := snd (read_trace_init demo_dev demo_init true (read_trace_end demo_dev o1)) in
  let o3 := read_trace_s2mm true (demo_cycle 64 (Some [2])) o2 in
  m_trbuf_offset o3 = 1024 /\ m_trbuf_sz o3 = 512 /\
  exists evs, log o3 = log o2 ++ syncTraceBuf 1 1024 (2 ^ 64 - 512) :: evs.
Proof.
  cbv zeta.
  destruct (X8_counter_falls_back true (demo_cycle 64 (Some [2]))
              (snd (read_trace_init demo_dev demo_init true
                      (read_trace_end demo_dev
                         (read_trace_s2mm false (demo_cycle 128 (Some [1]))
                            (demo_session 100 1048576))))))
    as (H1 & H2 & _ & _ & H5).
  - left. reflexivity.
  - reflexivity.
  - reflexivity.
  - vm_compute. split; [intros H; discriminate H|reflexivity].
  - vm_compute. reflexivity.
  - vm_compute. reflexivity.
  - split; [exact H1|]. split; [exact H2|exact H5].
Defined.

(** ** Initialisation, again *)

(** X9.  [read_trace_init] clears both latches and reports what it
    stores in [m_initialized], but it keeps the stream window, the
    rollover count, the saved word count and the status of whatever ran
    before.  Without a stream transport it calls nothing and succeeds
    exactly when the device has a FIFO; with one it succeeds exactly when
    the allocation size is not zero and the device returns a buffer. *)
Theorem X9_read_trace_init :
  forall (dev : DeviceIntf) (r : init_response) (circ_buf : bool) (o : DeviceTraceOffload),
    let res := read_trace_init dev r circ_buf o in
    m_trbuf_full (snd res) = false /\
    trbuf_offload_done (snd res) = false /\
    m_trbuf_sz (snd res) = m_trbuf_sz o /\
    m_trbuf_offset (snd res) = m_trbuf_offset o /\
    m_rollover_count (snd res) = m_rollover_count o /\
    m_wordcount_old (snd res) = m_wordcount_old o /\
    status (snd res) = status o /\
    m_initialized (snd res) = fst res /\
    (hasTs2mm dev = false ->
     fst res = hasFIFO dev /\ log (snd res) = log o /\ m_trbuf (snd res) = m_trbuf o) /\
    (hasTs2mm dev = true ->
     (fst res = true <-> m_trbuf_alloc_sz o <> 0 /\ dev_alloc r <> 0)).
Proof.
  intros dev r circ_buf o res.
  destruct (read_trace_init_frame dev r circ_buf o)
    as (_ & F2 & F3 & F4 & F5 & F6 & F7 & F8 & _).
  fold res in F2, F3, F4, F5, F6, F7, F8.
  repeat (split; [assumption|]).
  split; [reflexivity|]. split.
  - intros T. subst res. unfold read_trace_init. rewrite T.
    destruct (hasFIFO dev); destruct o; cbn; auto.
  - intros T. subst res. unfold read_trace_init. rewrite T.
    set (o1 := set_trbuf_offload_done false (set_m_trbuf_full false o)).
    destruct (init_s2mm_spec dev r circ_buf o1) as (S1 & _).
    replace (m_trbuf_alloc_sz o1) with (m_trbuf_alloc_sz o) in S1
      by (subst o1; destruct o; reflexivity).
    destruct (init_s2mm dev r circ_buf o1) as [ok o2]. cbn [fst snd] in *.
    replace (m_initialized (set_m_initialized ok o2)) with ok by (destruct o2; reflexivity).
    exact S1.
Qed.

Lemma do_op_circ win32 dev op o o' :
  do_op win32 dev op o = Some o' ->
  m_use_circ_buf o = true -> m_use_circ_buf o' = true.
Proof.
  intros H C. destruct op as [type| | |now|r circ_buf|force c|]; cbn [do_op] in H;
    try (injection H as <-).
  - destruct (start_offload_some type o o' H) as [[_ ->]|(_ & _ & ->)];
      destruct o; exact C.
  - unfold stop_offload. destruct o as [st]; destruct st; exact C.
  - unfold offload_finished. destruct o as [st]; destruct st; exact C.
  - rewrite (proj1 (proj2 (proj2 (proj2 (proj2 (proj2 (proj2 (proj2
               (train_clock_frame now o))))))))). exact C.
  - unfold read_trace_init, init_s2mm, reset_s2mm. destruct o; cbn in *. subst.
    repeat match goal with
           | |- context [if ?b then _ else _] => destruct b; cbn
           end; reflexivity.
  - destruct (call_m_read_trace_frame win32 dev force c o) as (F & _).
    unfold reader_frame in F. cbv zeta in F. intuition congruence.
  - unfold read_trace_end.
    destruct (hasTs2mm dev); [|destruct o; exact C].
    match goal with
    | |- m_use_circ_buf (set_m_initialized false (reset_s2mm ?x)) = true =>
        destruct (reset_s2mm_frame x) as (R & _);
        replace (m_use_circ_buf (set_m_initialized false (reset_s2mm x)))
          with (m_use_circ_buf (reset_s2mm x)) by (destruct (reset_s2mm x); reflexivity);
        rewrite R
    end.
    destruct o; exact C.
Qed.

(** X10.  Nothing ever clears [m_use_circ_buf]: once an initialisation
    has enabled circular mode, the flag stays set through every later
    call that returns, and a later [read_trace_init] that succeeds
    initialises the data mover in circular mode whatever its [circ_buf]
    argument says. *)
Theorem X10_circular_flag_sticks :
  forall (win32 : bool) (dev : DeviceIntf) (o : DeviceTraceOffload),
    m_use_circ_buf o = true ->
    (forall (ops : list lifecycle_op) (o' : DeviceTraceOffload),
       run_ops win32 dev ops o = Some o' -> m_use_circ_buf o' = true) /\
    (forall (r : init_response) (circ_buf : bool),
       hasTs2mm dev = true -> m_trbuf_alloc_sz o <> 0 -> dev_alloc r <> 0 ->
       exists evs,
         log (snd (read_trace_init dev r circ_buf o)) = log o ++ evs /\
         last evs resetTS2MM = initTS2MM (m_trbuf_alloc_sz o) (dev_addr r) true).
Proof.
  intros win32 dev o C. split.
  - intros ops. revert o C. induction ops as [|op ops IH]; intros o C o' H.
    + cbn in H. injection H as <-. exact C.
    + destruct (run_ops_cons _ _ _ _ _ _ H) as (o1 & H1 & H2).
      apply (IH o1 (do_op_circ _ _ _ _ _ H1 C) o' H2).
  - intros r circ_buf T Ha Hd.
    unfold read_trace_init, init_s2mm, reset_s2mm. rewrite T.
    destruct o; cbn -[Z.eqb] in *. subst.
    repeat match goal with
           | |- context [if ?b then _ else _] => destruct b eqn:?; cbn -[Z.eqb] in *
           end;
      try match goal with
          | H : (_ =? 0) = true |- _ => apply Z.eqb_eq in H; congruence
          end;
      log_extension.
Qed.

(** X10 at work: a circular session is torn down and initialised again
    with [circ_buf = false]; the flag is still set. *)
Lemma X10_circular_flag_sticks_witness :
  m_use_circ_buf (demo_session 10 1048576) = true /\
  exists o',
    run_ops false demo_dev [op_end; op_init demo_init false] (demo_session 10 1048576)
      = Some o' /\
    m_use_circ_buf o' = true.
Proof.
  split; [reflexivity|]. eexists. split; [reflexivity|].
  apply (proj1 (X10_circular_flag_sticks false demo_dev (demo_session 10 1048576) eq_refl)
           [op_end; op_init demo_init false] _ eq_refl).
Defined.

(** ** The FIFO drain *)

Lemma drained_chunks_stops pre post :
  Forall (fun v : list xclTraceResults => v <> []) pre ->
  drained_chunks pre = pre ++ [[]] /\
  drained_chunks (pre ++ [] :: post) = pre ++ [[]].
Proof.
  induction 1 as [|v pre Hv Hpre [IH1 IH2]]; [split; reflexivity|].
  cbn [app drained_chunks].
  destruct v as [|x v]; [congruence|].
  replace (Z.of_nat (length (x :: v)) =? 0) with false
    by (symmetry; apply Z.eqb_neq; cbn [length]; lia).
  rewrite IH1, IH2. split; reflexivity.
Qed.

Lemma packet_count_app l l' : packet_count (l ++ l') = packet_count l + packet_count l'.
Proof.
  unfold packet_count. induction l as [|v l IH]; cbn [app fold_right]; [lia|].
  rewrite IH. lia.
Qed.

Lemma packet_count_concat l : packet_count l = Z.of_nat (length (concat l)).
Proof.
  unfold packet_count. induction l as [|v l IH]; [reflexivity|].
  cbn [fold_right concat]. rewrite IH, length_app. lia.
Qed.

Lemma fifo_events_app l l' : fifo_events (l ++ l') = fifo_events l ++ fifo_events l'.
Proof. unfold fifo_events. apply flat_map_app. Qed.

(** X11.  One FIFO cycle (built without [_WIN32]) that starts with the
    latch clear reads chunk after chunk and hands each to the sink as it
    comes, until the first empty one, which it also hands over; what the
    device holds after that chunk is not read in this cycle.  It leaves
    [m_trace_vector] empty and the status alone, and it sets the full
    latch exactly when the 32-bit count of the packets read reaches the
    FIFO capacity. *)
Theorem X11_fifo_drain :
  forall (dev : DeviceIntf) (c : cycle) (o : DeviceTraceOffload)
         (pre post : list (list xclTraceResults)),
    m_trbuf_full o = false ->
    Forall (fun v => v <> []) pre ->
    dev_fifo c = pre \/ dev_fifo c = pre ++ [] :: post ->
    let o' := read_trace_fifo false dev c o in
    log o' = log o ++ fifo_events pre ++ [readTrace; processTraceData []] /\
    m_trace_vector o' = [] /\
    status o' = status o /\
    m_trbuf_full o' = (fifo_size dev <=? u32 (Z.of_nat (length (concat pre)))).
Proof.
  intros dev c o pre post Hfull Hpre Hfifo o'.
  destruct (read_trace_fifo_spec false dev c o Hfull) as (_ & _ & F3 & F4 & F5 & F6).
  fold o' in F3, F4, F5, F6.
  destruct (drained_chunks_stops pre post Hpre) as [D1 D2].
  assert (D : cycle_chunks false c = pre ++ [[]]).
  { unfold cycle_chunks. destruct Hfifo as [->| ->]; assumption. }
  rewrite D in F4, F5.
  rewrite fifo_events_app in F4. rewrite packet_count_app, packet_count_concat in F5.
  replace (packet_count [[]]) with 0 in F5 by reflexivity.
  rewrite Z.add_0_r in F5.
  repeat split; assumption.
Qed.

(** X11 at work: the device returns two packets, one packet, nothing, and
    would return more; capacity 8. *)
Lemma X11_fifo_drain_witness :
  let dev := {| hasFIFO := true; hasTs2mm := false; supportsCircBuf := false; fifo_size := 8 |} in
  let c := {| dev_wordcount := 0; dev_host_buf := None;
              dev_fifo := [[1; 2]; [3]; []; [4; 5]] |} in
  let o := DeviceTraceOffload_ctor dev 100 0 104857600 0 in
  log (read_trace_fifo false dev c o) =
    [readTrace; processTraceData [1; 2]; readTrace; processTraceData [3];
     readTrace; processTraceData []] /\
  m_trbuf_full (read_trace_fifo false dev c o) = false.
Proof.
  cbv zeta.
  destruct (X11_fifo_drain
              {| hasFIFO := true; hasTs2mm := false; supportsCircBuf := false; fifo_size := 8 |}
              {| dev_wordcount := 0; dev_host_buf := None;
                 dev_fifo := [[1; 2]; [3]; []; [4; 5]] |}
              (DeviceTraceOffload_ctor
                 {| hasFIFO := true; hasTs2mm := false; supportsCircBuf := false;
                    fifo_size := 8 |} 100 0 104857600 0)
              [[1; 2]; [3]] [[4; 5]]) as (H1 & _ & _ & H4).
  - reflexivity.
  - repeat constructor; discriminate.
  - right. reflexivity.
  - split; [exact H1|exact H4].
Defined.

(** ** The status, over all calls *)

Lemma do_op_status win32 dev op o o1 :
  do_op win32 dev op o = Some o1 ->
  match op with
  | op_start _ => status o1 = RUNNING
  | op_finished => status o1 = STOPPED
  | _ => status o1 = status o \/ (status o1 = STOPPING /\ status o <> STOPPED)
  end.
Proof.
  intros H. destruct op as [type| | |now|r circ_buf|force c|]; cbn [do_op] in H;
    try (injection H as <-).
  - destruct (start_offload_some type o o1 H) as [[R ->]|(_ & _ & ->)];
      [exact R | destruct o; reflexivity].
  - unfold stop_offload. destruct o as [st]; destruct st; cbn;
      first [left; reflexivity | right; split; [reflexivity|discriminate]].
  - apply offload_finished_frame.
  - left. apply train_clock_status.
  - left. apply read_trace_init_frame.
  - apply call_m_read_trace_frame.
  - left. apply read_trace_end_frame.
Qed.

(** X12.  Whatever the calls (controller, worker, readers, initialisation,
    teardown), when they return: the status is STOPPED only if it was so
    before or [offload_finished] was called; it is RUNNING only if it was
    so before or [start_offload] was called; and it is IDLE only if it was
    IDLE before and neither [start_offload] nor [offload_finished] was
    called.  In particular no reader and no teardown ever records
    STOPPED. *)
Theorem X12_status_sources :
  forall (win32 : bool) (dev : DeviceIntf) (ops : list lifecycle_op)
         (o o' : DeviceTraceOffload),
    run_ops win32 dev ops o = Some o' ->
    (status o' = STOPPED -> status o = STOPPED \/ In op_finished ops) /\
    (status o' = RUNNING -> status o = RUNNING \/ exists type, In (op_start type) ops) /\
    (status o' = IDLE ->
     status o = IDLE /\ ~ In op_finished ops /\ forall type, ~ In (op_start type) ops).
Proof.
  intros win32 dev ops. induction ops as [|op ops IH]; intros o o' Hrun.
  - cbn in Hrun. injection Hrun as <-. repeat split; auto.
  - destruct (run_ops_cons _ _ _ _ _ _ Hrun) as (o1 & H1 & H2).
    destruct (IH o1 o' H2) as (I1 & I2 & I3).
    pose proof (do_op_status win32 dev op o o1 H1) as S.
    split; [|split].
    + intros H. destruct (I1 H) as [E|E]; [|right; right; exact E].
      destruct op; try (right; left; reflexivity);
        try (destruct S as [S|[S _]]; [left; congruence|congruence]); congruence.
    + intros H. destruct (I2 H) as [E|[type E]]; [|right; exists type; right; exact E].
      destruct op as [type| | |now|r circ_buf|force c|];
        try (right; exists type; left; reflexivity);
        try (destruct S as [S|[S _]]; [left; congruence|congruence]); congruence.
    + intros H. destruct (I3 H) as (E & N1 & N2).
      assert (K : status o1 = status o \/
                  status o1 = STOPPING /\ status o <> STOPPED ->
                  op <> op_finished -> (forall type, op <> op_start type) ->
                  status o = IDLE /\ ~ In op_finished (op :: ops) /\
                  forall type, ~ In (op_start type) (op :: ops)).
      { intros [S'|[S' _]] K1 K2; [|congruence].
        split; [congruence|]. split.
        - intros [C|C]; [exact (K1 C)|exact (N1 C)].
        - intros type [C|C]; [exact (K2 type C)|exact (N2 type C)]. }
      destruct op as [type| | |now|r circ_buf|force c|];
        try congruence; apply K; try exact S; intros; discriminate.
Qed.

(** X12 at work: a stream session is RUNNING after a start, an
    initialisation and a read; the object was constructed IDLE, so a
    [start_offload] is among the calls. *)
Lemma X12_status_sources_witness :
  let ops := [op_start TRACE; op_init demo_init true;
              op_read true (demo_cycle 64 (Some [1]))] in
  exists o',
    run_ops false demo_dev ops (DeviceTraceOffload_ctor demo_dev 100 1048576 104857600 0)
      = Some o' /\
    status o' = RUNNING /\
    exists type, In (op_start type) ops.
Proof.
  cbv zeta. eexists. split; [reflexivity|]. split; [reflexivity|].
  destruct (proj1 (proj2 (X12_status_sources false demo_dev
                     [op_start TRACE; op_init demo_init true;
                      op_read true (demo_cycle 64 (Some [1]))]
                     (DeviceTraceOffload_ctor demo_dev 100 1048576 104857600 0) _ eq_refl))
             eq_refl)
    as [E|E]; [discriminate E | exact E].
Defined.

(** ** Overrun in the worker *)

(** X13.  When an unforced cycle of the running stream worker finds the
    overrun condition (the done latch being clear), the reader sends the
    warning and the marker and requests the stop; the worker leaves its
    loop at once, whatever iterations remain, its final forced read calls
    nothing, and it tears down and records STOPPED. *)
Theorem X13_overrun_ends_worker :
  forall (win32 : bool) (dev : DeviceIntf) (r : init_response) (t : tick) (ticks : list tick)
         (final : cycle) (o : DeviceTraceOffload),
    m_initialized o = true ->
    m_read_trace o = reader_s2mm ->
    status o = RUNNING ->
    trbuf_offload_done o = false ->
    cycle_accepted false (tick_cycle t) o ->
    offload_cannot_keep_up (bytes_written_since_start (tick_cycle t)) (bytes_read_total o)
      (m_trbuf_alloc_sz o) = true ->
    let o0 := train_clock (tick_now t) o in
    let o1 := read_trace_s2mm false (tick_cycle t) o0 in
    let o2 := read_trace_s2mm true final o1 in
    let o3 := offload_finished (read_trace_end dev o2) in
    log o1 = log o0 ++ [message_send_warning; user_event_mark] /\
    status o1 = STOPPING /\
    log o2 = log o1 /\
    offload_device_continuous win32 dev r (t :: ticks) final o = Some o3 /\
    status o3 = STOPPED.
Proof.
  intros win32 dev r t ticks final o Hinit Hrd Hst Hdone Hacc Hover o0 o1 o2 o3.
  destruct (train_clock_frame (tick_now t) o)
    as (F1 & F2 & F3 & F4 & F5 & F6 & F7 & F8 & F9 & _).
  fold o0 in F1, F2, F3, F4, F5, F6, F7, F8, F9.
  set (wc := dev_wordcount (tick_cycle t)) in *.
  assert (E1 : o1 = stop_offload (emit user_event_mark (emit message_send_warning
                      (set_trbuf_offload_done true
                         (set_m_trbuf_offset (m_trbuf_sz o0) (set_m_wordcount_old wc o0)))))).
  { subst o1. rewrite read_trace_s2mm_accepted.
    - cbv zeta. fold wc. rewrite config_s2mm_reader_overrun.
      + cbn [negb]. destruct o0; reflexivity.
      + destruct o0; cbn in *; congruence.
      + unfold bytes_written_since_start, bytes_read_total in *. fold wc in Hover.
        destruct o0; cbn in *. rewrite F4, F5, F7. exact Hover.
    - unfold cycle_accepted in *. rewrite F6. exact Hacc. }
  assert (A1 : trbuf_offload_done o1 = true).
  { rewrite E1. destruct o0 as [st]; destruct st; reflexivity. }
  assert (A2 : status o1 = STOPPING).
  { rewrite E1. destruct o0 as [st]; cbn in F1. rewrite F1, Hst. reflexivity. }
  assert (A3 : log o1 = log o0 ++ [message_send_warning; user_event_mark]).
  { rewrite E1. destruct o0 as [st]; destruct st; cbn; rewrite <- app_assoc; reflexivity. }
  assert (A4 : m_read_trace o1 = reader_s2mm).
  { rewrite E1. destruct o0 as [st]; destruct st; cbn in *; congruence. }
  destruct (read_trace_s2mm_done true final o1 A1) as (B1 & B2 & B3).
  fold o2 in B1, B2, B3.
  assert (L : offload_loop win32 dev (t :: ticks) o = Some o1).
  { cbn [offload_loop]. unfold should_continue. rewrite Hst. cbn [status_eqb].
    fold o0. unfold call_m_read_trace. rewrite F2, Hrd. fold o1.
    replace (if tick_stop t then stop_offload o1 else o1) with o1
      by (destruct (tick_stop t); [rewrite stop_offload_stopping by exact A2|]; reflexivity).
    apply offload_loop_exit. rewrite A2. discriminate. }
  split; [exact A3|]. split; [exact A2|]. split; [exact B2|]. split.
  - unfold offload_device_continuous. rewrite Hinit. cbn [negb]. rewrite L.
    unfold call_m_read_trace. rewrite A4. reflexivity.
  - apply offload_finished_frame.
Qed.

(** X13 at work: a circular session on a 1 MiB buffer that has read
    nothing yet is told of 2 MiB + 8 bytes written. *)
Lemma X13_overrun_ends_worker_witness :
  let t := {| tick_now := 1000000; tick_cycle := demo_cycle 262145 (Some [1]);
              tick_stop := false |} in
  exists o3,
    offload_device_continuous false demo_dev demo_init [t; t] (demo_cycle 262150 (Some [2]))
      (demo_session 10 1048576) = Some o3 /\
    status o3 = STOPPED.
Proof.
  cbv zeta. eexists.
  refine ((fun H => conj (proj1 (proj2 (proj2 (proj2 H)))) (proj2 (proj2 (proj2 (proj2 H)))))
            (X13_overrun_ends_worker false demo_dev demo_init
               {| tick_now := 1000000; tick_cycle := demo_cycle 262145 (Some [1]);
                  tick_stop := false |}
               [ {| tick_now := 1000000; tick_cycle := demo_cycle 262145 (Some [1]);
                    tick_stop := false |} ]
               (demo_cycle 262150 (Some [2])) (demo_session 10 1048576) _ _ _ _ _ _)).
  - reflexivity.
  - reflexivity.
  - reflexivity.
  - reflexivity.
  - right. vm_compute. discriminate.
  - reflexivity.
Defined.

(** ** The worker thread *)

Lemma spawned_app l l' : spawned (l ++ l') = (spawned l + spawned l')%nat.
Proof. unfold spawned. rewrite filter_app, length_app. reflexivity. Qed.

Lemma spawned_none (p : event -> bool) evs :
  (forall type, p (thread_spawn type) = false) ->
  forallb p evs = true -> spawned evs = 0%nat.
Proof.
  intros Hp. induction evs as [|e evs IH]; [reflexivity|]. cbn [forallb]. intros H.
  apply andb_true_iff in H. destruct H as [He H].
  change (e :: evs) with ([e] ++ evs). rewrite spawned_app, (IH H).
  destruct e; try reflexivity. rewrite Hp in He. discriminate He.
Qed.

(** Once a thread is stored in [offload_thread], no call that returns
    spawns another or makes the member joinable no more. *)
Lemma do_op_thread win32 dev op o o' :
  do_op win32 dev op o = Some o' ->
  offload_thread_joinable o = true ->
  offload_thread_joinable o' = true /\ spawned (log o') = spawned (log o).
Proof.
  intros H J. destruct op as [type| | |now|r circ_buf|force c|]; cbn [do_op] in H;
    try (injection H as <-).
  - destruct (start_offload_some type o o' H) as [[_ ->]|(_ & J' & _)]; [auto|congruence].
  - unfold stop_offload. destruct o as [st]; destruct st; cbn in *; auto.
  - unfold offload_finished. destruct o as [st]; destruct st; cbn in *; auto.
  - unfold train_clock. destruct (_ || _); destruct o; cbn -[spawned] in *; [|auto].
    rewrite spawned_app. cbn. rewrite Nat.add_0_r. auto.
  - destruct (read_trace_init_frame dev r circ_buf o)
      as (_ & _ & _ & _ & _ & _ & _ & _ & evs & F2 & F3).
    cbv zeta in *. split.
    + clear F2 F3. unfold read_trace_init, init_s2mm, reset_s2mm.
      destruct o; cbn in *. subst.
      repeat match goal with
             | |- context [if ?b then _ else _] => destruct b; cbn
             end; reflexivity.
    + change (spawned (log (snd (read_trace_init dev r circ_buf o))) = spawned (log o)).
      rewrite F2, spawned_app, (spawned_none _ evs (fun _ => eq_refl) F3). apply Nat.add_0_r.
  - unfold call_m_read_trace. destruct (m_read_trace o).
    + destruct (read_trace_fifo_frame win32 dev c o) as (F1 & _ & _ & evs & F4 & F5).
      cbv zeta in *. unfold reader_frame in F1. split; [intuition congruence|].
      rewrite F4, spawned_app, (spawned_none _ evs (fun _ => eq_refl) F5). apply Nat.add_0_r.
    + destruct (read_trace_s2mm_frame force c o) as (F1 & (evs & F4 & F5) & _).
      unfold reader_frame in F1. split; [intuition congruence|].
      rewrite F4, spawned_app, (spawned_none _ evs (fun _ => eq_refl) F5). apply Nat.add_0_r.
  - destruct (read_trace_end_log dev o) as (_ & evs & F2 & F3). split.
    + clear F2 F3. unfold read_trace_end, reset_s2mm. destruct o; cbn in *. subst.
      repeat match goal with
             | |- context [if ?b then _ else _] => destruct b; cbn
             end; reflexivity.
    + rewrite F2, spawned_app.
      change (endProcessTraceData [] :: evs) with ([endProcessTraceData []] ++ evs).
      rewrite spawned_app, (spawned_none _ evs (fun _ => eq_refl) F3). cbn. lia.
Qed.

(** X17.  An object spawns at most one worker.  [start_offload] stores the
    thread it creates in [offload_thread], which no member function joins
    or detaches; so after an accepted [start_offload] has returned, whatever
    calls follow and return, the member stays joinable, no further thread
    is spawned, and every later [start_offload] is either the no-op of a
    RUNNING object or ends the process.  In particular [start_offload]
    after [stop_offload], or after the worker's [offload_finished], never
    returns: a session that was stopped cannot be started again. *)
Theorem X17_single_worker :
  forall (win32 : bool) (dev : DeviceIntf) (type : OffloadThreadType)
         (o o1 : DeviceTraceOffload),
    status o <> RUNNING ->
    start_offload type o = Some o1 ->
    (offload_thread_joinable o = false /\
     offload_thread_joinable o1 = true /\
     status o1 = RUNNING /\
     spawned (log o1) = S (spawned (log o))) /\
    forall (ops : list lifecycle_op) (o2 : DeviceTraceOffload),
      run_ops win32 dev ops o1 = Some o2 ->
      offload_thread_joinable o2 = true /\
      spawned (log o2) = spawned (log o1) /\
      (forall type', start_offload type' o2 =
                     if status_eqb (status o2) RUNNING then Some o2 else None) /\
      (forall type', start_offload type' (stop_offload o2) = None) /\
      (forall type', start_offload type' (offload_finished o2) = None).
Proof.
  intros win32 dev type o o1 Hst H.
  destruct (start_offload_some type o o1 H) as [[R _]|(_ & J & ->)]; [congruence|].
  assert (J1 : offload_thread_joinable
                 (set_offload_thread_joinable true
                    (emit (thread_spawn type) (set_status RUNNING o))) = true)
    by (destruct o; reflexivity).
  split.
  { split; [exact J|]. split; [exact J1|]. split; [destruct o; reflexivity|].
    destruct o; cbn -[spawned]. rewrite spawned_app. cbn. lia. }
  clear H. set (o1 := set_offload_thread_joinable true _) in *. clearbody o1.
  intros ops. revert o1 J1. induction ops as [|op ops IH]; intros o1 J1 o2 Hrun.
  - cbn in Hrun. injection Hrun as <-.
    split; [exact J1|]. split; [reflexivity|]. split; [|split].
    + intros type'. destruct (status_eqb (status o1) RUNNING) eqn:E.
      * apply start_offload_running. destruct (status o1); try discriminate; reflexivity.
      * apply start_offload_terminates; [|exact J1]. intros R. rewrite R in E. discriminate.
    + intros type'. apply start_offload_terminates; [apply stop_offload_not_running|].
      unfold stop_offload. destruct o1 as [st]; destruct st; exact J1.
    + intros type'. apply start_offload_terminates.
      * rewrite (proj1 (offload_finished_frame o1)). discriminate.
      * unfold offload_finished. destruct o1 as [st]; destruct st; exact J1.
  - destruct (run_ops_cons _ _ _ _ _ _ Hrun) as (o3 & H1 & H2).
    destruct (do_op_thread win32 dev op o1 o3 H1 J1) as [J3 S3].
    destruct (IH o3 J3 o2 H2) as (I1 & I2 & I3).
    split; [exact I1|]. split; [congruence|exact I3].
Qed.

(** X17 at work: the second session of an object: started, stopped, and
    started again, where the process ends. *)
Lemma X17_single_worker_witness :
  let o := DeviceTraceOffload_ctor demo_dev 100 1048576 104857600 0 in
  status o <> RUNNING /\
  start_offload TRACE o = Some (started TRACE o) /\
  start_offload TRACE (stop_offload (started TRACE o)) = None /\
  run_calls [call_start TRACE; call_stop; call_start TRACE] o = None.
Proof.
  cbv zeta. split; [discriminate|]. split; [reflexivity|]. split; [|reflexivity].
  refine (proj1 (proj2 (proj2 (proj2
            (proj2 (X17_single_worker false demo_dev TRACE
                      (DeviceTraceOffload_ctor demo_dev 100 1048576 104857600 0)
                      (started TRACE (DeviceTraceOffload_ctor demo_dev 100 1048576 104857600 0))
                      _ eq_refl)
               [] _ eq_refl)))) TRACE).
  discriminate.
Defined.

(** ** The IOPS test driver *)

Lemma replay_app (a b : list run_event) (busy : Z -> bool) :
  replay (a ++ b) busy =
  match replay a busy with Some busy' => replay b busy' | None => None end.
Proof.
  revert busy; induction a as [|[i|i] a IH]; intros busy; cbn; [reflexivity| |];
    destruct (busy i); auto.
Qed.

Lemma starts_app (a b : list run_event) : starts (a ++ b) = starts a + starts b.
Proof. unfold starts; rewrite filter_app, length_app; lia. Qed.

Lemma waits_app (a b : list run_event) : waits (a ++ b) = waits a + waits b.
Proof. unfold waits; rewrite filter_app, length_app; lia. Qed.

Lemma runTest_issue_inv (cmds_left : nat) :
  forall (i total : Z) (calls : list run_event) (busy : Z -> bool),
    0 <= i < total -> total < 2 ^ 32 ->
    replay calls (fun _ => false) = Some busy ->
    (forall j, busy j = true <-> 0 <= j < i) ->
    starts calls = i -> waits calls = 0 ->
    Forall (fun e => 0 <= run_index e < i + Z.of_nat cmds_left) calls ->
    exists calls' busy',
      runTest_issue cmds_left i i total calls
        = (Z.min (i + Z.of_nat cmds_left) total, calls') /\
      replay calls' (fun _ => false) = Some busy' /\
      (forall j, busy' j = true <-> 0 <= j < Z.min (i + Z.of_nat cmds_left) total) /\
      starts calls' = Z.min (i + Z.of_nat cmds_left) total /\
      waits calls' = 0 /\
      Forall (fun e => 0 <= run_index e < i + Z.of_nat cmds_left) calls'.
Proof.
  induction cmds_left as [|k IH]; intros i total calls busy Hi Ht Hr Hb Hs Hw Hf.
  - exists calls, busy. cbn [runTest_issue].
    replace (Z.min (i + Z.of_nat 0) total) with i by lia.
    split; [reflexivity|]. split; [exact Hr|]. split; [exact Hb|].
    split; [exact Hs|]. split; [exact Hw | exact Hf].
  - cbn [runTest_issue]. rewrite (u32_small (i + 1)) by lia.
    assert (Hbi : busy i = false).
    { destruct (busy i) eqn:E; [apply Hb in E; lia | reflexivity]. }
    assert (Hr' : replay (calls ++ [run_start i]) (fun _ => false)
                  = Some (fun j => if j =? i then true else busy j)).
    { rewrite replay_app, Hr. cbn. rewrite Hbi. reflexivity. }
    assert (Hb' : forall j, (if j =? i then true else busy j) = true <-> 0 <= j < i + 1).
    { intros j. destruct (Z.eqb_spec j i) as [->|N].
      - split; [lia | reflexivity].
      - rewrite Hb. lia. }
    assert (Hs' : starts (calls ++ [run_start i]) = i + 1).
    { rewrite starts_app, Hs. reflexivity. }
    assert (Hw' : waits (calls ++ [run_start i]) = 0).
    { rewrite waits_app, Hw. reflexivity. }
    assert (Hf' : Forall (fun e => 0 <= run_index e < i + Z.of_nat (S k))
                         (calls ++ [run_start i])).
    { apply Forall_app; split; [exact Hf|]. constructor; [cbn; lia | constructor]. }
    destruct (Z.eqb_spec (i + 1) total) as [E|N].
    + exists (calls ++ [run_start i]), (fun j => if j =? i then true else busy j).
      replace (Z.min (i + Z.of_nat (S k)) total) with (i + 1) by lia.
      split; [reflexivity|]. split; [exact Hr'|].
      split; [exact Hb'|]. split; [exact Hs'|]. split; [exact Hw' | exact Hf'].
    + replace (i + Z.of_nat (S k)) with (i + 1 + Z.of_nat k) in * by lia.
      apply (IH (i + 1) total (calls ++ [run_start i])
                (fun j => if j =? i then true else busy j)); try assumption; lia.
Qed.

Lemma runTest_wait_inv (fuel : nat) :
  forall (n i issued completed total : Z) (calls : list run_event) (busy : Z -> bool),
    0 <= i < n -> total < 2 ^ 32 ->
    0 <= completed <= issued -> issued <= total ->
    issued - completed <= n ->
    (issued < total -> issued - completed = n) ->
    replay calls (fun _ => false) = Some busy ->
    (forall j, busy j = true <->
               0 <= j < n /\
               (i <= j /\ j - i < issued - completed \/
                j < i /\ j - i + n < issued - completed)) ->
    starts calls = issued -> waits calls = completed ->
    Forall (fun e => 0 <= run_index e < n) calls ->
    total - completed <= Z.of_nat fuel ->
    exists calls' busy',
      runTest_wait fuel n i issued completed total calls = Some calls' /\
      replay calls' (fun _ => false) = Some busy' /\
      (forall j, busy' j = false) /\
      starts calls' = total /\ waits calls' = total /\
      Forall (fun e => 0 <= run_index e < n) calls'.
Proof.
  induction fuel as [|k IH];
    intros n i issued completed total calls busy Hi Ht Hc Hit HL Hfull Hr Hb Hs Hw Hf Hfuel.
  - assert (completed = total) by lia. assert (issued = total) by lia. subst.
    exists calls, busy. cbn [runTest_wait]. rewrite Z.ltb_irrefl.
    repeat split; try assumption.
    intros j. destruct (busy j) eqn:E; [apply Hb in E; lia | reflexivity].
  - cbn [runTest_wait]. destruct (Z.ltb_spec completed total) as [Hlt|Hge].
    + replace ((0 <=? i) && (i <? n)) with true
        by (symmetry; apply andb_true_iff; split; [apply Z.leb_le | apply Z.ltb_lt]; lia).
      rewrite (u32_small (completed + 1)) by lia.
      assert (Hbi : busy i = true) by (apply Hb; lia).
      assert (Hr1 : replay (calls ++ [run_wait i]) (fun _ => false)
                    = Some (fun j => if j =? i then false else busy j)).
      { rewrite replay_app, Hr. cbn. rewrite Hbi. reflexivity. }
      assert (Hw1 : waits (calls ++ [run_wait i]) = completed + 1).
      { rewrite waits_app, Hw. reflexivity. }
      assert (Hs1 : starts (calls ++ [run_wait i]) = issued).
      { rewrite starts_app, Hs. cbn. lia. }
      assert (Hf1 : Forall (fun e => 0 <= run_index e < n) (calls ++ [run_wait i])).
      { apply Forall_app; split; [exact Hf|]. constructor; [cbn; lia | constructor]. }
      assert (Hi' : 0 <= (if i + 1 =? n then 0 else i + 1) < n).
      { destruct (Z.eqb_spec (i + 1) n); lia. }
      destruct (Z.ltb_spec issued total) as [Hmore|Hall].
      * rewrite (u32_small (issued + 1)) by lia.
        apply (IH n _ (issued + 1) (completed + 1) total _
                  (fun j => if j =? i then true else if j =? i then false else busy j));
          try assumption; try lia.
        -- rewrite replay_app, Hr1. cbn. rewrite Z.eqb_refl. reflexivity.
        -- intros j. specialize (Hb j). specialize (Hfull Hmore).
           destruct (Z.eqb_spec (i + 1) n); destruct (Z.eqb_spec j i) as [->|Nj];
             try rewrite Hb; split; intros; try reflexivity; lia.
        -- rewrite starts_app, Hs1. reflexivity.
        -- rewrite waits_app, Hw1. cbn. lia.
        -- apply Forall_app; split; [exact Hf1|]. constructor; [cbn; lia | constructor].
      * apply (IH n _ issued (completed + 1) total _
                  (fun j => if j =? i then false else busy j));
          try assumption; try lia.
        intros j. specialize (Hb j).
        destruct (Z.eqb_spec (i + 1) n); destruct (Z.eqb_spec j i) as [->|Nj];
          try rewrite Hb; split; intros; try discriminate; lia.
    + assert (completed = total) by lia. assert (issued = total) by lia. subst.
      exists calls, busy. repeat split; try assumption.
      intros j. destruct (busy j) eqn:E; [apply Hb in E; lia | reflexivity].
Qed.

Lemma runTest_issue_first (size : nat) (total : Z) :
  0 < total < 2 ^ 32 ->
  exists calls busy,
    runTest_issue size 0 0 total [] = (Z.min (Z.of_nat size) total, calls) /\
    replay calls (fun _ => false) = Some busy /\
    (forall j, busy j = true <-> 0 <= j < Z.min (Z.of_nat size) total) /\
    starts calls = Z.min (Z.of_nat size) total /\
    waits calls = 0 /\
    Forall (fun e => 0 <= run_index e < Z.of_nat size) calls.
Proof.
  intros Ht.
  assert (Hb : forall j : Z, false = true <-> 0 <= j < 0).
  { intros j; split; [discriminate | lia]. }
  exact (runTest_issue_inv size 0 total [] (fun _ => false)
           ltac:(lia) (proj2 Ht) eq_refl Hb eq_refl eq_refl (Forall_nil _)).
Qed.

(** X14.  With at least one command and a positive total, [runTest]
    returns; every call is on a command of the vector, a command is
    started only while idle and waited for only while in flight, exactly
    [total] commands are started and [total] are waited for, and nothing
    is in flight at the end. *)
Theorem X14_runTest_completes (size : nat) (total : Z) :
  (0 < size)%nat -> 0 < total < 2 ^ 32 ->
  exists calls busy,
    runTest size total = Some calls /\
    replay calls (fun _ => false) = Some busy /\
    (forall j, busy j = false) /\
    starts calls = total /\ waits calls = total /\
    Forall (fun e => 0 <= run_index e < Z.of_nat size) calls.
Proof.
  intros Hn Ht. unfold runTest.
  destruct (runTest_issue_first size total Ht) as (calls & busy & E & Hr & Hb & Hs & Hw & Hf).
  rewrite E.
  apply (runTest_wait_inv _ _ 0 _ 0 total calls busy); try assumption; try lia.
  intros j. rewrite Hb. lia.
Qed.

Lemma X14_runTest_completes_witness :
  (0 < 3)%nat /\ 0 < 7 < 2 ^ 32 /\
  exists calls busy,
    runTest 3 7 = Some calls /\
    replay calls (fun _ => false) = Some busy /\
    (forall j, busy j = false) /\
    starts calls = 7 /\ waits calls = 7 /\
    Forall (fun e => 0 <= run_index e < Z.of_nat 3) calls.
Proof.
  split; [lia|]. split; [lia|].
  apply (X14_runTest_completes 3 7); lia.
Defined.

Lemma runTest_issue_all (cmds_left : nat) :
  forall (i : Z) (calls : list run_event),
    0 <= i -> i + Z.of_nat cmds_left < 2 ^ 32 ->
    runTest_issue cmds_left i i 0 calls
      = (i + Z.of_nat cmds_left,
         calls ++ map (fun k => run_start (i + Z.of_nat k)) (seq 0 cmds_left)).
Proof.
  induction cmds_left as [|k IH]; intros i calls Hi Hn.
  - cbn. rewrite app_nil_r, Z.add_0_r. reflexivity.
  - cbn [runTest_issue]. rewrite (u32_small (i + 1)) by lia.
    destruct (Z.eqb_spec (i + 1) 0) as [E|_]; [lia|].
    rewrite IH by lia. rewrite <- app_assoc. cbn [seq map app].
    rewrite <- seq_shift, map_map.
    replace (i + 1 + Z.of_nat k) with (i + Z.of_nat (S k)) by lia.
    replace (i + Z.of_nat 0) with i by lia.
    do 3 f_equal. apply map_ext. intros a. f_equal. lia.
Qed.

(** X15.  With [total = 0] the issue loop never meets its exit test: every
    command of the vector is started, in order, none is waited for, and
    all of them are still in flight when [runTest] returns. *)
Theorem X15_runTest_zero_total (size : nat) :
  Z.of_nat size < 2 ^ 32 ->
  runTest size 0 = Some (map (fun k => run_start (Z.of_nat k)) (seq 0 size)) /\
  starts (map (fun k => run_start (Z.of_nat k)) (seq 0 size)) = Z.of_nat size /\
  waits (map (fun k => run_start (Z.of_nat k)) (seq 0 size)) = 0.
Proof.
  intros Hn. unfold runTest. rewrite (runTest_issue_all size 0 []) by lia.
  cbn [app Z.add]. split; [|split].
  - destruct size; reflexivity.
  - unfold starts. rewrite forallb_filter_id.
    + rewrite length_map, length_seq. reflexivity.
    + apply forallb_forall. intros e He. apply in_map_iff in He.
      destruct He as (k & <- & _). reflexivity.
  - unfold waits. replace (filter _ _) with (@nil run_event); [reflexivity|].
    symmetry. induction (seq 0 size); [reflexivity | exact IHl].
Qed.

Lemma X15_runTest_zero_total_witness :
  Z.of_nat 2 < 2 ^ 32 /\
  runTest 2 0 = Some [run_start 0; run_start 1].
Proof.
  split; [reflexivity|].
  exact (proj1 (X15_runTest_zero_total 2 eq_refl)).
Defined.

(** X16.  [runTest] indexes outside the vector exactly when the vector is
    empty and the total is positive. *)
Theorem X16_runTest_empty_vector (size : nat) (total : Z) :
  0 <= total < 2 ^ 32 ->
  (runTest size total = None <-> size = O /\ 0 < total).
Proof.
  intros Ht. split.
  - intros E. destruct size as [|k].
    + split; [reflexivity|]. destruct (Z.eq_dec total 0) as [->|N]; [discriminate E | lia].
    + exfalso. destruct (Z.eq_dec total 0) as [->|N].
      * unfold runTest in E. destruct (runTest_issue (S k) 0 0 0 []) as [issued calls].
        discriminate E.
      * unfold runTest in E.
        destruct (runTest_issue_first (S k) total ltac:(lia))
          as (calls & busy & E' & Hr & Hb & Hs & Hw & Hf).
        rewrite E' in E.
        destruct (runTest_wait_inv (Z.to_nat total) (Z.of_nat (S k)) 0
                    (Z.min (Z.of_nat (S k)) total) 0 total calls busy)
          as (calls' & busy' & R & _); try assumption; try lia.
        -- intros j. rewrite Hb. lia.
        -- congruence.
  - intros [-> Hpos]. unfold runTest. cbn [runTest_issue].
    destruct (Z.to_nat total) as [|k] eqn:Ek; [lia|].
    cbn [runTest_wait]. destruct (Z.ltb_spec 0 total); [reflexivity | lia].
Qed.

Lemma X16_runTest_empty_vector_witness :
  0 <= 5 < 2 ^ 32 /\ runTest 0 5 = None.
Proof.
  split; [lia|].
  apply (proj2 (X16_runTest_empty_vector 0 5 ltac:(lia))). split; [reflexivity | lia].
Defined.
